(** * FingerPrint library: packet protocol, template transfer and orchestration

    A shallow embedding of [src/lib/FingerPrint/FingerPrint.cpp] and the
    properties of its framing format, template download and upload, and of
    the enrollment and verification sequences.

    Conventions of the embedding.
    - [uint8_t], [uint16_t] and [int16_t] values are [Z]; where the C code can
      wrap, the reduction modulo [2^8] or [2^16] is written out.  Counters
      that the loop guards keep below [TEMPLATE_SIZE] ([bytesRead],
      [bytesSent], [chunkSize]) are [nat], because they index buffers.
    - Buffers ([uint8_t*]) are [list Z], written by index.
    - The sensor driver ([Adafruit_Fingerprint]) and the serial [Stream] are
      outside the repository.  They are modelled by a [World]: the answers
      the driver and the transport will give, in order, and the trace of the
      calls made so far.  A driver call with no answer left blocks ([None]);
      a serial read with no byte left times out, as [_readByte] does.
    - [Serial.print*] logging and [delay] are not modelled, except in
      [_printHex], whose output is all it does. *)

From Stdlib Require Import ZArith Lia Bool Zbitwise.
From stdpp Require Import base list.

Local Open Scope Z_scope.

(** ** Driver constants

    The names below are macros of [Adafruit_Fingerprint.h], which is not part
    of the repository; the code is verified for every value they may have. *)

Class DriverCodes : Type := {
  FINGERPRINT_OK : Z;
  FINGERPRINT_PACKETRECIEVEERR : Z;
  FINGERPRINT_NOFINGER : Z;
  FINGERPRINT_IMAGEMESS : Z;
  FINGERPRINT_FEATUREFAIL : Z;
  FINGERPRINT_ENROLLMISMATCH : Z;
  FINGERPRINT_TIMEOUT : Z;
  FINGERPRINT_UPLOAD : Z;
  FINGERPRINT_COMMANDPACKET : Z;
  FINGERPRINT_DATAPACKET : Z;
  FINGERPRINT_ACKPACKET : Z;
  FINGERPRINT_ENDDATAPACKET : Z;
  (* the codes are bytes: the code stores them in [uint8_t] *)
  driver_codes_u8 :
    Forall (λ c, 0 ≤ c < 256)
      [FINGERPRINT_OK; FINGERPRINT_PACKETRECIEVEERR; FINGERPRINT_NOFINGER;
       FINGERPRINT_IMAGEMESS; FINGERPRINT_FEATUREFAIL;
       FINGERPRINT_ENROLLMISMATCH; FINGERPRINT_TIMEOUT; FINGERPRINT_UPLOAD;
       FINGERPRINT_COMMANDPACKET; FINGERPRINT_DATAPACKET;
       FINGERPRINT_ACKPACKET; FINGERPRINT_ENDDATAPACKET]
}.

(** [FingerPrint.h] *)
Definition HASH_SIZE : nat := 32.
Definition TEMPLATE_SIZE : nat := 512.

(** ** The world: driver answers, serial input, and the trace of calls *)

Inductive Event : Type :=
| EvGetImage (r : Z)
| EvImage2Tz (slot r : Z)
| EvCreateModel (r : Z)
| EvWriteStructuredPacket (type : Z) (data : list Z)
| EvGetStructuredPacket (r : Z) (data : list Z)
| EvSerialWrite (bytes : list Z)
| EvSerialFlush
| EvPayload (b : Z).

Record World : Type := mkWorld {
  w_serial : bool;                 (* [_serial] has been set *)
  w_images : list Z;               (* answers of [getImage] *)
  w_convs : list Z;                (* answers of [image2Tz] *)
  w_models : list Z;               (* answers of [createModel] *)
  w_acks : list (Z * list Z);      (* [getStructuredPacket]: status, packet data *)
  w_rx : list (option Z);          (* serial input: a byte, or a silent gap *)
  w_trace : list Event             (* calls made so far, oldest first *)
}.

Definition emit (e : Event) (w : World) : World :=
  mkWorld (w_serial w) (w_images w) (w_convs w) (w_models w) (w_acks w)
          (w_rx w) (w_trace w ++ [e]).

Definition set_images (l : list Z) (w : World) : World :=
  mkWorld (w_serial w) l (w_convs w) (w_models w) (w_acks w) (w_rx w) (w_trace w).
Definition set_convs (l : list Z) (w : World) : World :=
  mkWorld (w_serial w) (w_images w) l (w_models w) (w_acks w) (w_rx w) (w_trace w).
Definition set_models (l : list Z) (w : World) : World :=
  mkWorld (w_serial w) (w_images w) (w_convs w) l (w_acks w) (w_rx w) (w_trace w).
Definition set_acks (l : list (Z * list Z)) (w : World) : World :=
  mkWorld (w_serial w) (w_images w) (w_convs w) (w_models w) l (w_rx w) (w_trace w).
Definition set_rx (l : list (option Z)) (w : World) : World :=
  mkWorld (w_serial w) (w_images w) (w_convs w) (w_models w) (w_acks w) l (w_trace w).

(** ** A state monad with blocking *)

Definition M (A : Type) : Type := World -> option (A * World).

#[global] Instance M_ret : MRet M := λ A x w, Some (x, w).
#[global] Instance M_bind : MBind M := λ A B f m w,
  match m w with
  | Some (x, w') => f x w'
  | None => None
  end.

Definition blocked {A : Type} : M A := λ _, None.

(** ** Driver and transport primitives *)

Definition getImage : M Z := λ w,
  match w_images w with
  | [] => None
  | r :: rest => Some (r, emit (EvGetImage r) (set_images rest w))
  end.

Definition image2Tz (slot : Z) : M Z := λ w,
  match w_convs w with
  | [] => None
  | r :: rest => Some (r, emit (EvImage2Tz slot r) (set_convs rest w))
  end.

Definition createModel : M Z := λ w,
  match w_models w with
  | [] => None
  | r :: rest => Some (r, emit (EvCreateModel r) (set_models rest w))
  end.

Definition writeStructuredPacket (type : Z) (data : list Z) : M unit := λ w,
  Some (tt, emit (EvWriteStructuredPacket type data) w).

Definition getStructuredPacket : M (Z * list Z) := λ w,
  match w_acks w with
  | [] => None
  | (r, data) :: rest =>
      Some ((r, data), emit (EvGetStructuredPacket r data) (set_acks rest w))
  end.

Definition serial_set : M bool := λ w, Some (w_serial w, w).

Definition serial_write (bytes : list Z) : M unit := λ w,
  Some (tt, emit (EvSerialWrite bytes) w).

Definition serial_flush : M unit := λ w, Some (tt, emit EvSerialFlush w).

(** Ghost: records a payload byte at the point where the download stores it. *)
Definition note_payload (b : Z) : M unit := λ w, Some (tt, emit (EvPayload b) w).

(** Element [i] of a C array held in a list; bytes past the end read as 0. *)
Definition at_index (l : list Z) (i : nat) : Z := default 0 (l !! i).

(** [memset(buffer + off, v, n)] *)
Definition memset (buffer : list Z) (off : nat) (v : Z) (n : nat) : list Z :=
  take off buffer ++ replicate n v ++ drop (off + n) buffer.

Section FingerPrint.
Context {codes : DriverCodes}.

(** [_readByte]: one byte with a timeout; [-1] when none arrives. *)
Definition _readByte (timeout_ms : Z) : M Z := λ w,
  if negb (w_serial w) then Some (-1, w)
  else match w_rx w with
       | [] => Some (-1, w)
       | None :: rest => Some (-1, set_rx rest w)
       | Some b :: rest => Some (b, set_rx rest w)
       end.

(** The address loop of [_readRawTemplate]: [false] when a read timed out. *)
Fixpoint readAddress (n : nat) : M bool :=
  match n with
  | O => mret true
  | S n' =>
      b ← _readByte 100;
      if b <? 0 then mret false else readAddress n'
  end.

(** The data loop: [n] iterations are left; stops early when the buffer is
    full.  Returns whether a read timed out, [bytesRead] and the buffer. *)
Fixpoint readData (n : nat) (bytesRead : nat) (buffer : list Z)
  : M (bool * nat * list Z) :=
  match n with
  | O => mret (false, bytesRead, buffer)
  | S n' =>
      if (bytesRead <? TEMPLATE_SIZE)%nat then
        dataByte ← _readByte 100;
        if dataByte <? 0 then mret (true, bytesRead, buffer)
        else
          note_payload (dataByte mod 256);;
          readData n' (S bytesRead) (<[bytesRead := dataByte mod 256]> buffer)
      else mret (false, bytesRead, buffer)
  end.

(** Reading and discarding [n] bytes. *)
Fixpoint discardBytes (n : nat) : M unit :=
  match n with
  | O => mret tt
  | S n' => _readByte 100;; discardBytes n'
  end.

(** What one pass of the packet loop of [_readRawTemplate] does: it leaves
    the function with a status, or it has read a data packet and goes back to
    the loop test. *)
Inductive PacketRead : Type :=
| Returned (status : Z) (buffer : list Z)
| DataRead (packetType packetLen : Z) (bytesRead : nat) (buffer : list Z).

(** The body of the packet loop. *)
Definition readPacket (bytesRead : nat) (buffer : list Z) : M PacketRead :=
  b1 ← _readByte 2000;
  b2 ← _readByte 100;
  if (b1 <? 0) || (b2 <? 0) then
    if (0 <? bytesRead)%nat then
      mret (Returned FINGERPRINT_OK
              (memset buffer bytesRead 0 (TEMPLATE_SIZE - bytesRead)))
    else mret (Returned FINGERPRINT_TIMEOUT buffer)
  else if negb (b1 =? 0xEF) || negb (b2 =? 0x01) then
    mret (Returned FINGERPRINT_PACKETRECIEVEERR buffer)
  else
    addr ← readAddress 4;
    if negb addr then mret (Returned FINGERPRINT_TIMEOUT buffer) else
    packetType ← _readByte 100;
    if packetType <? 0 then mret (Returned FINGERPRINT_TIMEOUT buffer) else
    len_high ← _readByte 100;
    len_low ← _readByte 100;
    if (len_high <? 0) || (len_low <? 0) then
      mret (Returned FINGERPRINT_TIMEOUT buffer)
    else
    let packetLen := Z.lor (Z.shiftl len_high 8) len_low mod 65536 in
    if (packetType =? FINGERPRINT_DATAPACKET)
       || (packetType =? FINGERPRINT_ENDDATAPACKET) then
      let dataLen := (packetLen - 2) mod 65536 in
      '(timedOut, bytesRead', buffer') ←
          readData (Z.to_nat dataLen) bytesRead buffer;
      if (timedOut : bool) then mret (Returned FINGERPRINT_TIMEOUT buffer')
      else
        _readByte 100;;
        _readByte 100;;
        mret (DataRead packetType packetLen bytesRead' buffer')
    else if packetType =? FINGERPRINT_ACKPACKET then
      discardBytes (Z.to_nat packetLen);;
      mret (Returned FINGERPRINT_PACKETRECIEVEERR buffer)
    else mret (Returned FINGERPRINT_PACKETRECIEVEERR buffer).

(** The packet loop of [_readRawTemplate] and the code after it. *)
Fixpoint readPackets (fuel : nat) (endReceived : bool) (bytesRead : nat)
    (buffer : list Z) : M (Z * list Z) :=
  if negb endReceived && (bytesRead <? TEMPLATE_SIZE)%nat then
    match fuel with
    | O => blocked
    | S fuel' =>
        r ← readPacket bytesRead buffer;
        match r with
        | Returned status buffer' => mret (status, buffer')
        | DataRead packetType _ bytesRead' buffer' =>
            readPackets fuel' (packetType =? FINGERPRINT_ENDDATAPACKET)
                        bytesRead' buffer'
        end
    end
  else
    mret (FINGERPRINT_OK,
          if (bytesRead <? TEMPLATE_SIZE)%nat
          then memset buffer bytesRead 0 (TEMPLATE_SIZE - bytesRead)
          else buffer).

(** Every pass of the packet loop that does not return consumes serial
    input, so one more pass than there are input entries is enough. *)
Definition readAllPackets (buffer : list Z) : M (Z * list Z) := λ w,
  readPackets (S (length (w_rx w))) false 0 buffer w.

(** [_readRawTemplate] *)
Definition _readRawTemplate (buffer : list Z) : M (Z * list Z) :=
  writeStructuredPacket FINGERPRINT_COMMANDPACKET [FINGERPRINT_UPLOAD; 0x01];;
  '(result, ackData) ← getStructuredPacket;
  if negb (result =? FINGERPRINT_OK) then mret (result, buffer) else
  if negb (at_index ackData 0 =? FINGERPRINT_OK)
  then mret (at_index ackData 0, buffer) else
  readAllPackets buffer.

(** ** Upload *)

(** [sum += b] on a [uint16_t], over the bytes of an array. *)
Definition add_bytes (sum : Z) (bytes : list Z) : Z :=
  fold_left (λ s b, (s + b) mod 65536) bytes sum.

Definition PACKET_SIZE : nat := 128.

(** One data packet of [uploadTemplateToBuffer]: [chunkSize] bytes of the
    template from [bytesSent] on, framed and flushed. *)
Definition sendDataPacket (templateData : list Z) (bytesSent chunkSize : nat)
    (packetType : Z) : M unit :=
  let dataLen := (Z.of_nat chunkSize + 2) mod 65536 in
  let chunk := take chunkSize (drop bytesSent templateData) in
  let sum := add_bytes ((packetType + dataLen) mod 65536) chunk in
  serial_write [0xEF; 0x01];;
  serial_write [0xFF; 0xFF; 0xFF; 0xFF];;
  serial_write [packetType];;
  serial_write [Z.land (Z.shiftr dataLen 8) 0xFF];;
  serial_write [Z.land dataLen 0xFF];;
  serial_write chunk;;
  serial_write [Z.land (Z.shiftr sum 8) 0xFF];;
  serial_write [Z.land sum 0xFF];;
  serial_flush.

(** The packet loop of [uploadTemplateToBuffer].  Each pass sends at least
    one byte, so [TEMPLATE_SIZE] passes are always enough. *)
Fixpoint sendPackets (fuel : nat) (templateData : list Z) (bytesSent : nat)
  : M unit :=
  if (bytesSent <? TEMPLATE_SIZE)%nat then
    match fuel with
    | O => blocked
    | S fuel' =>
      let chunkSize := Nat.min (TEMPLATE_SIZE - bytesSent) PACKET_SIZE in
      let isLastPacket := (TEMPLATE_SIZE <=? bytesSent + chunkSize)%nat in
      let packetType :=
        if isLastPacket then FINGERPRINT_ENDDATAPACKET
        else FINGERPRINT_DATAPACKET in
      sendDataPacket templateData bytesSent chunkSize packetType;;
      sendPackets fuel' templateData (bytesSent + chunkSize)
    end
  else mret tt.

(** [uploadTemplateToBuffer] *)
Definition uploadTemplateToBuffer (templateData : list Z) (bufferID : Z)
  : M Z :=
  s ← serial_set;
  if negb s then mret FINGERPRINT_PACKETRECIEVEERR else
  let cmdData := [0x09; bufferID] in
  let cmdLen := (Z.of_nat (length cmdData) + 2) mod 65536 in
  let sum := add_bytes ((0x01 + cmdLen) mod 65536) cmdData in
  serial_write [0xEF; 0x01];;
  serial_write [0xFF; 0xFF; 0xFF; 0xFF];;
  serial_write [0x01];;
  serial_write [Z.land (Z.shiftr cmdLen 8) 0xFF];;
  serial_write [Z.land cmdLen 0xFF];;
  serial_write cmdData;;
  serial_write [Z.land (Z.shiftr sum 8) 0xFF];;
  serial_write [Z.land sum 0xFF];;
  serial_flush;;
  '(result, ackData) ← getStructuredPacket;
  if negb (result =? FINGERPRINT_OK)
     || negb (at_index ackData 0 =? FINGERPRINT_OK)
  then mret (at_index ackData 0) else
  sendPackets TEMPLATE_SIZE templateData 0;;
  mret FINGERPRINT_OK.

(** ** Finger polling *)

(** [while (getImage() != FINGERPRINT_OK) { if (timeout++ > limit) return ..; }]
    with a [uint8_t] counter; [false] when the bound is exceeded.  Each pass
    takes one answer of [getImage]. *)
Fixpoint awaitFingerLoop (fuel : nat) (limit timeout : Z) : M bool :=
  match fuel with
  | O => blocked
  | S fuel' =>
      p ← getImage;
      if negb (p =? FINGERPRINT_OK) then
        if limit <? timeout then mret false
        else awaitFingerLoop fuel' limit ((timeout + 1) mod 256)
      else mret true
  end.

Definition awaitFinger (limit : Z) : M bool := λ w,
  awaitFingerLoop (length (w_images w)) limit 0 w.

(** [while (getImage() != FINGERPRINT_NOFINGER) { delay(100); }] *)
Fixpoint awaitRemovalLoop (fuel : nat) : M unit :=
  match fuel with
  | O => blocked
  | S fuel' =>
      p ← getImage;
      if negb (p =? FINGERPRINT_NOFINGER) then awaitRemovalLoop fuel'
      else mret tt
  end.

Definition awaitRemoval : M unit := λ w,
  awaitRemovalLoop (length (w_images w)) w.

(** ** Hashing of a captured template *)

Section Hashing.
(** [mbedtls_sha256_*] is the SHA-256 of mbedTLS, outside the repository. *)
Variable mbedtls_sha256 : list Z → list Z.

(** [_getTemplateBytes] *)
Definition _getTemplateBytes (templateBuffer : list Z) : M (Z * list Z) :=
  found ← awaitFinger 200;
  if negb found then mret (1, templateBuffer) else
  p ← image2Tz 1;
  if negb (p =? FINGERPRINT_OK) then
    awaitRemoval;; mret (2, templateBuffer)
  else
  '(result, templateBuffer') ← _readRawTemplate templateBuffer;
  if negb (result =? FINGERPRINT_OK) then
    awaitRemoval;; mret (3, templateBuffer')
  else
  awaitRemoval;; mret (0, templateBuffer').

(** The hashing step of [readAndHashFingerprint]: [TEMPLATE_SIZE] bytes of the
    buffer go through init, starts, update and finish. *)
Definition computeDigest (templateBuffer : list Z) : list Z :=
  mbedtls_sha256 (take TEMPLATE_SIZE templateBuffer).

(** [readAndHashFingerprint]; [templateBuffer] is the content of the local
    array before the capture. *)
Definition readAndHashFingerprint (templateBuffer hashOutput : list Z)
  : M (Z * list Z) :=
  '(result, templateBuffer') ← _getTemplateBytes templateBuffer;
  if negb (result =? 0) then mret (result, hashOutput) else
  mret (0, computeDigest templateBuffer').

End Hashing.

(** [memcmp(a, b, n)]: the sign of the first difference among [n] bytes. *)
Fixpoint memcmp (a b : list Z) (n : nat) : Z :=
  match n with
  | O => 0
  | S n' =>
      let x := at_index a 0 in
      let y := at_index b 0 in
      if x <? y then -1
      else if y <? x then 1
      else memcmp (tail a) (tail b) n'
  end.

(** [compareHashes] *)
Definition compareHashes (hash1 hash2 : list Z) : bool :=
  memcmp hash1 hash2 HASH_SIZE =? 0.

(** ** Verification *)

(** The capture loop of [matchWithTemplate]: [true] on [break], [false] when
    the bound is exceeded. *)
Fixpoint captureLoop (fuel : nat) (timeout : Z) : M bool :=
  match fuel with
  | O => blocked
  | S fuel' =>
      let next (timeout : Z) : M bool :=
        if 200 <? timeout then mret false
        else captureLoop fuel' ((timeout + 1) mod 256) in
      p ← getImage;
      if p =? FINGERPRINT_OK then
        tempResult ← image2Tz 1;
        if tempResult =? FINGERPRINT_OK then mret true
        else if tempResult =? FINGERPRINT_IMAGEMESS then
          next ((timeout + 1) mod 256)
        else if tempResult =? FINGERPRINT_FEATUREFAIL then
          next ((timeout + 1) mod 256)
        else mret true
      else next timeout
  end.

Definition captureGoodImage : M bool := λ w,
  captureLoop (length (w_images w)) 0 w.

(** [((uint16_t)data[1] << 8) | data[2]] *)
Definition ackScore (data : list Z) : Z :=
  Z.lor (Z.shiftl (at_index data 1) 8) (at_index data 2) mod 65536.

(** The content of a packet's [data] array once the driver has stored the
    bytes [data] of an answer in it: they overwrite the beginning of the
    array, the bytes after them keep the values [old] they had. *)
Definition received (data old : list Z) : list Z :=
  data ++ drop (length data) old.

(** [matchWithTemplate]; [score] is the content of [*score] before the call,
    the second component of the result its content after.  The function has
    one packet [matchAck] for both answers: the answer to the second match
    command is stored over the first. *)
Definition matchWithTemplate (storedTemplate : list Z) (score : Z)
  : M (Z * Z) :=
  good ← captureGoodImage;
  if negb good then mret (1, score) else
  p ← uploadTemplateToBuffer storedTemplate 2;
  if negb (p =? FINGERPRINT_OK) then mret (3, score) else
  writeStructuredPacket FINGERPRINT_COMMANDPACKET [0x03];;
  '(p, matchAck) ← getStructuredPacket;
  if negb (p =? FINGERPRINT_OK) then mret (5, score) else
  let matchResult := at_index matchAck 0 in
  if matchResult =? FINGERPRINT_OK then
    awaitRemoval;; mret (0, ackScore matchAck)
  else if matchResult =? FINGERPRINT_ENROLLMISMATCH then
    found ← awaitFinger 100;
    if negb found then mret (4, score) else
    p ← image2Tz 1;
    if negb (p =? FINGERPRINT_OK) then mret (4, score) else
    writeStructuredPacket FINGERPRINT_COMMANDPACKET [0x03];;
    '(p, data) ← getStructuredPacket;
    let matchAck := received data matchAck in
    if (p =? FINGERPRINT_OK) && (at_index matchAck 0 =? FINGERPRINT_OK) then
      awaitRemoval;; mret (0, ackScore matchAck)
    else
      awaitRemoval;; mret (4, score)
  else
    awaitRemoval;; mret (4, score).

(** ** Enrollment *)

(** [enrollAndGetTemplate] *)
Definition enrollAndGetTemplate (templateOutput : list Z) : M (Z * list Z) :=
  found ← awaitFinger 200;
  if negb found then mret (1, templateOutput) else
  p ← image2Tz 1;
  if negb (p =? FINGERPRINT_OK) then mret (2, templateOutput) else
  awaitRemoval;;
  found ← awaitFinger 200;
  if negb found then mret (1, templateOutput) else
  p ← image2Tz 2;
  if negb (p =? FINGERPRINT_OK) then mret (2, templateOutput) else
  p ← createModel;
  if p =? FINGERPRINT_OK then
    '(p, templateOutput') ← _readRawTemplate templateOutput;
    if negb (p =? FINGERPRINT_OK) then mret (4, templateOutput') else
    awaitRemoval;; mret (0, templateOutput')
  else if p =? FINGERPRINT_ENROLLMISMATCH then mret (3, templateOutput)
  else mret (3, templateOutput).

End FingerPrint.

(** ** The object and its serial stream *)

Definition set_serial (s : bool) (w : World) : World :=
  mkWorld s (w_images w) (w_convs w) (w_models w) (w_acks w) (w_rx w) (w_trace w).

(** The constructor: [_serial = nullptr]. *)
Definition FingerPrint (w : World) : World := set_serial false w.

(** [setSerial]; [serial] tells whether the pointer given is not null. *)
Definition setSerial (serial : bool) : M unit := λ w,
  Some (tt, set_serial serial w).

(** ** Hexadecimal dump

    [_printHex] has no effect but what it prints; its model is the bytes it
    sends to [Serial].  [Serial.print(n, HEX)] is [Print::printNumber] of the
    Arduino core: the digits of [n] in base 16, most significant first, at
    least one, each formed by [c < 10 ? c + '0' : c + 'A' - 10]. *)

Definition hex_digit (c : Z) : Z := if c <? 10 then c + 48 else c + 65 - 10.

Fixpoint printNumber (fuel : nat) (n : Z) (str : list Z) : list Z :=
  match fuel with
  | O => str
  | S fuel' =>
      let c := n mod 16 in
      let n' := n / 16 in
      let str' := hex_digit c :: str in
      if n' =? 0 then str' else printNumber fuel' n' str'
  end.

(** An [unsigned long] of 32 bits has at most 8 digits. *)
Definition print_HEX (n : Z) : list Z := printNumber 8 n [].

(** [_printHex]: the characters written, the line end of [println]
    included. *)
Definition _printHex (buffer : list Z) (size : nat) : list Z :=
  flat_map (λ i, let b := at_index buffer i in
                 (if b <? 0x10 then [48] else []) ++ print_HEX b)
           (seq 0 size)
  ++ [13; 10].

(** ** The framing format, in the words of the specification

    Header, address, type, big-endian length (payload length + 2), payload,
    big-endian checksum; the checksum is the sum of type, length and payload
    bytes, truncated to 16 bits. *)

Definition Zsum (l : list Z) : Z := foldr Z.add 0 l.

Definition be16 (v : Z) : list Z := [v / 256 mod 256; v mod 256].

Definition frame_length (payload : list Z) : Z := Z.of_nat (length payload) + 2.

Definition frame_checksum (type : Z) (payload : list Z) : Z :=
  (type + frame_length payload + Zsum payload) mod 65536.

Definition frame_bytes (address : list Z) (type : Z) (payload : list Z)
    (checksum : Z) : list Z :=
  [0xEF; 0x01] ++ address ++ [type] ++ be16 (frame_length payload)
    ++ payload ++ be16 checksum.

Definition broadcast : list Z := [0xFF; 0xFF; 0xFF; 0xFF].

(** A frame as the encoder of the specification emits it. *)
Definition encoded_frame (type : Z) (payload : list Z) : list Z :=
  frame_bytes broadcast type payload (frame_checksum type payload).

Definition is_byte (b : Z) : Prop := 0 ≤ b < 256.

(** ** Observing a trace *)

(** Several events at once. *)
Definition emit_all (evs : list Event) (w : World) : World :=
  mkWorld (w_serial w) (w_images w) (w_convs w) (w_models w) (w_acks w)
          (w_rx w) (w_trace w ++ evs).

(** The frames written to the serial port: the bytes between two flushes. *)
Fixpoint serial_frames_from (cur : list Z) (tr : list Event)
  : list (list Z) :=
  match tr with
  | [] => []
  | EvSerialWrite bytes :: tr' => serial_frames_from (cur ++ bytes) tr'
  | EvSerialFlush :: tr' => cur :: serial_frames_from [] tr'
  | _ :: tr' => serial_frames_from cur tr'
  end.

Definition serial_frames (tr : list Event) : list (list Z) :=
  serial_frames_from [] tr.

(** The payload bytes the download has stored, in order. *)
Fixpoint payload_of (tr : list Event) : list Z :=
  match tr with
  | [] => []
  | EvPayload b :: tr' => b :: payload_of tr'
  | _ :: tr' => payload_of tr'
  end.

(** Serial input not yet consumed. *)
Definition rx_left (w : World) : nat := length (w_rx w).

(** The match command is the structured packet with the single byte 0x03. *)
Definition is_match_command (e : Event) : bool :=
  match e with
  | EvWriteStructuredPacket _ [0x03] => true
  | _ => false
  end.

Fixpoint match_commands (tr : list Event) : nat :=
  match tr with
  | [] => O
  | e :: tr' =>
      ((if is_match_command e then 1 else 0) + match_commands tr')%nat
  end.

(** The run ends on a poll that found no finger. *)
Definition ends_with_removal {codes : DriverCodes} (w : World) : Prop :=
  last (w_trace w) = Some (EvGetImage FINGERPRINT_NOFINGER).

(** The events of one data packet and of the command packet of the upload. *)
Definition packet_events (type dataLen : Z) (payload : list Z) (sum : Z)
  : list Event :=
  [EvSerialWrite [0xEF; 0x01]; EvSerialWrite [0xFF; 0xFF; 0xFF; 0xFF];
   EvSerialWrite [type];
   EvSerialWrite [Z.land (Z.shiftr dataLen 8) 0xFF];
   EvSerialWrite [Z.land dataLen 0xFF];
   EvSerialWrite payload;
   EvSerialWrite [Z.land (Z.shiftr sum 8) 0xFF];
   EvSerialWrite [Z.land sum 0xFF];
   EvSerialFlush].

(** The events of a packet whose length and checksum the upload computes. *)
Definition sent_packet_events (type : Z) (payload : list Z) : list Event :=
  let dataLen := frame_length payload mod 65536 in
  packet_events type dataLen payload
    (add_bytes ((type + dataLen) mod 65536) payload).

(** The [i]-th chunk of a template. *)
Definition chunk (templateData : list Z) (i : nat) : list Z :=
  take PACKET_SIZE (drop (i * PACKET_SIZE) templateData).

Definition upload_data_events {codes : DriverCodes} (templateData : list Z)
  : list Event :=
  sent_packet_events FINGERPRINT_DATAPACKET (chunk templateData 0)
  ++ sent_packet_events FINGERPRINT_DATAPACKET (chunk templateData 1)
  ++ sent_packet_events FINGERPRINT_DATAPACKET (chunk templateData 2)
  ++ sent_packet_events FINGERPRINT_ENDDATAPACKET (chunk templateData 3).

(** The world after a successful upload. *)
Definition uploaded {codes : DriverCodes} (td : list Z) (id : Z) (data : list Z)
    (acks : list (Z * list Z)) (w : World) : World :=
  emit_all (sent_packet_events 0x01 [0x09; id]
            ++ [EvGetStructuredPacket FINGERPRINT_OK data]
            ++ upload_data_events td)
           (set_acks acks w).

(** A frame with the layout, length field and checksum of the format. *)
Definition well_framed (f : list Z) : Prop :=
  ∃ type payload,
    Z.of_nat (length payload) + 2 < 65536 ∧
    f = [0xEF; 0x01] ++ [0xFF; 0xFF; 0xFF; 0xFF] ++ [type]
        ++ be16 (Z.of_nat (length payload) + 2)
        ++ payload
        ++ be16 ((type + (Z.of_nat (length payload) + 2) + Zsum payload)
                 mod 65536).

(** *** One frame through the decoder and the encoder of the code

    The decoder is the packet pass of the download, run on a serial input
    that holds the stream, with an empty template buffer; what it decodes is
    the packet type and the payload it stored.  The encoder is the data-packet
    writer of the upload, applied to a type and a payload. *)

Definition decode_frame {codes : DriverCodes} (stream : list Z)
  : option (Z * list Z) :=
  match readPacket 0 (replicate TEMPLATE_SIZE 0)
          (mkWorld true [] [] [] [] (map Some stream) []) with
  | Some (DataRead packetType _ bytesRead buffer, _) =>
      Some (packetType, take bytesRead buffer)
  | _ => None
  end.

Definition encode_frame (packetType : Z) (payload : list Z) : list Z :=
  match sendDataPacket payload 0 (length payload) packetType
          (mkWorld true [] [] [] [] [] []) with
  | Some (_, w) => concat (serial_frames (w_trace w))
  | None => []
  end.

(** A byte stream that matches the framing format. *)
Definition valid_frame (stream : list Z) : Prop :=
  ∃ address type payload,
    length address = 4%nat ∧ Forall is_byte address ∧ is_byte type ∧
    Forall is_byte payload ∧ frame_length payload < 65536 ∧
    stream = frame_bytes address type payload (frame_checksum type payload).

Definition round_trips {codes : DriverCodes} (stream : list Z) : Prop :=
  ∃ type payload,
    decode_frame stream = Some (type, payload) ∧
    encode_frame type payload = stream.

(** A computation that issues no match command. *)
Definition quiet {A : Type} (m : M A) : Prop :=
  ∀ w x w', m w = Some (x, w') →
            match_commands (w_trace w') = match_commands (w_trace w).

(** The world after the match command has been written and answered. *)
Definition match_exchanged {codes : DriverCodes} (p : Z) (data : list Z)
    (acks : list (Z * list Z)) (w : World) : World :=
  emit (EvGetStructuredPacket p data)
    (set_acks acks
       (emit (EvWriteStructuredPacket FINGERPRINT_COMMANDPACKET [0x03]) w)).


(** The states in which a run of [_readRawTemplate] on [buffer] and [w] is at
    the test of its packet loop with the end packet not yet seen: the bytes
    read so far, the buffer and the world. *)
Inductive LoopState {codes : DriverCodes} (buffer : list Z) (w : World)
  : nat → list Z → World → Prop :=
| loop_entry ackData acks :
    w_acks w = (FINGERPRINT_OK, ackData) :: acks →
    at_index ackData 0 = FINGERPRINT_OK →
    LoopState buffer w 0 buffer
      (emit (EvGetStructuredPacket FINGERPRINT_OK ackData)
         (set_acks acks
            (emit (EvWriteStructuredPacket FINGERPRINT_COMMANDPACKET
                     [FINGERPRINT_UPLOAD; 0x01]) w)))
| loop_next bytesRead buf wk packetType packetLen bytesRead' buf' wk' :
    LoopState buffer w bytesRead buf wk →
    (bytesRead < TEMPLATE_SIZE)%nat →
    readPacket bytesRead buf wk
    = Some (DataRead packetType packetLen bytesRead' buf', wk') →
    packetType ≠ FINGERPRINT_ENDDATAPACKET →
    LoopState buffer w bytesRead' buf' wk'.

(** A transfer as the device sends it: data frames, then an end frame. *)
Definition transfer_stream {codes : DriverCodes} (chunks : list (list Z))
    (final : list Z) : list Z :=
  concat (map (encoded_frame FINGERPRINT_DATAPACKET) chunks)
  ++ encoded_frame FINGERPRINT_ENDDATAPACKET final.

(** ** The driver's constants

    The values [Adafruit_Fingerprint.h] gives the codes; concrete runs below
    use them. *)

Definition adafruit : DriverCodes.
Proof.
  refine {| FINGERPRINT_OK := 0x00;
            FINGERPRINT_PACKETRECIEVEERR := 0x01;
            FINGERPRINT_NOFINGER := 0x02;
            FINGERPRINT_IMAGEMESS := 0x06;
            FINGERPRINT_FEATUREFAIL := 0x07;
            FINGERPRINT_ENROLLMISMATCH := 0x0A;
            FINGERPRINT_TIMEOUT := 0xFF;
            FINGERPRINT_UPLOAD := 0x08;
            FINGERPRINT_COMMANDPACKET := 0x01;
            FINGERPRINT_DATAPACKET := 0x02;
            FINGERPRINT_ACKPACKET := 0x07;
            FINGERPRINT_ENDDATAPACKET := 0x08 |}.
  repeat constructor; lia.
Defined.

(** ** A reference SHA-256

    SHA-256 as in FIPS 180-4, on bytes and 32-bit words held in [Z]; it stands
    for the mbedTLS implementation in concrete runs. *)

Module Sha256.

Definition mask32 : Z := 0xFFFFFFFF.
Definition add32 (x y : Z) : Z := Z.land (x + y) mask32.
Definition rotr (n x : Z) : Z :=
  Z.lor (Z.shiftr x n) (Z.land (Z.shiftl x (32 - n)) mask32).
Definition Ch (x y z : Z) : Z :=
  Z.lxor (Z.land x y) (Z.land (Z.lxor x mask32) z).
Definition Maj (x y z : Z) : Z :=
  Z.lxor (Z.lxor (Z.land x y) (Z.land x z)) (Z.land y z).
Definition bsig0 (x : Z) : Z := Z.lxor (Z.lxor (rotr 2 x) (rotr 13 x)) (rotr 22 x).
Definition bsig1 (x : Z) : Z := Z.lxor (Z.lxor (rotr 6 x) (rotr 11 x)) (rotr 25 x).
Definition ssig0 (x : Z) : Z := Z.lxor (Z.lxor (rotr 7 x) (rotr 18 x)) (Z.shiftr x 3).
Definition ssig1 (x : Z) : Z := Z.lxor (Z.lxor (rotr 17 x) (rotr 19 x)) (Z.shiftr x 10).

(** The constants are defined as the standard defines them: the first 32
    bits of the fractional parts of the cube roots (round constants) and of
    the square roots (initial state) of the first primes. *)

Definition is_prime (n : Z) : bool :=
  (1 <? n) && forallb (λ d, negb (n mod d =? 0)) (seqZ 2 (n - 2)).

Definition primes : list Z := filter (λ n, is_prime n = true) (seqZ 2 310).

(** The integer [k]-th root of [n], found bit by bit from bit [bits] down. *)
Fixpoint iroot (k n : Z) (bits : nat) (r : Z) : Z :=
  match bits with
  | O => r
  | S b =>
      let c := r + 2 ^ Z.of_nat b in
      if c ^ k <=? n then iroot k n b c else iroot k n b r
  end.

Definition frac_root (k : Z) (p : Z) : Z :=
  Z.land (iroot k (p * 2 ^ (32 * k)) 48 0) mask32.

Definition K : list Z := map (frac_root 3) (take 64 primes).

Record state : Type :=
  mkState { sa : Z; sb : Z; sc : Z; sd : Z; se : Z; sf : Z; sg : Z; sh : Z }.

Definition H0 : state :=
  let h (i : nat) := frac_root 2 (nth i primes 0) in
  mkState (h 0%nat) (h 1%nat) (h 2%nat) (h 3%nat)
          (h 4%nat) (h 5%nat) (h 6%nat) (h 7%nat).

Definition be32 (x : Z) : list Z :=
  [Z.land (Z.shiftr x 24) 0xFF; Z.land (Z.shiftr x 16) 0xFF;
   Z.land (Z.shiftr x 8) 0xFF; Z.land x 0xFF].

Definition be64 (x : Z) : list Z := be32 (Z.shiftr x 32) ++ be32 (Z.land x mask32).

Definition pad (msg : list Z) : list Z :=
  let len := Z.of_nat (length msg) in
  msg ++ [0x80] ++ replicate (Z.to_nat ((55 - len) mod 64)) 0 ++ be64 (8 * len).

Fixpoint words (fuel : nat) (bytes : list Z) : list Z :=
  match fuel, bytes with
  | S fuel', b0 :: b1 :: b2 :: b3 :: rest =>
      Z.lor (Z.lor (Z.shiftl b0 24) (Z.shiftl b1 16)) (Z.lor (Z.shiftl b2 8) b3)
      :: words fuel' rest
  | _, _ => []
  end.

Fixpoint schedule (n : nat) (ws : list Z) : list Z :=
  match n with
  | O => ws
  | S n' =>
      let t := length ws in
      let w := add32 (add32 (ssig1 (nth (t - 2) ws 0)) (nth (t - 7) ws 0))
                     (add32 (ssig0 (nth (t - 15) ws 0)) (nth (t - 16) ws 0)) in
      schedule n' (ws ++ [w])
  end.

Definition round (s : state) (kw : Z * Z) : state :=
  let t1 := add32 (add32 (add32 (sh s) (bsig1 (se s))) (Ch (se s) (sf s) (sg s)))
                  (add32 kw.1 kw.2) in
  let t2 := add32 (bsig0 (sa s)) (Maj (sa s) (sb s) (sc s)) in
  mkState (add32 t1 t2) (sa s) (sb s) (sc s) (add32 (sd s) t1) (se s) (sf s) (sg s).

Definition compress (s : state) (block : list Z) : state :=
  let ws := schedule 48 (words 16 block) in
  let s' := fold_left round (combine K ws) s in
  mkState (add32 (sa s) (sa s')) (add32 (sb s) (sb s')) (add32 (sc s) (sc s'))
          (add32 (sd s) (sd s')) (add32 (se s) (se s')) (add32 (sf s) (sf s'))
          (add32 (sg s) (sg s')) (add32 (sh s) (sh s')).

Fixpoint blocks (fuel : nat) (s : state) (bytes : list Z) : state :=
  match fuel, bytes with
  | S fuel', _ :: _ => blocks fuel' (compress s (take 64 bytes)) (drop 64 bytes)
  | _, _ => s
  end.

Definition digest (msg : list Z) : list Z :=
  let padded := pad msg in
  let s := blocks (length padded) H0 padded in
  be32 (sa s) ++ be32 (sb s) ++ be32 (sc s) ++ be32 (sd s)
  ++ be32 (se s) ++ be32 (sf s) ++ be32 (sg s) ++ be32 (sh s).

End Sha256.

(** ** Scripted devices

    Worlds for concrete runs, with the constants of the driver. *)

(** A buffer with old content. *)
Definition stale : list Z := replicate 512 0x77.

Definition template_AA : list Z := replicate 512 0xAA.

(** The device acknowledges the upload command. *)
Definition upload_acked : World := mkWorld true [] [] [] [(0, [0])] [] [].

(** Verification: mismatch on the first match, success on the second. *)
Definition second_try : World :=
  mkWorld true [0; 3; 0; 3; 2] [0; 0] []
          [(0, [0]); (0, [10; 1; 44]); (0, [0; 2; 1])] [] [].


(** Verification: the finger stays, the image never converts. *)
Definition messy_finger : World :=
  mkWorld true (replicate 101 0) (replicate 101 6) [] [] [] [].

(** Verification: another result code on the first match. *)
Definition other_code : World :=
  mkWorld true [0; 0; 2] [0] [] [(0, [0]); (0, [9])] [] [].

(** Enrollment: both scans succeed, the model fails with code 0x01. *)
Definition model_error : World :=
  mkWorld true [0; 2; 0; 2] [0; 0] [1] [] [] [].

(** Enrollment: both scans succeed, the scans do not match (0x0A). *)
Definition model_mismatch : World :=
  mkWorld true [0; 2; 0; 2] [0; 0] [10] [] [] [].

(** Enrollment: no finger for the first scan; no finger for the second. *)
Definition no_first_finger : World :=
  mkWorld true (replicate 202 2) [] [] [] [] [].
Definition no_second_finger : World :=
  mkWorld true (0 :: 2 :: replicate 202 2) [0] [] [] [] [].

(** Download: a data frame of 3 bytes, then an end frame of 2 bytes. *)
Definition short_transfer : World :=
  mkWorld true [] [] [] [(0, [0])]
          (map Some (encoded_frame 2 [0x11; 0x12; 0x13]
                     ++ encoded_frame 8 [0x21; 0x22])) [].

(** Three valid frames: one from another address, an acknowledgment, and a
    data frame with more payload than a template holds. *)
Definition frame_from_device_1 : list Z :=
  frame_bytes [0; 0; 0; 1] 2 [0x11] (frame_checksum 2 [0x11]).
Definition ack_frame : list Z :=
  frame_bytes broadcast 7 [0x00] (frame_checksum 7 [0x00]).
Definition oversize_frame : list Z :=
  frame_bytes broadcast 2 (replicate 513 0x55)
              (frame_checksum 2 (replicate 513 0x55)).

(** 300 of 512 bytes arrive, then the line goes silent. *)
Definition truncated_transfer : World :=
  mkWorld true [] [] [] [(0, [0])]
          (map Some (encoded_frame 2 (replicate 128 0x11)
                     ++ encoded_frame 2 (replicate 128 0x22)
                     ++ encoded_frame 2 (replicate 44 0x33))) [].

(** ** Further observers *)


(** A data frame as a device may send it: any address and any value in the
    checksum field. *)
Record WireFrame : Type := mkWireFrame {
  wf_address : list Z;
  wf_payload : list Z;
  wf_checksum : Z
}.

Definition wire_frame (type : Z) (f : WireFrame) : list Z :=
  frame_bytes (wf_address f) type (wf_payload f) (wf_checksum f).

Definition wire_frame_ok (f : WireFrame) : Prop :=
  length (wf_address f) = 4%nat ∧ Forall is_byte (wf_address f) ∧
  Forall is_byte (wf_payload f).

Definition wire_transfer {codes : DriverCodes} (frames : list WireFrame)
    (final : WireFrame) : list Z :=
  concat (map (wire_frame FINGERPRINT_DATAPACKET) frames)
  ++ wire_frame FINGERPRINT_ENDDATAPACKET final.

Definition wire_payload (frames : list WireFrame) (final : WireFrame)
  : list Z :=
  concat (map wf_payload frames) ++ wf_payload final.

(** The world after the polls [rs] of [getImage], with [rest] still to come. *)
Definition polled (rs rest : list Z) (w : World) : World :=
  emit_all (map EvGetImage rs) (set_images rest w).

(** The events of captures that the driver converted with the codes [cs]. *)
Definition capture_events {codes : DriverCodes} (cs : list Z) : list Event :=
  flat_map (λ c, [EvGetImage FINGERPRINT_OK; EvImage2Tz 1 c]) cs.

(** The world after these captures. *)
Definition captured {codes : DriverCodes} (cs rest crest : list Z) (w : World)
  : World :=
  emit_all (capture_events cs) (set_convs crest (set_images rest w)).

(** A conversion result that makes the capture loop try again. *)
Definition try_again {codes : DriverCodes} (c : Z) : Prop :=
  c ≠ FINGERPRINT_OK ∧
  (c = FINGERPRINT_IMAGEMESS ∨ c = FINGERPRINT_FEATUREFAIL).

(** Calls of the sensor that exchange no packet. *)
Definition is_sensor_call (e : Event) : Prop :=
  match e with
  | EvGetImage _ | EvImage2Tz _ _ | EvCreateModel _ => True
  | _ => False
  end.

(** [w'] is [w] after such calls only: nothing was written to the sensor or
    read from it as a packet, and the serial line was not touched. *)
Definition sensor_only (w w' : World) : Prop :=
  w_serial w' = w_serial w ∧ w_acks w' = w_acks w ∧ w_rx w' = w_rx w ∧
  ∃ evs, w_trace w' = w_trace w ++ evs ∧ Forall is_sensor_call evs.

(** The payload bytes stored between [w] and [w']. *)
Definition stored_between (w w' : World) (bs : list Z) : Prop :=
  payload_of (w_trace w') = payload_of (w_trace w) ++ bs.


(** Two passes of the packet loop that differ at most in the buffer. *)
Definition same_pass (r1 r2 : PacketRead) : Prop :=
  match r1, r2 with
  | Returned st1 _, Returned st2 _ => st1 = st2
  | DataRead ty1 len1 k1 _, DataRead ty2 len2 k2 _ =>
      ty1 = ty2 ∧ len1 = len2 ∧ k1 = k2
  | _, _ => False
  end.

(** ** More scripted devices *)

(** Download: the driver could not read the acknowledgment. *)
Definition ack_not_read : World :=
  mkWorld true [] [] [] [(1, [0])] [Some 0xEF] [].

(** Download: two bytes that are no packet header. *)
Definition bad_header : World :=
  mkWorld true [] [] [] [(0, [0])] [Some 0x12; Some 0x34] [].

(** Download: an acknowledgment packet where data is due, then one byte. *)
Definition ack_instead_of_data : World :=
  mkWorld true [] [] [] [(0, [0])]
          (map Some ([0xEF; 0x01] ++ broadcast ++ [7; 0; 3])
           ++ map Some [0; 0; 0x0A; 0x55]) [].

(** Download: a complete frame of 3 bytes, then a frame that announces 3
    bytes and stops after the first. *)
Definition cut_in_second_packet : World :=
  mkWorld true [] [] [] [(0, [0])]
          (map Some (encoded_frame 2 [0x11; 0x12; 0x13])
           ++ map Some ([0xEF; 0x01]
                        ++ take 8 (broadcast ++ [2] ++ be16 5
                                   ++ [0x21; 0x22; 0x23]))) [].

(** Download: a data packet with the length field 0, then 515 bytes. *)
Definition length_field_zero : World :=
  mkWorld true [] [] [] [(0, [0])]
          (map Some ([0xEF; 0x01] ++ broadcast ++ [2; 0; 0])
           ++ map Some (replicate 512 0x5A)
           ++ map Some [0xAA; 0xBB; 0xCC]) [].

(** Download: frames from other addresses, with checksum fields that are
    not the checksum. *)
Definition odd_frames : World :=
  mkWorld true [] [] [] [(0, [0])]
          (map Some (wire_transfer (codes := adafruit)
                       [mkWireFrame [0; 0; 0; 1] [0x11; 0x12] 0xDEAD]
                       (mkWireFrame [1; 2; 3; 4] [0x21] 0))) [].


(** Polling: the finger leaves at the third poll. *)
Definition finger_leaves : World := mkWorld true [0; 0; 2; 0] [] [] [] [] [].

(** Verification: the image converts with a code that is not in the list. *)
Definition unlisted_error : World := mkWorld true [2; 0] [0x15] [] [] [] [].

(** Capture and hash: finger, conversion, a short transfer, finger removed. *)
Definition capture_ok : World :=
  mkWorld true [0; 2] [0] [] [(0, [0])]
          (map Some (encoded_frame 2 [0x11; 0x12; 0x13]
                     ++ encoded_frame 8 [0x21; 0x22])) [].

(** Enrollment: two scans, the model, a short transfer, finger removed. *)
Definition enroll_ok : World :=
  mkWorld true [0; 2; 0; 2] [0; 0] [0] [(0, [0])]
          (map Some (encoded_frame 2 [0x11; 0x12; 0x13]
                     ++ encoded_frame 8 [0x21; 0x22])) [].

(** * Properties *)

(** ** The monad *)

Lemma bind_unfold {A B : Type} (m : M A) (f : A → M B) (w : World) :
  (m ≫= f) w = match m w with Some (x, w') => f x w' | None => None end.
Proof. reflexivity. Qed.

Lemma bind_Some {A B : Type} (m : M A) (f : A → M B) (w : World) r :
  (m ≫= f) w = Some r ↔ ∃ x w1, m w = Some (x, w1) ∧ f x w1 = Some r.
Proof.
  rewrite bind_unfold. split.
  - destruct (m w) as [[x w1]|]; [eauto | discriminate].
  - intros (x & w1 & -> & Hf). exact Hf.
Qed.

Lemma bind_eq {A B : Type} (m : M A) (f : A → M B) (w w1 : World) x :
  m w = Some (x, w1) → (m ≫= f) w = f x w1.
Proof. intros H. rewrite bind_unfold, H. reflexivity. Qed.

Lemma mret_Some {A} (x : A) (w : World) r : (mret x : M A) w = Some r → r = (x, w).
Proof. unfold mret, M_ret. by intros [= <-]. Qed.

(** Inversion of a run that returned: one step per bind, test and return. *)
Ltac run_inv H :=
  repeat (cbv beta iota in H;
    lazymatch type of H with
    | (_ ≫= _) _ = Some _ =>
        let x := fresh "x" in let w := fresh "w" in let Hx := fresh "Hrun" in
        apply bind_Some in H; destruct H as (x & w & Hx & H)
    | mret _ _ = Some _ => apply mret_Some in H
    | (let '(_, _) := ?p in _) _ = Some _ => destruct p
    | (if ?c then _ else _) _ = Some _ =>
        let Hc := fresh "Hc" in destruct c eqn:Hc
    end).

Lemma emit_all_emit_all evs1 evs2 w :
  emit_all evs2 (emit_all evs1 w) = emit_all (evs1 ++ evs2) w.
Proof. unfold emit_all; cbn. by rewrite app_assoc. Qed.

(** ** Bytes and checksums *)

Lemma land_255 v : Z.land v 0xFF = v mod 256.
Proof. change 0xFF with (Z.ones 8). by rewrite Z.land_ones by lia. Qed.

Lemma shiftr_8 v : Z.shiftr v 8 = v / 256.
Proof. by rewrite Z.shiftr_div_pow2 by lia. Qed.

Lemma be16_code v : [Z.land (Z.shiftr v 8) 0xFF; Z.land v 0xFF] = be16 v.
Proof. unfold be16. by rewrite !land_255, shiftr_8. Qed.

Lemma add_bytes_sum l s : add_bytes (s mod 65536) l = (s + Zsum l) mod 65536.
Proof.
  unfold add_bytes. revert s. induction l as [|b l IH]; intros s; cbn.
  - by rewrite Z.add_0_r.
  - rewrite IH, <- Z.add_assoc. apply Zplus_mod_idemp_l.
Qed.

Lemma lor_shiftl_8 hi lo : 0 ≤ lo < 256 → Z.lor (Z.shiftl hi 8) lo = hi * 256 + lo.
Proof.
  intros Hlo. rewrite <- Z.add_lor_land, Z.shiftl_mul_pow2 by lia.
  change (2 ^ 8) with 256.
  enough (Z.land (hi * 256) lo = 0) by lia.
  apply Z.bits_inj'. intros n Hn. rewrite Z.land_spec, Z.bits_0.
  destruct (Z.ltb_spec n 8).
  - change 256 with (2 ^ 8). rewrite Z.mul_pow2_bits_low by lia. reflexivity.
  - destruct (Z.eq_dec lo 0) as [-> | Hne]; [by rewrite Z.bits_0, andb_false_r |].
    rewrite (Z.bits_above_log2 lo n), andb_false_r; [done | lia |].
    apply Z.lt_le_trans with 8; [| lia].
    apply Z.log2_lt_pow2; lia.
Qed.

Lemma be16_decode v :
  0 ≤ v < 65536 →
  Z.lor (Z.shiftl (v / 256 mod 256) 8) (v mod 256) mod 65536 = v.
Proof.
  intros Hv. rewrite lor_shiftl_8 by (apply Z.mod_pos_bound; lia).
  rewrite (Z.mod_small (v / 256)) by (split; [apply Z.div_pos; lia | apply Z.div_lt_upper_bound; lia]).
  pose proof (Z.div_mod v 256 ltac:(lia)).
  rewrite Z.mod_small; lia.
Qed.

(** ** Upload: the frames on the wire *)

Section Upload.
Context {codes : DriverCodes}.

Lemma sendDataPacket_run td sent n ty w :
  (sent + n ≤ length td)%nat →
  sendDataPacket td sent n ty w
  = Some (tt, emit_all (sent_packet_events ty (take n (drop sent td))) w).
Proof.
  intros Hlen. unfold sent_packet_events, frame_length.
  rewrite length_take_le by (rewrite length_drop; lia).
  destruct w as [s im cv md ak rx tr].
  cbv [sendDataPacket emit_all packet_events mbind M_bind serial_write
       serial_flush emit w_trace w_serial w_images w_convs w_models w_acks
       w_rx].
  rewrite <- !app_assoc. reflexivity.
Qed.

(** The loop makes four passes over a 512-byte template. *)
Lemma sendPackets_run td w :
  length td = TEMPLATE_SIZE →
  sendPackets TEMPLATE_SIZE td 0 w
  = Some (tt, emit_all (upload_data_events td) w).
Proof.
  intros Hlen. unfold upload_data_events, chunk.
  change (sendPackets TEMPLATE_SIZE td 0 w) with
    ((sendDataPacket td 0 128 FINGERPRINT_DATAPACKET ≫= λ _,
      sendDataPacket td 128 128 FINGERPRINT_DATAPACKET ≫= λ _,
      sendDataPacket td 256 128 FINGERPRINT_DATAPACKET ≫= λ _,
      sendDataPacket td 384 128 FINGERPRINT_ENDDATAPACKET ≫= λ _,
      mret tt) w).
  unfold TEMPLATE_SIZE in Hlen.
  repeat (erewrite bind_eq; [| apply sendDataPacket_run; lia]).
  rewrite !emit_all_emit_all. reflexivity.
Qed.

(** The command packet and its acknowledgment. *)
Lemma upload_command_run id im cv md st data acks rx tr (k : Z * list Z → M Z) :
  (serial_set ≫= λ s0 : bool,
    if negb s0 then mret FINGERPRINT_PACKETRECIEVEERR
    else
     let cmdData := [9; id] in
     let cmdLen := (Z.of_nat (length cmdData) + 2) mod 65536 in
     let sum := add_bytes ((1 + cmdLen) mod 65536) cmdData in
     serial_write [239; 1] ≫= λ _,
     serial_write [255; 255; 255; 255] ≫= λ _,
     serial_write [1] ≫= λ _,
     serial_write [Z.land (Z.shiftr cmdLen 8) 255] ≫= λ _,
     serial_write [Z.land cmdLen 255] ≫= λ _,
     serial_write cmdData ≫= λ _,
     serial_write [Z.land (Z.shiftr sum 8) 255] ≫= λ _,
     serial_write [Z.land sum 255] ≫= λ _,
     serial_flush ≫= λ _, getStructuredPacket ≫= k)
    (mkWorld true im cv md ((st, data) :: acks) rx tr)
  = k (st, data)
      (emit_all (sent_packet_events 0x01 [0x09; id]
                 ++ [EvGetStructuredPacket st data])
                (mkWorld true im cv md acks rx tr)).
Proof.
  cbv [mbind M_bind serial_set mret M_ret w_serial serial_write
       serial_flush emit getStructuredPacket w_acks negb set_acks
       emit_all w_trace w_images w_convs w_models w_rx
       sent_packet_events packet_events frame_length].
  cbn [length]. rewrite <- !app_assoc. reflexivity.
Qed.

Lemma uploadTemplateToBuffer_ok td id w data acks :
  length td = TEMPLATE_SIZE →
  w_serial w = true →
  w_acks w = (FINGERPRINT_OK, data) :: acks →
  at_index data 0 = FINGERPRINT_OK →
  uploadTemplateToBuffer td id w
  = Some (FINGERPRINT_OK, uploaded td id data acks w).
Proof.
  intros Hlen Hs Hak Hd. destruct w as [s im cv md ak rx tr].
  cbn in Hs, Hak. subst s ak.
  unfold uploadTemplateToBuffer. rewrite upload_command_run.
  rewrite Z.eqb_refl, Hd, Z.eqb_refl. cbn [negb orb].
  erewrite bind_eq by (apply sendPackets_run; exact Hlen).
  unfold uploaded. rewrite emit_all_emit_all, <- app_assoc. reflexivity.
Qed.

(** The three ways [uploadTemplateToBuffer] ends. *)
Lemma uploadTemplateToBuffer_run td id w r w' :
  length td = TEMPLATE_SIZE →
  uploadTemplateToBuffer td id w = Some (r, w') →
  (w_serial w = false ∧ r = FINGERPRINT_PACKETRECIEVEERR ∧ w' = w)
  ∨ (∃ st data acks,
        w_serial w = true ∧ w_acks w = (st, data) :: acks ∧
        (st ≠ FINGERPRINT_OK ∨ at_index data 0 ≠ FINGERPRINT_OK) ∧
        r = at_index data 0 ∧
        w' = emit_all (sent_packet_events 0x01 [0x09; id]
                       ++ [EvGetStructuredPacket st data])
                      (set_acks acks w))
  ∨ (∃ data acks,
        w_serial w = true ∧
        w_acks w = (FINGERPRINT_OK, data) :: acks ∧
        at_index data 0 = FINGERPRINT_OK ∧
        r = FINGERPRINT_OK ∧
        w' = uploaded td id data acks w).
Proof.
  intros Hlen. destruct w as [s im cv md ak rx tr].
  destruct s.
  2: { unfold uploadTemplateToBuffer.
       cbv [mbind M_bind serial_set mret M_ret w_serial negb].
       intros [= <- <-]. left. auto. }
  destruct ak as [|[st data] acks].
  { unfold uploadTemplateToBuffer.
    cbv [mbind M_bind serial_set mret M_ret w_serial serial_write
         serial_flush emit getStructuredPacket w_acks negb]. discriminate. }
  destruct (st =? FINGERPRINT_OK) eqn:Hst;
    [destruct (at_index data 0 =? FINGERPRINT_OK) eqn:Hd |].
  - apply Z.eqb_eq in Hst, Hd. subst st.
    rewrite (uploadTemplateToBuffer_ok td id _ data acks) by done.
    intros [= <- <-]. right; right. exists data, acks. done.
  - unfold uploadTemplateToBuffer. rewrite upload_command_run.
    rewrite Hst, Hd. cbn [negb orb].
    apply Z.eqb_neq in Hd. intros [= <- <-]. right; left.
    exists st, data, acks. repeat split; auto.
  - unfold uploadTemplateToBuffer. rewrite upload_command_run.
    rewrite Hst. cbn [negb orb].
    apply Z.eqb_neq in Hst. intros [= <- <-]. right; left.
    exists st, data, acks. repeat split; auto.
Qed.

(** *** Frames of a trace *)

Lemma serial_frames_packet cur ty dl payload sum rest :
  serial_frames_from cur (packet_events ty dl payload sum ++ rest)
  = (cur ++ [0xEF; 0x01] ++ [0xFF; 0xFF; 0xFF; 0xFF] ++ [ty]
         ++ [Z.land (Z.shiftr dl 8) 0xFF; Z.land dl 0xFF] ++ payload
         ++ [Z.land (Z.shiftr sum 8) 0xFF; Z.land sum 0xFF])
    :: serial_frames_from [] rest.
Proof.
  unfold packet_events. cbn [app serial_frames_from].
  rewrite <- !app_assoc. reflexivity.
Qed.

(** What the upload writes for a packet is the frame of the format. *)
Lemma sent_packet_frame ty payload rest :
  frame_length payload < 65536 →
  serial_frames_from [] (sent_packet_events ty payload ++ rest)
  = encoded_frame ty payload :: serial_frames_from [] rest.
Proof.
  intros Hlen. unfold sent_packet_events.
  rewrite serial_frames_packet. f_equal.
  assert (0 ≤ frame_length payload) by (unfold frame_length; lia).
  rewrite (Z.mod_small (frame_length payload)) by lia.
  rewrite add_bytes_sum, !be16_code.
  reflexivity.
Qed.

Lemma well_framed_encoded ty payload :
  frame_length payload < 65536 → well_framed (encoded_frame ty payload).
Proof. intros H. exists ty, payload. split; [exact H | reflexivity]. Qed.

Lemma chunk_length td i :
  length td = TEMPLATE_SIZE → (i < 4)%nat → length (chunk td i) = PACKET_SIZE.
Proof.
  intros Hlen Hi. unfold chunk.
  rewrite length_take_le; [done|].
  rewrite length_drop, Hlen. unfold TEMPLATE_SIZE, PACKET_SIZE. lia.
Qed.

Lemma chunks_cover td :
  length td = TEMPLATE_SIZE →
  chunk td 0 ++ chunk td 1 ++ chunk td 2 ++ chunk td 3 = td.
Proof.
  intros Hlen. unfold chunk, PACKET_SIZE. cbn [Nat.mul Nat.add].
  rewrite drop_0. symmetry.
  rewrite <- (take_drop 128 td) at 1. f_equal.
  rewrite <- (take_drop 128 (drop 128 td)) at 1. f_equal.
  rewrite drop_drop. cbn [Nat.add].
  rewrite <- (take_drop 128 (drop 256 td)) at 1. f_equal.
  rewrite drop_drop. cbn [Nat.add].
  symmetry. apply take_ge.
  rewrite length_drop, Hlen. unfold TEMPLATE_SIZE. lia.
Qed.

Lemma upload_frames td id data :
  length td = TEMPLATE_SIZE →
  serial_frames (sent_packet_events 0x01 [0x09; id]
                 ++ [EvGetStructuredPacket FINGERPRINT_OK data]
                 ++ upload_data_events td)
  = [encoded_frame 0x01 [0x09; id];
     encoded_frame FINGERPRINT_DATAPACKET (chunk td 0);
     encoded_frame FINGERPRINT_DATAPACKET (chunk td 1);
     encoded_frame FINGERPRINT_DATAPACKET (chunk td 2);
     encoded_frame FINGERPRINT_ENDDATAPACKET (chunk td 3)].
Proof.
  intros Hlen. unfold serial_frames, upload_data_events.
  assert (Hc : ∀ i, (i < 4)%nat → frame_length (chunk td i) < 65536).
  { intros i Hi. unfold frame_length. rewrite chunk_length by done.
    unfold PACKET_SIZE. lia. }
  rewrite sent_packet_frame by (unfold frame_length; cbn [length]; lia).
  cbn [app serial_frames_from].
  rewrite !sent_packet_frame by (apply Hc; lia).
  rewrite <- (app_nil_r (sent_packet_events FINGERPRINT_ENDDATAPACKET _)).
  rewrite sent_packet_frame by (apply Hc; lia).
  reflexivity.
Qed.

(** C3.  For a 512-byte template, with the serial port set and the command
    acknowledged with success, [uploadTemplateToBuffer] returns
    [FINGERPRINT_OK] and writes, after the command frame, exactly
    ceil(512/128) = 4 data frames: three tagged [FINGERPRINT_DATAPACKET] and a
    last one tagged [FINGERPRINT_ENDDATAPACKET]; their payloads are 128 bytes
    each, 512 bytes together, and are the template in order. *)
Theorem upload_emits_four_data_frames td id w data acks :
  length td = TEMPLATE_SIZE →
  w_serial w = true →
  w_acks w = (FINGERPRINT_OK, data) :: acks →
  at_index data 0 = FINGERPRINT_OK →
  ∃ w' evs c1 c2 c3 c4,
    uploadTemplateToBuffer td id w = Some (FINGERPRINT_OK, w') ∧
    w_trace w' = w_trace w ++ evs ∧
    serial_frames evs
    = [encoded_frame 0x01 [0x09; id];
       encoded_frame FINGERPRINT_DATAPACKET c1;
       encoded_frame FINGERPRINT_DATAPACKET c2;
       encoded_frame FINGERPRINT_DATAPACKET c3;
       encoded_frame FINGERPRINT_ENDDATAPACKET c4] ∧
    c1 ++ c2 ++ c3 ++ c4 = td ∧
    Forall (λ c, length c = 128%nat) [c1; c2; c3; c4] ∧
    (length c1 + length c2 + length c3 + length c4 = 512)%nat.
Proof.
  intros Hlen Hs Hak Hd.
  eexists _, _, (chunk td 0), (chunk td 1), (chunk td 2), (chunk td 3).
  split; [apply uploadTemplateToBuffer_ok; eassumption |].
  split; [unfold uploaded; cbn [emit_all set_acks w_trace]; reflexivity |].
  split; [apply upload_frames; exact Hlen |].
  split; [apply chunks_cover; exact Hlen |].
  assert (Hc : ∀ i, (i < 4)%nat → length (chunk td i) = 128%nat)
    by (intros; by apply chunk_length).
  split; [repeat constructor; apply Hc; lia |].
  rewrite !Hc by lia. reflexivity.
Qed.

(** C6.  Every frame [uploadTemplateToBuffer] writes, the command frame and
    each data frame, carries as its length field the payload length plus 2,
    big-endian, and as its trailer the sum modulo 2^16 of the type byte, the
    length value and the payload bytes, big-endian. *)
Theorem upload_frames_length_and_checksum td id w r w' :
  length td = TEMPLATE_SIZE →
  uploadTemplateToBuffer td id w = Some (r, w') →
  ∃ evs, w_trace w' = w_trace w ++ evs ∧ Forall well_framed (serial_frames evs).
Proof.
  intros Hlen Hrun.
  assert (Hcmd : frame_length [0x09; id] < 65536)
    by (unfold frame_length; cbn [length]; lia).
  destruct (uploadTemplateToBuffer_run _ _ _ _ _ Hlen Hrun)
    as [(_ & _ & ->) | [(st & data & acks & _ & _ & _ & _ & ->)
                       | (data & acks & _ & _ & _ & _ & ->)]].
  - exists []. split; [by rewrite app_nil_r | constructor].
  - eexists. split; [cbn [emit_all set_acks w_trace]; reflexivity |].
    unfold serial_frames. rewrite sent_packet_frame by exact Hcmd.
    cbn [serial_frames_from]. repeat constructor.
    by apply well_framed_encoded.
  - eexists. split; [unfold uploaded; cbn [emit_all set_acks w_trace]; reflexivity |].
    rewrite upload_frames by exact Hlen.
    assert (Hc : ∀ i, (i < 4)%nat → frame_length (chunk td i) < 65536).
    { intros i Hi. unfold frame_length. rewrite chunk_length by done.
      unfold PACKET_SIZE. lia. }
    repeat constructor; apply well_framed_encoded;
      first [exact Hcmd | apply Hc; lia].
Qed.

End Upload.

(** ** Download *)

Section Download.
Context {codes : DriverCodes}.

Lemma _readByte_inv t w b w' :
  _readByte t w = Some (b, w') →
  w_trace w' = w_trace w ∧ w_serial w' = w_serial w ∧
  (length (w_rx w') ≤ length (w_rx w))%nat ∧
  (0 ≤ b → (length (w_rx w') < length (w_rx w))%nat).
Proof.
  unfold _readByte. destruct w as [s im cv md ak rx tr]; cbn.
  destruct s; cbn; [|intros [= <- <-]; cbn; repeat split; lia].
  destruct rx as [|[x|] rx]; intros [= <- <-]; cbn; repeat split; lia.
Qed.

Lemma payload_of_app tr1 tr2 : payload_of (tr1 ++ tr2) = payload_of tr1 ++ payload_of tr2.
Proof. induction tr1 as [|[] tr1 IH]; cbn; congruence. Qed.

Lemma payload_of_map bs : payload_of (map EvPayload bs) = bs.
Proof. induction bs; cbn; congruence. Qed.

Lemma readData_inv n : ∀ k buf w t k' buf' w',
  readData n k buf w = Some ((t, k', buf'), w') →
  length buf = TEMPLATE_SIZE → (k ≤ TEMPLATE_SIZE)%nat →
  ∃ bs, w_trace w' = w_trace w ++ map EvPayload bs ∧
        k' = (k + length bs)%nat ∧ (k' ≤ TEMPLATE_SIZE)%nat ∧
        length buf' = TEMPLATE_SIZE ∧ take k' buf' = take k buf ++ bs.
Proof.
  induction n as [|n IH]; intros k buf w t k' buf' w' H Hlen Hk; cbn [readData] in H.
  - apply mret_Some in H. simplify_eq.
    exists []. cbn. rewrite !app_nil_r, Nat.add_0_r. done.
  - run_inv H.
    + simplify_eq. apply _readByte_inv in Hrun as (Htr & _).
      exists []. cbn. rewrite !app_nil_r, Nat.add_0_r. done.
    + apply _readByte_inv in Hrun as (Htr & _).
      unfold note_payload in Hrun0. simplify_eq.
      apply Nat.ltb_lt in Hc.
      apply IH in H as (bs & Htr' & -> & Hk' & Hlen' & Htake);
        [| by rewrite length_insert | lia].
      exists (x mod 256 :: bs). cbn [map length].
      split; [rewrite Htr'; cbn; rewrite Htr, <- app_assoc; reflexivity |].
      split; [lia |]. split; [lia |]. split; [done |].
      rewrite Htake. rewrite (take_S_r _ _ (x mod 256)).
      * rewrite take_insert_ge by lia. by rewrite <- app_assoc.
      * apply list_lookup_insert_eq. unfold TEMPLATE_SIZE in *. lia.
    + simplify_eq. exists []. cbn. rewrite !app_nil_r, Nat.add_0_r. done.
Qed.

Lemma readAddress_inv n : ∀ w b w',
  readAddress n w = Some (b, w') → w_trace w' = w_trace w.
Proof.
  induction n as [|n IH]; intros w b w' H; cbn [readAddress] in H.
  - apply mret_Some in H. by simplify_eq.
  - run_inv H.
    + simplify_eq. by apply _readByte_inv in Hrun as (Htr & _).
    + apply IH in H. apply _readByte_inv in Hrun as (Htr & _). congruence.
Qed.

Lemma discardBytes_inv n : ∀ w u w',
  discardBytes n w = Some (u, w') → w_trace w' = w_trace w.
Proof.
  induction n as [|n IH]; intros w u w' H; cbn [discardBytes] in H.
  - apply mret_Some in H. by simplify_eq.
  - run_inv H. apply IH in H. apply _readByte_inv in Hrun as (Htr & _). congruence.
Qed.

Lemma memset_tail buf k :
  length buf = TEMPLATE_SIZE → (k ≤ TEMPLATE_SIZE)%nat →
  memset buf k 0 (TEMPLATE_SIZE - k) = take k buf ++ replicate (TEMPLATE_SIZE - k) 0.
Proof.
  intros Hlen Hk. unfold memset. rewrite drop_ge by lia. by rewrite app_nil_r.
Qed.

(** *** Every run of the download ends *)

Lemma _readByte_total t w :
  ∃ b w', _readByte t w = Some (b, w') ∧
          (rx_left w' ≤ rx_left w)%nat ∧
          (0 ≤ b → (rx_left w' < rx_left w)%nat).
Proof.
  destruct (_readByte t w) as [[b w']|] eqn:H.
  - exists b, w'. split; [done|]. apply _readByte_inv in H. tauto.
  - unfold _readByte in H. destruct (negb (w_serial w)); [done|].
    by destruct (w_rx w) as [|[] ?].
Qed.

Lemma readAddress_total n : ∀ w,
  ∃ b w', readAddress n w = Some (b, w') ∧ (rx_left w' ≤ rx_left w)%nat.
Proof.
  induction n as [|n IH]; intros w; cbn [readAddress].
  - exists true, w. done.
  - destruct (_readByte_total 100 w) as (b & w1 & H1 & Hle & _).
    rewrite (bind_eq _ _ _ _ _ H1). destruct (b <? 0).
    + exists false, w1. done.
    + destruct (IH w1) as (r & w2 & H2 & Hle2). exists r, w2. split; [done | lia].
Qed.

Lemma readData_total n : ∀ k buf w,
  ∃ r w', readData n k buf w = Some (r, w') ∧ (rx_left w' ≤ rx_left w)%nat.
Proof.
  induction n as [|n IH]; intros k buf w; cbn [readData].
  - eexists _, w. done.
  - destruct (k <? TEMPLATE_SIZE)%nat; [| eexists _, w; done].
    destruct (_readByte_total 100 w) as (b & w1 & H1 & Hle & _).
    rewrite (bind_eq _ _ _ _ _ H1). destruct (b <? 0).
    + eexists _, w1. done.
    + destruct (IH (S k) (<[k:=b mod 256]> buf) (emit (EvPayload (b mod 256)) w1))
        as (r & w2 & H2 & Hle2).
      exists r, w2. split; [exact H2 |]. unfold rx_left in *. cbn in Hle2. lia.
Qed.

Lemma discardBytes_total n : ∀ w,
  ∃ w', discardBytes n w = Some (tt, w') ∧ (rx_left w' ≤ rx_left w)%nat.
Proof.
  induction n as [|n IH]; intros w; cbn [discardBytes].
  - exists w. done.
  - destruct (_readByte_total 100 w) as (b & w1 & H1 & Hle & _).
    rewrite (bind_eq _ _ _ _ _ H1).
    destruct (IH w1) as (w2 & H2 & Hle2). exists w2. split; [done | lia].
Qed.

Lemma readPacket_total k buf w :
  ∃ r w', readPacket k buf w = Some (r, w') ∧
    match r with
    | DataRead _ _ _ _ => (rx_left w' < rx_left w)%nat
    | Returned _ _ => True
    end.
Proof.
  unfold readPacket.
  destruct (_readByte_total 2000 w) as (b1 & w1 & H1 & Hle1 & Hlt1).
  rewrite (bind_eq _ _ _ _ _ H1).
  destruct (_readByte_total 100 w1) as (b2 & w2 & H2 & Hle2 & _).
  rewrite (bind_eq _ _ _ _ _ H2).
  destruct ((b1 <? 0) || (b2 <? 0)) eqn:Hto.
  { destruct (0 <? k)%nat; eexists _, _; done. }
  apply orb_false_iff in Hto as [Hb1%Z.ltb_ge _]. specialize (Hlt1 Hb1).
  destruct (negb (b1 =? 239) || negb (b2 =? 1)); [eexists _, _; done |].
  destruct (readAddress_total 4 w2) as (a & w3 & H3 & Hle3).
  rewrite (bind_eq _ _ _ _ _ H3).
  destruct (negb a); [eexists _, _; done |].
  destruct (_readByte_total 100 w3) as (ty & w4 & H4 & Hle4 & _).
  rewrite (bind_eq _ _ _ _ _ H4).
  destruct (ty <? 0); [eexists _, _; done |].
  destruct (_readByte_total 100 w4) as (lh & w5 & H5 & Hle5 & _).
  rewrite (bind_eq _ _ _ _ _ H5).
  destruct (_readByte_total 100 w5) as (ll & w6 & H6 & Hle6 & _).
  rewrite (bind_eq _ _ _ _ _ H6).
  destruct ((lh <? 0) || (ll <? 0)); [eexists _, _; done |].
  cbv zeta.
  destruct ((ty =? FINGERPRINT_DATAPACKET) || (ty =? FINGERPRINT_ENDDATAPACKET)).
  - match goal with |- context [readData ?n k buf] =>
      destruct (readData_total n k buf w6) as ([[t k'] buf'] & w7 & H7 & Hle7) end.
    rewrite (bind_eq _ _ _ _ _ H7). destruct t; [eexists _, _; done |].
    destruct (_readByte_total 100 w7) as (c1 & w8 & H8 & Hle8 & _).
    rewrite (bind_eq _ _ _ _ _ H8).
    destruct (_readByte_total 100 w8) as (c2 & w9 & H9 & Hle9 & _).
    rewrite (bind_eq _ _ _ _ _ H9).
    eexists _, _. split; [done |]. cbn. lia.
  - destruct (ty =? FINGERPRINT_ACKPACKET); [| eexists _, _; done].
    match goal with |- context [discardBytes ?n] =>
      destruct (discardBytes_total n w6) as (w7 & H7 & Hle7) end.
    rewrite (bind_eq _ _ _ _ _ H7). eexists _, _; done.
Qed.

Lemma readPackets_total fuel : ∀ e k buf w,
  (rx_left w < fuel)%nat → ∃ r w', readPackets fuel e k buf w = Some (r, w').
Proof.
  induction fuel as [|fuel IH]; intros e k buf w Hfuel; [lia |].
  cbn [readPackets].
  destruct (negb e && (k <? TEMPLATE_SIZE)%nat); [| eexists _, _; done].
  destruct (readPacket_total k buf w) as (r & w1 & H1 & Hr).
  rewrite (bind_eq _ _ _ _ _ H1).
  destruct r as [st buf' | ty len k' buf']; [eexists _, _; done |].
  apply IH. lia.
Qed.

(** [_readRawTemplate] returns as soon as the driver answers its command. *)
Lemma _readRawTemplate_total buf w :
  w_acks w ≠ [] → ∃ r w', _readRawTemplate buf w = Some (r, w').
Proof.
  intros Hak. unfold _readRawTemplate.
  destruct w as [s im cv md ak rx tr]. cbn in Hak.
  destruct ak as [|[st d] acks]; [done |].
  cbv [mbind M_bind writeStructuredPacket getStructuredPacket emit set_acks
       w_acks w_serial w_images w_convs w_models w_rx w_trace].
  destruct (negb (st =? FINGERPRINT_OK)); [eexists _, _; done |].
  destruct (negb (at_index d 0 =? FINGERPRINT_OK)); [eexists _, _; done |].
  unfold readAllPackets. apply readPackets_total. unfold rx_left. cbn. lia.
Qed.

(** A pass of the packet loop whose header read times out. *)
Lemma readPackets_header_timeout fuel bytesRead buffer w b1 w1 b2 w2 :
  length buffer = TEMPLATE_SIZE → (bytesRead < TEMPLATE_SIZE)%nat →
  _readByte 2000 w = Some (b1, w1) → _readByte 100 w1 = Some (b2, w2) →
  b1 < 0 ∨ b2 < 0 →
  ((0 < bytesRead)%nat →
     readPackets (S fuel) false bytesRead buffer w
     = Some ((FINGERPRINT_OK,
              take bytesRead buffer
              ++ replicate (TEMPLATE_SIZE - bytesRead) 0), w2))
  ∧ (bytesRead = 0%nat →
     readPackets (S fuel) false bytesRead buffer w
     = Some ((FINGERPRINT_TIMEOUT, buffer), w2)).
Proof.
  intros Hlen Hk H1 H2 Hb.
  assert (Hto : (b1 <? 0) || (b2 <? 0) = true).
  { apply orb_true_iff. destruct Hb; [left | right]; by apply Z.ltb_lt. }
  cbn [readPackets negb andb].
  apply Nat.ltb_lt in Hk as Hk'. rewrite Hk'.
  unfold readPacket.
  rewrite !bind_unfold, H1. rewrite !bind_unfold, H2. rewrite Hto.
  split.
  - intros Hpos. apply Nat.ltb_lt in Hpos. rewrite Hpos.
    rewrite memset_tail by (done || lia). reflexivity.
  - intros ->. reflexivity.
Qed.

Lemma readPackets_fuel fuel1 : ∀ fuel2 e k buf w,
  (rx_left w < fuel1)%nat → (rx_left w < fuel2)%nat →
  readPackets fuel1 e k buf w = readPackets fuel2 e k buf w.
Proof.
  induction fuel1 as [|fuel1 IH]; intros fuel2 e k buf w H1 H2; [lia |].
  destruct fuel2 as [|fuel2]; [lia |].
  cbn [readPackets].
  destruct (negb e && (k <? TEMPLATE_SIZE)%nat); [| done].
  destruct (readPacket_total k buf w) as (r & w1 & Hr & Hlt).
  rewrite !(bind_eq _ _ _ _ _ Hr).
  destruct r as [st buf' | ty len k' buf']; [done |].
  apply IH; lia.
Qed.

Lemma readPacket_DataRead k buf w ty len k' buf' w' :
  readPacket k buf w = Some (DataRead ty len k' buf', w') →
  length buf = TEMPLATE_SIZE → (k ≤ TEMPLATE_SIZE)%nat →
  length buf' = TEMPLATE_SIZE ∧ (k ≤ k' ≤ TEMPLATE_SIZE)%nat ∧
  (rx_left w' < rx_left w)%nat.
Proof.
  intros H Hlen Hk.
  destruct (readPacket_total k buf w) as (r & w1 & Hr & Hlt).
  rewrite H in Hr. simplify_eq. split; [| split; [| done]].
  all: unfold readPacket in H; run_inv H; simplify_eq.
  all: match goal with
       | Hd : readData _ _ _ _ = Some _ |- _ =>
           apply readData_inv in Hd as (bs & _ & -> & ? & ? & _); [| done | done]
       end.
  all: first [done | lia].
Qed.

Lemma LoopState_inv buffer w k buf wk :
  LoopState buffer w k buf wk →
  length buffer = TEMPLATE_SIZE →
  length buf = TEMPLATE_SIZE ∧ (k ≤ TEMPLATE_SIZE)%nat ∧
  _readRawTemplate buffer w = readPackets (S (rx_left wk)) false k buf wk.
Proof.
  intros Hs Hlen. induction Hs as [ackData acks Hak Hd | k buf wk ty len k' buf' wk' Hs IH Hk Hr Hty].
  - split; [done |]. split; [lia |].
    destruct w as [s im cv md ak rx tr]. cbn in Hak. subst ak.
    unfold _readRawTemplate.
    cbv [mbind M_bind writeStructuredPacket getStructuredPacket emit set_acks
         w_acks w_serial w_images w_convs w_models w_rx w_trace].
    rewrite Z.eqb_refl, Hd, Z.eqb_refl. cbn [negb]. reflexivity.
  - destruct IH as (Hbuf & Hk' & ->).
    destruct (readPacket_DataRead _ _ _ _ _ _ _ _ Hr Hbuf Hk') as (Hbuf' & Hkk & Hlt).
    split; [done |]. split; [lia |].
    transitivity (readPackets (rx_left wk) false k' buf' wk');
      [| apply readPackets_fuel; lia].
    cbn [readPackets negb andb].
    rewrite (proj2 (Nat.ltb_lt _ _) Hk).
    rewrite (bind_eq _ _ _ _ _ Hr).
    by rewrite (proj2 (Z.eqb_neq _ _) Hty).
Qed.

(** C1.  In every run of [_readRawTemplate], when the packet loop is at a
    pass whose header read times out (one of the two header bytes does not
    arrive): if at least one payload byte has been accumulated, the rest of
    the 512-byte buffer is filled with zeros and the function returns
    [FINGERPRINT_OK]; if none has, it returns [FINGERPRINT_TIMEOUT]. *)
Theorem header_timeout_policy buffer w bytesRead buf wk b1 w1 b2 w2 :
  length buffer = TEMPLATE_SIZE →
  LoopState buffer w bytesRead buf wk →
  (bytesRead < TEMPLATE_SIZE)%nat →
  _readByte 2000 wk = Some (b1, w1) → _readByte 100 w1 = Some (b2, w2) →
  b1 < 0 ∨ b2 < 0 →
  ((0 < bytesRead)%nat →
     _readRawTemplate buffer w
     = Some ((FINGERPRINT_OK,
              take bytesRead buf
              ++ replicate (TEMPLATE_SIZE - bytesRead) 0), w2))
  ∧ (bytesRead = 0%nat →
     _readRawTemplate buffer w = Some ((FINGERPRINT_TIMEOUT, buf), w2)).
Proof.
  intros Hlen Hs Hk H1 H2 Hb.
  destruct (LoopState_inv _ _ _ _ _ Hs Hlen) as (Hbuf & _ & ->).
  by apply (readPackets_header_timeout _ _ _ _ b1 w1 b2).
Qed.

Hypothesis ok_not_timeout : FINGERPRINT_OK ≠ FINGERPRINT_TIMEOUT.
Hypothesis ok_not_error : FINGERPRINT_OK ≠ FINGERPRINT_PACKETRECIEVEERR.

Lemma readPacket_inv k buf w r w' :
  readPacket k buf w = Some (r, w') →
  length buf = TEMPLATE_SIZE → (k < TEMPLATE_SIZE)%nat →
  ∃ bs, w_trace w' = w_trace w ++ map EvPayload bs ∧
    match r with
    | DataRead _ _ k' buf' =>
        k' = (k + length bs)%nat ∧ (k' ≤ TEMPLATE_SIZE)%nat ∧
        length buf' = TEMPLATE_SIZE ∧ take k' buf' = take k buf ++ bs
    | Returned st buf' =>
        st = FINGERPRINT_OK →
        bs = [] ∧ (0 < k)%nat ∧ buf' = take k buf ++ replicate (TEMPLATE_SIZE - k) 0
    end.
Proof using ok_not_timeout ok_not_error.
  intros H Hlen Hk. unfold readPacket in H.
  run_inv H; simplify_eq;
    repeat match goal with
    | Hr : _readByte _ _ = Some _ |- _ => apply _readByte_inv in Hr as (? & _)
    | Hr : readAddress _ _ = Some _ |- _ => apply readAddress_inv in Hr
    | Hr : discardBytes _ _ = Some _ |- _ => apply discardBytes_inv in Hr
    end.
  all: try (exists []; cbn [map]; rewrite app_nil_r; split; [congruence |];
            intros Hst; try congruence).
  - split; [done|]. apply Nat.ltb_lt in Hc0. split; [done|].
    apply memset_tail; [done | lia].
  - apply readData_inv in Hrun5 as (bs & Htr & _); [| done | lia].
    exists bs. split; [congruence |]. intros Hst. congruence.
  - apply readData_inv in Hrun5 as (bs & Htr & Hn & Hn' & Hl & Htake); [| done | lia].
    exists bs. split; [congruence | done].
Qed.

Lemma readPackets_inv fuel : ∀ e k buf w out w',
  readPackets fuel e k buf w = Some ((FINGERPRINT_OK, out), w') →
  length buf = TEMPLATE_SIZE → (k ≤ TEMPLATE_SIZE)%nat →
  ∃ bs, w_trace w' = w_trace w ++ map EvPayload bs ∧
        (k + length bs ≤ TEMPLATE_SIZE)%nat ∧
        out = take k buf ++ bs
              ++ replicate (TEMPLATE_SIZE - (k + length bs)) 0.
Proof using ok_not_timeout ok_not_error.
  induction fuel as [|fuel IH]; intros e k buf w out w' H Hlen Hk;
    cbn [readPackets] in H.
  - destruct (negb e && (k <? TEMPLATE_SIZE)%nat) eqn:Hc; [discriminate |].
    apply mret_Some in H. simplify_eq.
    exists []. cbn [map length app]. rewrite app_nil_r, Nat.add_0_r.
    split; [done|]. split; [done|].
    destruct (k <? TEMPLATE_SIZE)%nat eqn:Hk'.
    + apply memset_tail; done.
    + apply Nat.ltb_ge in Hk'. replace k with TEMPLATE_SIZE by lia.
      rewrite Nat.sub_diag. cbn [replicate]. rewrite app_nil_r, take_ge; [done | lia].
  - destruct (negb e && (k <? TEMPLATE_SIZE)%nat) eqn:Hc.
    + apply andb_true_iff in Hc as [He Hk']. apply Nat.ltb_lt in Hk'.
      run_inv H.
      apply readPacket_inv in Hrun as (bs & Htr & Hr); [| done | done].
      destruct x as [st buf' | ty len k' buf'].
      * apply mret_Some in H. simplify_eq.
        destruct Hr as (-> & Hpos & ->); [done|].
        exists []. cbn [map length app]. rewrite Nat.add_0_r.
        split; [done|]. split; [lia|]. done.
      * destruct Hr as (-> & Hk2 & Hlen' & Htake).
        apply IH in H as (bs' & Htr' & Hb & ->); [| done | done].
        exists (bs ++ bs'). rewrite length_app.
        split; [rewrite Htr', Htr, map_app, app_assoc; done |].
        split; [lia |].
        rewrite Htake, <- !app_assoc, Nat.add_assoc. reflexivity.
    + apply mret_Some in H. simplify_eq.
      exists []. cbn [map length app]. rewrite app_nil_r, Nat.add_0_r.
      split; [done|]. split; [done|].
      destruct (k <? TEMPLATE_SIZE)%nat eqn:Hk'.
      * apply memset_tail; done.
      * apply Nat.ltb_ge in Hk'. replace k with TEMPLATE_SIZE by lia.
        rewrite Nat.sub_diag. cbn [replicate]. rewrite app_nil_r, take_ge; [done | lia].
Qed.

Lemma getStructuredPacket_inv w r w' :
  getStructuredPacket w = Some (r, w') →
  ∃ acks, w_acks w = r :: acks ∧
          w' = emit (EvGetStructuredPacket r.1 r.2) (set_acks acks w).
Proof.
  unfold getStructuredPacket. destruct (w_acks w) as [|[st d] acks]; [done|].
  intros [= <- <-]. by exists acks.
Qed.

(** C10.  Whenever [_readRawTemplate] returns [FINGERPRINT_OK], the 512-byte
    buffer is the payload bytes it stored, in order, followed by zeros up to
    [TEMPLATE_SIZE]: no byte of the previous content is left, on the timeout
    path and on the paths through the end of the loop alike. *)
Theorem download_ok_buffer buffer w out w' :
  length buffer = TEMPLATE_SIZE →
  _readRawTemplate buffer w = Some ((FINGERPRINT_OK, out), w') →
  ∃ evs, w_trace w' = w_trace w ++ evs ∧
         (length (payload_of evs) ≤ TEMPLATE_SIZE)%nat ∧
         out = payload_of evs
               ++ replicate (TEMPLATE_SIZE - length (payload_of evs)) 0.
Proof using ok_not_timeout ok_not_error.
  intros Hlen H. unfold _readRawTemplate in H. run_inv H.
  - simplify_eq. apply negb_true_iff, Z.eqb_neq in Hc. congruence.
  - simplify_eq. apply negb_true_iff, Z.eqb_neq in Hc0. congruence.
  - unfold writeStructuredPacket in Hrun. simplify_eq.
    apply getStructuredPacket_inv in Hrun0 as (acks & _ & ->).
    unfold readAllPackets in H.
    apply readPackets_inv in H as (bs & Htr & Hb & ->); [| done | lia].
    eexists. split; [rewrite Htr; cbn [emit set_acks w_trace]; rewrite <- !app_assoc; reflexivity |].
    rewrite !payload_of_app, payload_of_map. cbn [payload_of app].
    rewrite take_0. cbn [app]. by rewrite Nat.add_0_l in *.
Qed.

Lemma _readByte_cons t im cv md ak b rest tr :
  _readByte t (mkWorld true im cv md ak (Some b :: rest) tr)
  = Some (b, mkWorld true im cv md ak rest tr).
Proof. reflexivity. Qed.

Lemma readData_bytes payload : ∀ k buf im cv md ak rest tr,
  Forall is_byte payload →
  (k + length payload ≤ TEMPLATE_SIZE)%nat →
  length buf = TEMPLATE_SIZE →
  readData (length payload) k buf
    (mkWorld true im cv md ak (map Some payload ++ rest) tr)
  = Some ((false, (k + length payload)%nat,
           take k buf ++ payload ++ drop (k + length payload) buf),
          mkWorld true im cv md ak rest (tr ++ map EvPayload payload)).
Proof.
  induction payload as [|b payload IH]; intros k buf im cv md ak rest tr Hb Hk Hlen.
  - cbn [readData length map app]. rewrite Nat.add_0_r, app_nil_r, take_drop. reflexivity.
  - apply Forall_cons in Hb as [Hb Hbs]. cbn [length] in Hk.
    cbn [readData length map app].
    assert (Hlt : (k <? TEMPLATE_SIZE)%nat = true) by (apply Nat.ltb_lt; lia).
    rewrite Hlt. rewrite (bind_eq _ _ _ _ _ (_readByte_cons _ _ _ _ _ _ _ _)).
    unfold is_byte in Hb.
    rewrite (proj2 (Z.ltb_ge b 0)) by lia.
    rewrite Z.mod_small by lia.
    rewrite bind_unfold. cbv [note_payload emit w_serial w_images w_convs w_models w_acks w_rx w_trace].
    rewrite IH; [| done | lia | by rewrite length_insert].
    replace (k + S (length payload))%nat with (S k + length payload)%nat by lia.
    rewrite (take_S_r _ _ b) by (apply list_lookup_insert_eq; lia).
    rewrite take_insert_ge by lia. rewrite drop_insert_lt by lia.
    rewrite <- !app_assoc. reflexivity.
Qed.

Lemma readAddress_bytes addr : ∀ im cv md ak rest tr,
  Forall (λ b, 0 ≤ b) addr →
  readAddress (length addr)
    (mkWorld true im cv md ak (map Some addr ++ rest) tr)
  = Some (true, mkWorld true im cv md ak rest tr).
Proof.
  induction addr as [|b addr IH]; intros im cv md ak rest tr Hpos; [done |].
  apply Forall_cons in Hpos as [Hb Hpos].
  cbn [readAddress length map app].
  rewrite (bind_eq _ _ _ _ _ (_readByte_cons _ _ _ _ _ _ _ _)).
  rewrite (proj2 (Z.ltb_ge _ 0)) by lia. by apply IH.
Qed.

Lemma readPacket_frame k buf im cv md ak rest tr addr ty payload cks :
  length addr = 4%nat → Forall (λ b, 0 ≤ b) addr →
  0 ≤ ty →
  ty = FINGERPRINT_DATAPACKET ∨ ty = FINGERPRINT_ENDDATAPACKET →
  Forall is_byte payload →
  frame_length payload < 65536 →
  (k + length payload ≤ TEMPLATE_SIZE)%nat →
  length buf = TEMPLATE_SIZE →
  readPacket k buf
    (mkWorld true im cv md ak
       (map Some (frame_bytes addr ty payload cks) ++ rest) tr)
  = Some (DataRead ty (frame_length payload) (k + length payload)
            (take k buf ++ payload ++ drop (k + length payload) buf),
          mkWorld true im cv md ak rest (tr ++ map EvPayload payload)).
Proof.
  intros Haddr Hpos Hty Hdata Hb Hlen Hk Hbuf.
  unfold frame_bytes, be16. cbn [app map]. rewrite !map_app. cbn [app map].
  unfold readPacket.
  rewrite (bind_eq _ _ _ _ _ (_readByte_cons _ _ _ _ _ _ _ _)).
  rewrite (bind_eq _ _ _ _ _ (_readByte_cons _ _ _ _ _ _ _ _)).
  change ((239 <? 0) || (1 <? 0)) with false.
  change (negb (239 =? 239) || negb (1 =? 1)) with false. cbv iota.
  rewrite <- Haddr, <- !app_assoc.
  rewrite (bind_eq _ _ _ _ _ (readAddress_bytes _ _ _ _ _ _ _ Hpos)).
  cbn [negb app].
  rewrite (bind_eq _ _ _ _ _ (_readByte_cons _ _ _ _ _ _ _ _)).
  rewrite (proj2 (Z.ltb_ge ty 0)) by lia.
  rewrite (bind_eq _ _ _ _ _ (_readByte_cons _ _ _ _ _ _ _ _)).
  rewrite (bind_eq _ _ _ _ _ (_readByte_cons _ _ _ _ _ _ _ _)).
  assert (HL : 0 ≤ frame_length payload) by (unfold frame_length; lia).
  assert (Hhi : 0 ≤ (frame_length payload / 256) mod 256)
    by (apply Z.mod_pos_bound; lia).
  assert (Hlo : 0 ≤ frame_length payload mod 256)
    by (apply Z.mod_pos_bound; lia).
  rewrite (proj2 (Z.ltb_ge _ 0) Hhi), (proj2 (Z.ltb_ge _ 0) Hlo).
  cbn [orb]. cbv zeta.
  rewrite be16_decode by lia.
  assert (Hty' : (ty =? FINGERPRINT_DATAPACKET) || (ty =? FINGERPRINT_ENDDATAPACKET) = true).
  { apply orb_true_iff. destruct Hdata; [left | right]; by apply Z.eqb_eq. }
  rewrite Hty'.
  replace (Z.to_nat ((frame_length payload - 2) mod 65536)) with (length payload)
    by (unfold frame_length in *; rewrite Z.mod_small by lia; lia).
  rewrite map_app, <- app_assoc.
  rewrite (bind_eq _ _ _ _ _ (readData_bytes _ _ _ _ _ _ _ _ _ Hb Hk Hbuf)).
  cbv iota beta. cbn [app map].
  rewrite (bind_eq _ _ _ _ _ (_readByte_cons _ _ _ _ _ _ _ _)).
  rewrite (bind_eq _ _ _ _ _ (_readByte_cons _ _ _ _ _ _ _ _)).
  reflexivity.
Qed.

(** *** One frame, decoded and encoded again *)

Lemma data_types_nonneg ty :
  ty = FINGERPRINT_DATAPACKET ∨ ty = FINGERPRINT_ENDDATAPACKET → 0 ≤ ty.
Proof.
  pose proof driver_codes_u8 as H.
  repeat (apply Forall_cons in H as [? H]).
  intros [-> | ->]; lia.
Qed.

Lemma decode_encoded_frame address ty payload cks :
  length address = 4%nat → Forall is_byte address →
  ty = FINGERPRINT_DATAPACKET ∨ ty = FINGERPRINT_ENDDATAPACKET →
  Forall is_byte payload →
  (length payload ≤ TEMPLATE_SIZE)%nat →
  decode_frame (frame_bytes address ty payload cks) = Some (ty, payload).
Proof.
  intros Haddr Hab Hty Hb Hlen. unfold decode_frame.
  rewrite <- (app_nil_r (map Some _)).
  rewrite readPacket_frame; try done.
  - rewrite take_0, Nat.add_0_l. cbn [app]. by rewrite take_app_length.
  - eapply Forall_impl; [exact Hab |]. unfold is_byte. intros; lia.
  - by apply data_types_nonneg.
  - unfold frame_length, TEMPLATE_SIZE in *. lia.
Qed.

Lemma encode_frame_encoded ty payload :
  frame_length payload < 65536 →
  encode_frame ty payload = encoded_frame ty payload.
Proof.
  intros Hlen. unfold encode_frame.
  rewrite sendDataPacket_run by (cbn; lia).
  rewrite drop_0, firstn_all. cbn [emit_all w_trace app].
  unfold serial_frames.
  rewrite <- (app_nil_r (sent_packet_events _ _)).
  rewrite sent_packet_frame by done.
  cbn [serial_frames_from concat]. by rewrite app_nil_r.
Qed.

(** C5, as amended.  A frame with the broadcast address, type Data or
    EndData, a payload of at most 512 bytes and its checksum is a valid frame
    of the format; the packet pass of the download decodes it to its type and
    payload, and the data-packet writer of the upload encodes these to the
    original bytes. *)
Theorem broadcast_data_frame_round_trip ty payload :
  ty = FINGERPRINT_DATAPACKET ∨ ty = FINGERPRINT_ENDDATAPACKET →
  Forall is_byte payload →
  (length payload ≤ TEMPLATE_SIZE)%nat →
  decode_frame (encoded_frame ty payload) = Some (ty, payload) ∧
  encode_frame ty payload = encoded_frame ty payload.
Proof.
  intros Hty Hb Hlen. split.
  - apply decode_encoded_frame; try done.
    repeat constructor; unfold is_byte; lia.
  - apply encode_frame_encoded. unfold frame_length, TEMPLATE_SIZE in *. lia.
Qed.

(** *** A whole transfer *)

Lemma broadcast_nonneg : Forall (λ b, 0 ≤ b) broadcast.
Proof. repeat constructor; lia. Qed.

(** The loop test fails: pad and return. *)
Lemma readPackets_exit fuel e k buf w :
  length buf = TEMPLATE_SIZE → (k ≤ TEMPLATE_SIZE)%nat →
  e = true ∨ k = TEMPLATE_SIZE →
  readPackets fuel e k buf w
  = Some ((FINGERPRINT_OK, take k buf ++ replicate (TEMPLATE_SIZE - k) 0), w).
Proof.
  intros Hbuf Hk He.
  assert (Hc : negb e && (k <? TEMPLATE_SIZE)%nat = false).
  { destruct He as [-> | ->]; [done |]. by rewrite Nat.ltb_irrefl, andb_false_r. }
  assert (Hpad : (if (k <? TEMPLATE_SIZE)%nat
                  then memset buf k 0 (TEMPLATE_SIZE - k) else buf)
                 = take k buf ++ replicate (TEMPLATE_SIZE - k) 0).
  { destruct (k <? TEMPLATE_SIZE)%nat eqn:Hlt; [by apply memset_tail |].
    apply Nat.ltb_ge in Hlt. replace k with TEMPLATE_SIZE by lia.
    rewrite Nat.sub_diag, take_ge by lia. cbn [replicate]. by rewrite app_nil_r. }
  destruct fuel; cbn [readPackets]; rewrite Hc, Hpad; reflexivity.
Qed.

Lemma written_prefix (buf payload : list Z) k :
  length buf = TEMPLATE_SIZE → (k + length payload ≤ TEMPLATE_SIZE)%nat →
  length (take k buf ++ payload ++ drop (k + length payload) buf)
  = TEMPLATE_SIZE
  ∧ take (k + length payload)
      (take k buf ++ payload ++ drop (k + length payload) buf)
    = take k buf ++ payload.
Proof.
  intros Hbuf Hk. split.
  - rewrite !length_app, length_take, length_drop. lia.
  - rewrite app_assoc. apply take_app_length'.
    rewrite length_app, length_take. lia.
Qed.

Lemma encoded_frame_length ty payload :
  length (encoded_frame ty payload) = (11 + length payload)%nat.
Proof.
  unfold encoded_frame, frame_bytes, broadcast, be16.
  rewrite !length_app. cbn [length]. lia.
Qed.

Lemma transfer_stream_length chunks final :
  (length chunks < length (transfer_stream chunks final))%nat.
Proof.
  unfold transfer_stream. rewrite length_app, encoded_frame_length.
  assert (length chunks
          ≤ length (concat (map (encoded_frame FINGERPRINT_DATAPACKET) chunks)))%nat.
  { induction chunks as [|c chunks IH]; cbn [length map concat]; [lia |].
    rewrite length_app, encoded_frame_length. lia. }
  lia.
Qed.

Hypothesis data_not_end : FINGERPRINT_DATAPACKET ≠ FINGERPRINT_ENDDATAPACKET.

Lemma readPackets_transfer chunks : ∀ final k buf im cv md ak rest tr fuel,
  Forall (Forall is_byte) chunks → Forall is_byte final →
  (k + length (concat chunks ++ final) ≤ TEMPLATE_SIZE)%nat →
  length buf = TEMPLATE_SIZE →
  (length chunks < fuel)%nat →
  ∃ w',
    readPackets fuel false k buf
      (mkWorld true im cv md ak
         (map Some (transfer_stream chunks final) ++ rest) tr)
    = Some ((FINGERPRINT_OK,
             take k buf ++ (concat chunks ++ final)
             ++ replicate (TEMPLATE_SIZE - (k + length (concat chunks ++ final))) 0),
            w').
Proof using data_not_end.
  induction chunks as [|c chunks IH];
    intros final k buf im cv md ak rest tr fuel Hcs Hf Hk Hbuf Hfuel.
  - destruct fuel as [|fuel]; [cbn in Hfuel; lia |].
    cbn [concat app length] in *. unfold transfer_stream. cbn [map concat app].
    destruct (k <? TEMPLATE_SIZE)%nat eqn:Hlt.
    + cbn [readPackets negb andb]. rewrite Hlt.
      apply Nat.ltb_lt in Hlt. unfold encoded_frame.
      rewrite (bind_eq _ _ _ _ _
                 (readPacket_frame k buf im cv md ak rest tr broadcast
                    FINGERPRINT_ENDDATAPACKET final _ eq_refl broadcast_nonneg
                    (data_types_nonneg _ (or_intror eq_refl))
                    (or_intror eq_refl) Hf
                    ltac:(unfold frame_length, TEMPLATE_SIZE in *; lia)
                    Hk Hbuf)).
      rewrite Z.eqb_refl.
      destruct (written_prefix buf final k Hbuf Hk) as (Hlen' & Htake).
      rewrite readPackets_exit by (done || auto).
      rewrite Htake, <- app_assoc. eauto.
    + apply Nat.ltb_ge in Hlt. assert (k = TEMPLATE_SIZE) as -> by lia.
      assert (final = []) as -> by (apply nil_length_inv; lia).
      rewrite readPackets_exit by (done || auto).
      cbn [length app]. rewrite Nat.add_0_r. eauto.
  - apply Forall_cons in Hcs as [Hc Hcs].
    cbn [concat] in *. rewrite <- app_assoc in *. rewrite length_app in Hk.
    destruct fuel as [|fuel]; [cbn in Hfuel; lia |]. cbn [length] in Hfuel.
    destruct (k <? TEMPLATE_SIZE)%nat eqn:Hlt.
    + cbn [readPackets negb andb]. rewrite Hlt.
      apply Nat.ltb_lt in Hlt.
      unfold transfer_stream. cbn [map concat]. rewrite <- !app_assoc.
      rewrite map_app, <- app_assoc. unfold encoded_frame at 1.
      rewrite (bind_eq _ _ _ _ _
                 (readPacket_frame k buf im cv md ak _ tr broadcast
                    FINGERPRINT_DATAPACKET c _ eq_refl broadcast_nonneg
                    (data_types_nonneg _ (or_introl eq_refl))
                    (or_introl eq_refl) Hc
                    ltac:(unfold frame_length, TEMPLATE_SIZE in *; lia)
                    ltac:(lia) Hbuf)).
      rewrite (proj2 (Z.eqb_neq _ _) data_not_end).
      destruct (written_prefix buf c k Hbuf ltac:(lia)) as (Hlen' & Htake).
      edestruct (IH final (k + length c)%nat) as (w' & ->);
        [exact Hcs | exact Hf | lia | exact Hlen' | lia |].
      exists w'.
      replace (k + length (c ++ concat chunks ++ final))%nat
        with (k + length c + length (concat chunks ++ final))%nat
        by (rewrite (length_app c); lia).
      by rewrite Htake, <- !app_assoc.
    + apply Nat.ltb_ge in Hlt. assert (k = TEMPLATE_SIZE) as -> by lia.
      assert (c = []) as -> by (apply nil_length_inv; lia).
      assert (concat chunks ++ final = []) as Hnil
        by (apply nil_length_inv; lia).
      apply app_eq_nil in Hnil as [-> ->].
      rewrite readPackets_exit by (done || auto).
      cbn [length app]. rewrite Nat.add_0_r. eauto.
Qed.

(** A transfer that ends before the buffer is full: the template is the
    payloads of the frames, then zeros. *)
Lemma _readRawTemplate_transfer chunks final buffer w ackData acks rest :
  w_serial w = true →
  w_acks w = (FINGERPRINT_OK, ackData) :: acks →
  at_index ackData 0 = FINGERPRINT_OK →
  w_rx w = map Some (transfer_stream chunks final) ++ rest →
  Forall (Forall is_byte) chunks → Forall is_byte final →
  (length (concat chunks ++ final) ≤ TEMPLATE_SIZE)%nat →
  length buffer = TEMPLATE_SIZE →
  ∃ w',
    _readRawTemplate buffer w
    = Some ((FINGERPRINT_OK,
             (concat chunks ++ final)
             ++ replicate (TEMPLATE_SIZE - length (concat chunks ++ final)) 0),
            w').
Proof using data_not_end.
  intros Hs Hak Hd Hrx Hcs Hf Hlen Hbuf.
  destruct w as [s im cv md ak rx tr]. cbn in Hs, Hak, Hrx. subst s ak rx.
  unfold _readRawTemplate.
  cbv [mbind M_bind writeStructuredPacket getStructuredPacket emit set_acks
       w_acks w_serial w_images w_convs w_models w_rx w_trace].
  rewrite Z.eqb_refl, Hd, Z.eqb_refl. cbn [negb].
  unfold readAllPackets. cbn [w_rx].
  edestruct (readPackets_transfer chunks final 0 buffer) as (w' & ->);
    [exact Hcs | exact Hf | rewrite Nat.add_0_l; exact Hlen | exact Hbuf | |].
  - rewrite length_app, length_map.
    pose proof (transfer_stream_length chunks final). lia.
  - exists w'. by rewrite take_0, Nat.add_0_l.
Qed.
End Download.

(** ** Polling and the match command *)

Lemma match_commands_app tr1 tr2 :
  match_commands (tr1 ++ tr2) = (match_commands tr1 + match_commands tr2)%nat.
Proof. induction tr1 as [|e tr1 IH]; cbn; [done | rewrite IH; lia]. Qed.

Lemma quiet_ret {A : Type} (x : A) : quiet (mret x).
Proof. intros w y w' H. apply mret_Some in H. by simplify_eq. Qed.

Lemma quiet_bind {A B : Type} (m : M A) (f : A → M B) :
  quiet m → (∀ x, quiet (f x)) → quiet (m ≫= f).
Proof.
  intros Hm Hf w y w' H. apply bind_Some in H as (x & w1 & H1 & H2).
  rewrite (Hf _ _ _ _ H2). by eapply Hm.
Qed.

Lemma quiet_blocked {A : Type} : quiet (@blocked A).
Proof. intros w x w' H. discriminate. Qed.

Lemma quiet_emit {A : Type} (m : M A) :
  (∀ w x w', m w = Some (x, w') →
     ∃ e, is_match_command e = false ∧ w_trace w' = w_trace w ++ [e]) →
  quiet m.
Proof.
  intros Hm w x w' H. destruct (Hm _ _ _ H) as (e & He & ->).
  rewrite match_commands_app. cbn. rewrite He. lia.
Qed.

Lemma quiet_getImage : quiet getImage.
Proof.
  apply quiet_emit. intros w x w'. unfold getImage.
  destruct (w_images w); [done |]. intros [= <- <-]. eexists; split; [| reflexivity]; reflexivity.
Qed.

Lemma quiet_image2Tz slot : quiet (image2Tz slot).
Proof.
  apply quiet_emit. intros w x w'. unfold image2Tz.
  destruct (w_convs w); [done |]. intros [= <- <-]. eexists; split; [| reflexivity]; reflexivity.
Qed.

Lemma quiet_getStructuredPacket : quiet getStructuredPacket.
Proof.
  apply quiet_emit. intros w x w'. unfold getStructuredPacket.
  destruct (w_acks w) as [|[] ?]; [done |]. intros [= <- <-]. eexists; split; [| reflexivity]; reflexivity.
Qed.

Lemma quiet_serial_write bytes : quiet (serial_write bytes).
Proof. apply quiet_emit. intros w x w' [= <- <-]. eexists; split; [| reflexivity]; reflexivity. Qed.

Lemma quiet_serial_flush : quiet serial_flush.
Proof. apply quiet_emit. intros w x w' [= <- <-]. eexists; split; [| reflexivity]; reflexivity. Qed.

Lemma quiet_serial_set : quiet serial_set.
Proof. intros w x w' [= <- <-]. done. Qed.

Ltac quiet_step :=
  first
    [ apply quiet_ret | apply quiet_blocked | apply quiet_getImage
    | apply quiet_image2Tz | apply quiet_getStructuredPacket
    | apply quiet_serial_write | apply quiet_serial_flush
    | apply quiet_serial_set | assumption
    | apply quiet_bind; [| intros ?]
    | match goal with
      | |- quiet (if ?c then _ else _) => destruct c
      | |- quiet (let '(_, _) := ?p in _) => destruct p
      | |- quiet (let _ := _ in _) => cbv zeta
      end ].

Section Polling.
Context {codes : DriverCodes}.

Lemma quiet_awaitFingerLoop fuel : ∀ limit timeout,
  quiet (awaitFingerLoop fuel limit timeout).
Proof.
  induction fuel as [|fuel IH]; intros limit timeout; cbn [awaitFingerLoop];
    repeat quiet_step. apply IH.
Qed.

Lemma quiet_awaitFinger limit : quiet (awaitFinger limit).
Proof. intros w x w' H. by eapply quiet_awaitFingerLoop. Qed.

Lemma quiet_awaitRemovalLoop fuel : quiet (awaitRemovalLoop fuel).
Proof. induction fuel as [|fuel IH]; cbn [awaitRemovalLoop]; repeat quiet_step. Qed.

Lemma quiet_awaitRemoval : quiet awaitRemoval.
Proof. intros w x w' H. by eapply quiet_awaitRemovalLoop. Qed.

Lemma quiet_captureLoop fuel : ∀ timeout, quiet (captureLoop fuel timeout).
Proof.
  induction fuel as [|fuel IH]; intros timeout; cbn [captureLoop];
    repeat quiet_step; apply IH.
Qed.

Lemma quiet_captureGoodImage : quiet captureGoodImage.
Proof. intros w x w' H. by eapply quiet_captureLoop. Qed.

Lemma quiet_sendDataPacket td sent n ty : quiet (sendDataPacket td sent n ty).
Proof. unfold sendDataPacket. repeat quiet_step. Qed.

Lemma quiet_sendPackets fuel td : ∀ sent, quiet (sendPackets fuel td sent).
Proof.
  induction fuel as [|fuel IH]; intros sent; cbn [sendPackets].
  - destruct (sent <? TEMPLATE_SIZE)%nat; quiet_step.
  - destruct (sent <? TEMPLATE_SIZE)%nat; [| quiet_step].
    cbv zeta. apply quiet_bind; [apply quiet_sendDataPacket | intros _; apply IH].
Qed.

Lemma quiet_uploadTemplateToBuffer td id : quiet (uploadTemplateToBuffer td id).
Proof.
  unfold uploadTemplateToBuffer.
  repeat first [apply quiet_sendPackets | quiet_step].
Qed.

(** A wait for removal that ends has seen the driver answer "no finger". *)
Lemma awaitRemovalLoop_ends fuel : ∀ w u w',
  awaitRemovalLoop fuel w = Some (u, w') → ends_with_removal w'.
Proof.
  induction fuel as [|fuel IH]; intros w u w' H; cbn [awaitRemovalLoop] in H;
    [done |].
  run_inv H.
  - by eapply IH.
  - simplify_eq. apply negb_false_iff, Z.eqb_eq in Hc. subst x.
    unfold getImage in Hrun. destruct (w_images w); [done |].
    simplify_eq. unfold ends_with_removal. cbn. apply last_snoc.
Qed.

Lemma awaitRemoval_ends w u w' :
  awaitRemoval w = Some (u, w') → ends_with_removal w'.
Proof. apply awaitRemovalLoop_ends. Qed.

End Polling.

(** ** Verification *)

Section Verification.
Context {codes : DriverCodes}.

Lemma match_exchange_run p data acks w (k : Z * list Z → M (Z * Z)) :
  w_acks w = (p, data) :: acks →
  (writeStructuredPacket FINGERPRINT_COMMANDPACKET [0x03] ≫= λ _,
   getStructuredPacket ≫= k) w
  = k (p, data) (match_exchanged p data acks w).
Proof.
  intros Hak. destruct w as [s im cv md ak rx tr]. cbn in Hak. subst ak.
  reflexivity.
Qed.


(** The packet after an answer is stored in it: the bytes of the answer,
    then the bytes that were there. *)
Lemma received_at_index data old i :
  (i < length data)%nat → at_index (received data old) i = at_index data i.
Proof.
  intros Hi. unfold at_index, received. by rewrite lookup_app_l.
Qed.

Lemma received_past data old i :
  (length data ≤ i)%nat → at_index (received data old) i = at_index old i.
Proof.
  intros Hi. unfold at_index, received.
  rewrite lookup_app_r, lookup_drop by done. do 2 f_equal. lia.
Qed.

Lemma ackScore_received data old :
  (3 ≤ length data)%nat → ackScore (received data old) = ackScore data.
Proof.
  intros Hl. unfold ackScore. by rewrite !received_at_index by lia.
Qed.

Lemma writeStructuredPacket_match w u w' :
  writeStructuredPacket FINGERPRINT_COMMANDPACKET [0x03] w = Some (u, w') →
  match_commands (w_trace w') = S (match_commands (w_trace w)).
Proof.
  unfold writeStructuredPacket. intros [= <- <-]. cbn [emit w_trace].
  rewrite match_commands_app. cbn. lia.
Qed.

(** The part of [matchWithTemplate] before the verdict. *)
Lemma matchWithTemplate_reaches_verdict tpl sc w w1 w2 p m1 acks :
  captureGoodImage w = Some (true, w1) →
  uploadTemplateToBuffer tpl 2 w1 = Some (FINGERPRINT_OK, w2) →
  w_acks w2 = (p, m1) :: acks →
  matchWithTemplate tpl sc w
  = (if negb (p =? FINGERPRINT_OK) then mret (5, sc) else
     let matchResult := at_index m1 0 in
     if matchResult =? FINGERPRINT_OK then
       awaitRemoval ≫= λ _, mret (0, ackScore m1)
     else if matchResult =? FINGERPRINT_ENROLLMISMATCH then
       awaitFinger 100 ≫= λ found,
       if negb found then mret (4, sc) else
       image2Tz 1 ≫= λ p,
       if negb (p =? FINGERPRINT_OK) then mret (4, sc) else
       writeStructuredPacket FINGERPRINT_COMMANDPACKET [0x03] ≫= λ _,
       getStructuredPacket ≫= λ '(p, data),
       let matchAck := received data m1 in
       if (p =? FINGERPRINT_OK) && (at_index matchAck 0 =? FINGERPRINT_OK) then
         awaitRemoval ≫= λ _, mret (0, ackScore matchAck)
       else
         awaitRemoval ≫= λ _, mret (4, sc)
     else
       awaitRemoval ≫= λ _, mret (4, sc))
    (match_exchanged p m1 acks w2).
Proof.
  intros Hcap Hup Hak. unfold matchWithTemplate.
  rewrite (bind_eq _ _ _ _ _ Hcap). cbn [negb].
  rewrite (bind_eq _ _ _ _ _ Hup). rewrite Z.eqb_refl. cbn [negb].
  rewrite (match_exchange_run _ _ _ _ _ Hak). reflexivity.
Qed.

(** C9, as amended.  [matchWithTemplate] polls until the driver reports no
    finger before it returns, on every branch that returns a verdict of the
    match: whenever it returns success; when the first answer carries a result
    code other than the mismatch code; and in the retry, once the re-acquired
    image has converted.  When the capture loop exceeds its bound, it returns
    1 at once, without such polling. *)
Theorem match_awaits_removal_on_verdict tpl sc w r w' :
  matchWithTemplate tpl sc w = Some (r, w') →
  (r.1 = 0 → ends_with_removal w')
  ∧ (∀ w1 w2 m1 acks,
       captureGoodImage w = Some (true, w1) →
       uploadTemplateToBuffer tpl 2 w1 = Some (FINGERPRINT_OK, w2) →
       w_acks w2 = (FINGERPRINT_OK, m1) :: acks →
       (at_index m1 0 ≠ FINGERPRINT_ENROLLMISMATCH → ends_with_removal w')
       ∧ (∀ w4 w5,
            awaitFinger 100 (match_exchanged FINGERPRINT_OK m1 acks w2)
            = Some (true, w4) →
            image2Tz 1 w4 = Some (FINGERPRINT_OK, w5) →
            ends_with_removal w'))
  ∧ (∀ w1, captureGoodImage w = Some (false, w1) → r = (1, sc) ∧ w' = w1).
Proof.
  intros H. split; [| split].
  - intros Hr. unfold matchWithTemplate in H.
    run_inv H; simplify_eq; cbn in Hr; try discriminate;
      eauto using awaitRemoval_ends.
  - intros w1 w2 m1 acks Hcap Hup Hak.
    rewrite (matchWithTemplate_reaches_verdict _ _ _ _ _ _ _ _ Hcap Hup Hak) in H.
    rewrite Z.eqb_refl in H. cbn [negb] in H. cbv zeta in H.
    split.
    + intros Hne. rewrite (proj2 (Z.eqb_neq _ _) Hne) in H.
      run_inv H; simplify_eq; eauto using awaitRemoval_ends.
    + intros w4 w5 Hfind Hconv.
      destruct (at_index m1 0 =? FINGERPRINT_OK);
        [run_inv H; simplify_eq; eauto using awaitRemoval_ends |].
      destruct (at_index m1 0 =? FINGERPRINT_ENROLLMISMATCH);
        [| run_inv H; simplify_eq; eauto using awaitRemoval_ends].
      rewrite (bind_eq _ _ _ _ _ Hfind) in H. cbn [negb] in H.
      rewrite (bind_eq _ _ _ _ _ Hconv) in H. rewrite Z.eqb_refl in H.
      cbn [negb] in H.
      run_inv H; simplify_eq; eauto using awaitRemoval_ends.
  - intros w1 Hcap. unfold matchWithTemplate in H.
    rewrite (bind_eq _ _ _ _ _ Hcap) in H. cbn [negb] in H.
    apply mret_Some in H. by simplify_eq.
Qed.

Hypothesis ok_not_mismatch : FINGERPRINT_OK ≠ FINGERPRINT_ENROLLMISMATCH.


End Verification.

(** ** Enrollment *)

Section Enrollment.
Context {codes : DriverCodes}.

(** The part of [enrollAndGetTemplate] before the model is created. *)
Lemma enrollAndGetTemplate_reaches_model out w w1 w2 w3 w4 w5 p w6 :
  awaitFinger 200 w = Some (true, w1) →
  image2Tz 1 w1 = Some (FINGERPRINT_OK, w2) →
  awaitRemoval w2 = Some (tt, w3) →
  awaitFinger 200 w3 = Some (true, w4) →
  image2Tz 2 w4 = Some (FINGERPRINT_OK, w5) →
  createModel w5 = Some (p, w6) →
  enrollAndGetTemplate out w
  = (if p =? FINGERPRINT_OK then
       _readRawTemplate out ≫= λ '(p, out'),
       if negb (p =? FINGERPRINT_OK) then mret (4, out')
       else awaitRemoval ≫= λ _, mret (0, out')
     else if p =? FINGERPRINT_ENROLLMISMATCH then mret (3, out)
     else mret (3, out)) w6.
Proof.
  intros H1 H2 H3 H4 H5 H6. unfold enrollAndGetTemplate.
  rewrite (bind_eq _ _ _ _ _ H1). cbn [negb].
  rewrite (bind_eq _ _ _ _ _ H2), Z.eqb_refl. cbn [negb].
  rewrite (bind_eq _ _ _ _ _ H3).
  rewrite (bind_eq _ _ _ _ _ H4). cbn [negb].
  rewrite (bind_eq _ _ _ _ _ H5), Z.eqb_refl. cbn [negb].
  rewrite (bind_eq _ _ _ _ _ H6). reflexivity.
Qed.

(** C7, as amended.  When the create-model step of [enrollAndGetTemplate]
    answers: success goes on to the template download (then 4 if the download
    fails, else 0 after the finger is removed); the mismatch code fails with
    3; any other code fails with 3 as well.  The value returned says which
    step failed, the device's code itself is not returned. *)
Theorem enroll_create_model_outcomes out w w1 w2 w3 w4 w5 p w6 :
  awaitFinger 200 w = Some (true, w1) →
  image2Tz 1 w1 = Some (FINGERPRINT_OK, w2) →
  awaitRemoval w2 = Some (tt, w3) →
  awaitFinger 200 w3 = Some (true, w4) →
  image2Tz 2 w4 = Some (FINGERPRINT_OK, w5) →
  createModel w5 = Some (p, w6) →
  (p = FINGERPRINT_OK →
     enrollAndGetTemplate out w
     = (_readRawTemplate out ≫= λ '(r, out'),
        if negb (r =? FINGERPRINT_OK) then mret (4, out')
        else awaitRemoval ≫= λ _, mret (0, out')) w6)
  ∧ (p ≠ FINGERPRINT_OK → p = FINGERPRINT_ENROLLMISMATCH →
     enrollAndGetTemplate out w = Some ((3, out), w6))
  ∧ (p ≠ FINGERPRINT_OK → p ≠ FINGERPRINT_ENROLLMISMATCH →
     enrollAndGetTemplate out w = Some ((3, out), w6)).
Proof.
  intros H1 H2 H3 H4 H5 H6.
  rewrite (enrollAndGetTemplate_reaches_model _ _ _ _ _ _ _ _ _ H1 H2 H3 H4 H5 H6).
  split; [| split].
  - intros ->. by rewrite Z.eqb_refl.
  - intros Hne ->. rewrite (proj2 (Z.eqb_neq _ _) Hne), Z.eqb_refl. done.
  - intros Hne Hne'.
    by rewrite (proj2 (Z.eqb_neq _ _) Hne), (proj2 (Z.eqb_neq _ _) Hne').
Qed.

(** C8, as amended.  A timeout while waiting for the finger makes
    [enrollAndGetTemplate] return 1, for the first scan and for the second
    scan alike: the value names the kind of failure, not the scan. *)
Theorem enroll_finger_timeouts out w :
  (∀ w1, awaitFinger 200 w = Some (false, w1) →
         enrollAndGetTemplate out w = Some ((1, out), w1))
  ∧ (∀ w1 w2 w3 w4,
       awaitFinger 200 w = Some (true, w1) →
       image2Tz 1 w1 = Some (FINGERPRINT_OK, w2) →
       awaitRemoval w2 = Some (tt, w3) →
       awaitFinger 200 w3 = Some (false, w4) →
       enrollAndGetTemplate out w = Some ((1, out), w4)).
Proof.
  split.
  - intros w1 H1. unfold enrollAndGetTemplate.
    by rewrite (bind_eq _ _ _ _ _ H1).
  - intros w1 w2 w3 w4 H1 H2 H3 H4. unfold enrollAndGetTemplate.
    rewrite (bind_eq _ _ _ _ _ H1). cbn [negb].
    rewrite (bind_eq _ _ _ _ _ H2), Z.eqb_refl. cbn [negb].
    rewrite (bind_eq _ _ _ _ _ H3).
    by rewrite (bind_eq _ _ _ _ _ H4).
Qed.

End Enrollment.

(** ** Digests *)

Lemma sha256_digest_length msg : length (Sha256.digest msg) = HASH_SIZE.
Proof. reflexivity. Qed.

Lemma memcmp_refl n : ∀ a, memcmp a a n = 0.
Proof.
  induction n as [|n IH]; intros a; cbn [memcmp]; [done |].
  by rewrite Z.ltb_irrefl.
Qed.

Lemma memcmp_zero n : ∀ a b,
  length a = n → length b = n → (memcmp a b n = 0 ↔ a = b).
Proof.
  induction n as [|n IH]; intros a b Ha Hb.
  - apply nil_length_inv in Ha, Hb. by subst.
  - destruct a as [|x a]; [done |]. destruct b as [|y b]; [done |].
    cbn [memcmp tail]. unfold at_index. cbn [lookup list_lookup default].
    cbv [id]. cbn in Ha, Hb.
    destruct (Z.ltb_spec x y); [split; [done | intros [=]; lia] |].
    destruct (Z.ltb_spec y x); [split; [done | intros [=]; lia] |].
    assert (x = y) as -> by lia.
    rewrite IH by lia. split; [by intros -> | by intros [=]].
Qed.

Section Digest.
Context {codes : DriverCodes}.
Variable mbedtls_sha256 : list Z → list Z.
Hypothesis mbedtls_sha256_length :
  ∀ m, length (mbedtls_sha256 m) = HASH_SIZE.

(** C4.  With a SHA-256 that yields 32 bytes.
    - When the capture ([_getTemplateBytes]) succeeds with the template [T]
      in the buffer, [readAndHashFingerprint] returns 0 and writes
      [computeDigest T] to the hash output; when the capture returns another
      result, it returns that result and leaves the hash output as it was.
      It returns nothing else.
    - [computeDigest] is SHA-256 over the first 512 bytes of the buffer, that
      is over the whole of a 512-byte template, and has 32 bytes.
    - [compareHashes] is true exactly when two 32-byte digests are equal byte
      for byte, and the digest of a template compares equal to itself.
    - The hash outputs of two successful runs compare equal exactly when the
      digests of the two captured templates are equal; they do when the
      templates are. *)
Theorem digest_and_comparison :
  (∀ templateBuffer hashOutput w T w',
     _getTemplateBytes templateBuffer w = Some ((0, T), w') →
     readAndHashFingerprint mbedtls_sha256 templateBuffer hashOutput w
     = Some ((0, computeDigest mbedtls_sha256 T), w'))
  ∧ (∀ templateBuffer hashOutput w r T w',
     r ≠ 0 →
     _getTemplateBytes templateBuffer w = Some ((r, T), w') →
     readAndHashFingerprint mbedtls_sha256 templateBuffer hashOutput w
     = Some ((r, hashOutput), w'))
  ∧ (∀ templateBuffer hashOutput w r h w',
     readAndHashFingerprint mbedtls_sha256 templateBuffer hashOutput w
     = Some ((r, h), w') →
     ∃ T, _getTemplateBytes templateBuffer w = Some ((r, T), w') ∧
          h = if r =? 0 then computeDigest mbedtls_sha256 T else hashOutput)
  ∧ (∀ T, computeDigest mbedtls_sha256 T
          = mbedtls_sha256 (take TEMPLATE_SIZE T)
          ∧ (length T = TEMPLATE_SIZE →
             computeDigest mbedtls_sha256 T = mbedtls_sha256 T)
          ∧ length (computeDigest mbedtls_sha256 T) = HASH_SIZE)
  ∧ (∀ h1 h2, length h1 = HASH_SIZE → length h2 = HASH_SIZE →
              (compareHashes h1 h2 = true ↔ h1 = h2))
  ∧ (∀ T, compareHashes (computeDigest mbedtls_sha256 T)
                        (computeDigest mbedtls_sha256 T) = true)
  ∧ (∀ buffer1 hashOutput1 w1 T1 w1' buffer2 hashOutput2 w2 T2 w2',
     _getTemplateBytes buffer1 w1 = Some ((0, T1), w1') →
     _getTemplateBytes buffer2 w2 = Some ((0, T2), w2') →
     length T1 = TEMPLATE_SIZE → length T2 = TEMPLATE_SIZE →
     ∃ h1 h2,
       readAndHashFingerprint mbedtls_sha256 buffer1 hashOutput1 w1
       = Some ((0, h1), w1')
       ∧ readAndHashFingerprint mbedtls_sha256 buffer2 hashOutput2 w2
         = Some ((0, h2), w2')
       ∧ (compareHashes h1 h2 = true ↔ mbedtls_sha256 T1 = mbedtls_sha256 T2)
       ∧ (T1 = T2 → compareHashes h1 h2 = true)).
Proof using mbedtls_sha256_length.
  assert (Hcmp : ∀ h1 h2, length h1 = HASH_SIZE → length h2 = HASH_SIZE →
                          (compareHashes h1 h2 = true ↔ h1 = h2)).
  { intros h1 h2 H1 H2. unfold compareHashes. rewrite Z.eqb_eq.
    by apply memcmp_zero. }
  assert (Hok : ∀ tb ho w T w',
            _getTemplateBytes tb w = Some ((0, T), w') →
            readAndHashFingerprint mbedtls_sha256 tb ho w
            = Some ((0, computeDigest mbedtls_sha256 T), w')).
  { intros tb ho w T w' Hg. unfold readAndHashFingerprint.
    by rewrite (bind_eq _ _ _ _ _ Hg). }
  assert (Hfull : ∀ T, length T = TEMPLATE_SIZE →
                       computeDigest mbedtls_sha256 T = mbedtls_sha256 T).
  { intros T HT. unfold computeDigest. by rewrite take_ge by lia. }
  split; [exact Hok |]. split; [| split; [| split; [| split; [| split]]]].
  - intros tb ho w r T w' Hr Hg. unfold readAndHashFingerprint.
    rewrite (bind_eq _ _ _ _ _ Hg). cbv beta iota.
    by rewrite (proj2 (Z.eqb_neq _ _) Hr).
  - intros tb ho w r h w' H. unfold readAndHashFingerprint in H.
    apply bind_Some in H as ([r0 T] & w1 & Hget & H). cbv beta iota in H.
    destruct (r0 =? 0) eqn:Hr; cbn [negb] in H; apply mret_Some in H;
      simplify_eq.
    + apply Z.eqb_eq in Hr. subst. exists T. by rewrite Z.eqb_refl.
    + exists T. by rewrite Hr.
  - intros T. split; [done |]. split; [apply Hfull |].
    apply mbedtls_sha256_length.
  - exact Hcmp.
  - intros T. apply Hcmp; [apply mbedtls_sha256_length .. | done].
  - intros b1 o1 w1 T1 w1' b2 o2 w2 T2 w2' Hg1 Hg2 Hl1 Hl2.
    exists (computeDigest mbedtls_sha256 T1), (computeDigest mbedtls_sha256 T2).
    split; [by apply Hok |]. split; [by apply Hok |].
    rewrite Hcmp by apply mbedtls_sha256_length.
    rewrite !Hfull by done. split; [done |]. by intros ->.
Qed.

End Digest.

(** ** Download: what a failure leaves *)

Section DownloadErrors.
Context {codes : DriverCodes}.

Lemma world_eta w :
  w = mkWorld (w_serial w) (w_images w) (w_convs w) (w_models w) (w_acks w)
              (w_rx w) (w_trace w).
Proof. by destruct w. Qed.

(** What the data loop leaves in the buffer: the bytes stored, between the
    content before and the content after them. *)
Lemma readData_written n : ∀ k buf w t k' buf' w',
  readData n k buf w = Some ((t, k', buf'), w') →
  length buf = TEMPLATE_SIZE → (k ≤ TEMPLATE_SIZE)%nat →
  ∃ bs, w_trace w' = w_trace w ++ map EvPayload bs ∧
        k' = (k + length bs)%nat ∧ (k' ≤ TEMPLATE_SIZE)%nat ∧
        buf' = take k buf ++ bs ++ drop k' buf.
Proof.
  induction n as [|n IH]; intros k buf w t k' buf' w' H Hlen Hk; cbn [readData] in H.
  - apply mret_Some in H. simplify_eq.
    exists []. cbn. rewrite !app_nil_r, Nat.add_0_r, take_drop. done.
  - run_inv H.
    + simplify_eq. apply _readByte_inv in Hrun as (Htr & _).
      exists []. cbn. rewrite !app_nil_r, Nat.add_0_r, take_drop. done.
    + apply _readByte_inv in Hrun as (Htr & _).
      unfold note_payload in Hrun0. simplify_eq.
      apply Nat.ltb_lt in Hc.
      apply IH in H as (bs & Htr' & -> & Hk' & ->);
        [| by rewrite length_insert | lia].
      exists (x mod 256 :: bs). cbn [map length].
      split; [rewrite Htr'; cbn; rewrite Htr, <- app_assoc; reflexivity |].
      split; [lia |]. split; [lia |].
      rewrite (take_S_r _ _ (x mod 256))
        by (apply list_lookup_insert_eq; unfold TEMPLATE_SIZE in *; lia).
      rewrite take_insert_ge by lia. rewrite drop_insert_lt by lia.
      rewrite <- !app_assoc. cbn [app].
      replace (k + S (length bs))%nat with (S k + length bs)%nat by lia. done.
    + simplify_eq. exists []. cbn. rewrite !app_nil_r, Nat.add_0_r, take_drop. done.
Qed.

(** A pass of the packet loop that fails leaves the bytes it stored. *)
Lemma readPacket_written k buf w r w' :
  readPacket k buf w = Some (r, w') →
  length buf = TEMPLATE_SIZE → (k < TEMPLATE_SIZE)%nat →
  ∃ bs, w_trace w' = w_trace w ++ map EvPayload bs ∧
    (k + length bs ≤ TEMPLATE_SIZE)%nat ∧
    match r with
    | DataRead _ _ k' buf' =>
        k' = (k + length bs)%nat ∧
        buf' = take k buf ++ bs ++ drop k' buf
    | Returned st buf' =>
        st ≠ FINGERPRINT_OK →
        buf' = take k buf ++ bs ++ drop (k + length bs) buf
    end.
Proof.
  intros H Hlen Hk. unfold readPacket in H.
  run_inv H; simplify_eq;
    repeat match goal with
    | Hr : _readByte _ _ = Some _ |- _ => apply _readByte_inv in Hr as (? & _)
    | Hr : readAddress _ _ = Some _ |- _ => apply readAddress_inv in Hr
    | Hr : discardBytes _ _ = Some _ |- _ => apply discardBytes_inv in Hr
    end.
  all: try (exists []; cbn [map length app]; rewrite app_nil_r, Nat.add_0_r;
            split; [congruence |]; split; [lia |];
            intros Hst; try congruence; by rewrite take_drop).
  - apply readData_written in Hrun5 as (bs & Htr & -> & Hn' & ->); [| done | lia].
    exists bs. split; [congruence |]. done.
  - apply readData_written in Hrun5 as (bs & Htr & -> & Hn' & ->); [| done | lia].
    exists bs. split; [congruence |]. done.
Qed.

Lemma drop_written (buf bs : list Z) k m :
  length buf = TEMPLATE_SIZE → (k + length bs ≤ TEMPLATE_SIZE)%nat →
  drop (k + length bs + m) (take k buf ++ bs ++ drop (k + length bs) buf)
  = drop (k + length bs + m) buf.
Proof.
  intros Hlen Hk. rewrite app_assoc.
  rewrite drop_app_ge by (rewrite length_app, length_take; lia).
  rewrite length_app, length_take, drop_drop. f_equal. lia.
Qed.

Lemma length_written (buf bs : list Z) k :
  length buf = TEMPLATE_SIZE → (k + length bs ≤ TEMPLATE_SIZE)%nat →
  length (take k buf ++ bs ++ drop (k + length bs) buf) = TEMPLATE_SIZE.
Proof. intros. rewrite !length_app, length_take, length_drop. lia. Qed.

Lemma take_written (buf bs : list Z) k :
  length buf = TEMPLATE_SIZE → (k + length bs ≤ TEMPLATE_SIZE)%nat →
  take (k + length bs) (take k buf ++ bs ++ drop (k + length bs) buf)
  = take k buf ++ bs.
Proof.
  intros. rewrite app_assoc. apply take_app_length'.
  rewrite length_app, length_take. lia.
Qed.

Lemma readPackets_written fuel : ∀ e k buf w st out w',
  readPackets fuel e k buf w = Some ((st, out), w') →
  st ≠ FINGERPRINT_OK →
  length buf = TEMPLATE_SIZE → (k ≤ TEMPLATE_SIZE)%nat →
  ∃ bs, w_trace w' = w_trace w ++ map EvPayload bs ∧
        (k + length bs ≤ TEMPLATE_SIZE)%nat ∧
        out = take k buf ++ bs ++ drop (k + length bs) buf.
Proof.
  induction fuel as [|fuel IH]; intros e k buf w st out w' H Hst Hlen Hk;
    cbn [readPackets] in H.
  - destruct (negb e && (k <? TEMPLATE_SIZE)%nat) eqn:Hc; [discriminate |].
    apply mret_Some in H. simplify_eq.
  - destruct (negb e && (k <? TEMPLATE_SIZE)%nat) eqn:Hc.
    + apply andb_true_iff in Hc as [He Hk']. apply Nat.ltb_lt in Hk'.
      run_inv H.
      apply readPacket_written in Hrun as (bs & Htr & Hb & Hr); [| done | done].
      destruct x as [st' buf' | ty len k' buf'].
      * apply mret_Some in H. simplify_eq. exists bs. auto.
      * destruct Hr as (-> & ->).
        apply IH in H as (bs' & Htr' & Hb' & ->);
          [| done | by apply length_written | done].
        exists (bs ++ bs'). rewrite length_app.
        split; [rewrite Htr', Htr, map_app, app_assoc; done |].
        split; [lia |].
        rewrite take_written, drop_written by done.
        rewrite <- !app_assoc, Nat.add_assoc. reflexivity.
    + apply mret_Some in H. simplify_eq.
Qed.

(** X8.  When [_readRawTemplate] returns a failure status, the buffer holds the
    payload bytes stored before the failure, in order, followed by the content
    it had before the call from that position on: what was stored is not
    undone, and nothing else is written. *)
Theorem download_failure_buffer buffer w st out w' :
  length buffer = TEMPLATE_SIZE →
  _readRawTemplate buffer w = Some ((st, out), w') →
  st ≠ FINGERPRINT_OK →
  ∃ evs, w_trace w' = w_trace w ++ evs ∧
         (length (payload_of evs) ≤ TEMPLATE_SIZE)%nat ∧
         out = payload_of evs ++ drop (length (payload_of evs)) buffer.
Proof.
  intros Hlen H Hst. unfold _readRawTemplate in H. run_inv H.
  - simplify_eq. unfold writeStructuredPacket in Hrun. simplify_eq.
    apply getStructuredPacket_inv in Hrun0 as (acks & _ & ->).
    eexists. split; [cbn [emit set_acks w_trace]; rewrite <- app_assoc; reflexivity |].
    cbn. split; [lia | by rewrite drop_0].
  - simplify_eq. unfold writeStructuredPacket in Hrun. simplify_eq.
    apply getStructuredPacket_inv in Hrun0 as (acks & _ & ->).
    eexists. split; [cbn [emit set_acks w_trace]; rewrite <- app_assoc; reflexivity |].
    cbn. split; [lia | by rewrite drop_0].
  - unfold writeStructuredPacket in Hrun. simplify_eq.
    apply getStructuredPacket_inv in Hrun0 as (acks & _ & ->).
    unfold readAllPackets in H.
    apply readPackets_written in H as (bs & Htr & Hb & ->); [| done | done | lia].
    eexists. split; [rewrite Htr; cbn [emit set_acks w_trace]; rewrite <- !app_assoc; reflexivity |].
    rewrite !payload_of_app, payload_of_map. cbn [payload_of app].
    rewrite take_0. cbn [app]. by rewrite Nat.add_0_l in *.
Qed.

End DownloadErrors.

(** ** Download: statuses and protocol errors *)

Section DownloadPasses.
Context {codes : DriverCodes}.

(** The statuses a pass of the packet loop can leave with. *)
Lemma readPacket_status k buf w st out w' :
  readPacket k buf w = Some (Returned st out, w') →
  st = FINGERPRINT_OK ∨ st = FINGERPRINT_TIMEOUT
  ∨ st = FINGERPRINT_PACKETRECIEVEERR.
Proof.
  intros H. unfold readPacket in H. run_inv H; simplify_eq; auto.
Qed.

Lemma readPackets_status fuel : ∀ e k buf w st out w',
  readPackets fuel e k buf w = Some ((st, out), w') →
  st = FINGERPRINT_OK ∨ st = FINGERPRINT_TIMEOUT
  ∨ st = FINGERPRINT_PACKETRECIEVEERR.
Proof.
  induction fuel as [|fuel IH]; intros e k buf w st out w' H;
    cbn [readPackets] in H.
  - destruct (negb e && (k <? TEMPLATE_SIZE)%nat); [discriminate |].
    apply mret_Some in H. simplify_eq. auto.
  - destruct (negb e && (k <? TEMPLATE_SIZE)%nat).
    + run_inv H. destruct x as [st' buf' | ty len k' buf'].
      * apply mret_Some in H. simplify_eq. by eapply readPacket_status.
      * by eapply IH.
    + apply mret_Some in H. simplify_eq. auto.
Qed.

(** X2.  The status of a download.  When the driver fails to read the
    acknowledgment, its result is returned; when the acknowledgment carries a
    confirmation code other than success, that code is returned; in both
    cases the buffer is untouched and no byte is taken from the serial line.
    Once the command is acknowledged the status is one of
    [FINGERPRINT_OK], [FINGERPRINT_TIMEOUT], [FINGERPRINT_PACKETRECIEVEERR]. *)
Theorem download_status buffer w st out w' result ackData acks :
  _readRawTemplate buffer w = Some ((st, out), w') →
  w_acks w = (result, ackData) :: acks →
  (result ≠ FINGERPRINT_OK →
     st = result ∧ out = buffer ∧ w_rx w' = w_rx w)
  ∧ (result = FINGERPRINT_OK → at_index ackData 0 ≠ FINGERPRINT_OK →
     st = at_index ackData 0 ∧ out = buffer ∧ w_rx w' = w_rx w)
  ∧ (result = FINGERPRINT_OK → at_index ackData 0 = FINGERPRINT_OK →
     st = FINGERPRINT_OK ∨ st = FINGERPRINT_TIMEOUT
     ∨ st = FINGERPRINT_PACKETRECIEVEERR).
Proof.
  intros H Hak. unfold _readRawTemplate in H. run_inv H.
  all: unfold writeStructuredPacket in Hrun; simplify_eq.
  all: apply getStructuredPacket_inv in Hrun0 as (acks' & Hak' & ->).
  all: cbn [emit w_acks] in Hak'; rewrite Hak in Hak'; simplify_eq.
  - apply negb_true_iff, Z.eqb_neq in Hc. repeat split; done.
  - apply negb_false_iff, Z.eqb_eq in Hc.
    apply negb_true_iff, Z.eqb_neq in Hc0. repeat split; done.
  - apply negb_false_iff, Z.eqb_eq in Hc, Hc0.
    repeat split; try done. intros _ _. by eapply readPackets_status.
Qed.

(** A pass that leaves the function, seen from the call. *)
Lemma loop_pass_returns buffer w k buf wk st out w' :
  length buffer = TEMPLATE_SIZE →
  LoopState buffer w k buf wk → (k < TEMPLATE_SIZE)%nat →
  readPacket k buf wk = Some (Returned st out, w') →
  _readRawTemplate buffer w = Some ((st, out), w').
Proof.
  intros Hlen Hs Hk Hr.
  destruct (LoopState_inv _ _ _ _ _ Hs Hlen) as (Hbuf & _ & ->).
  cbn [readPackets negb andb]. rewrite (proj2 (Nat.ltb_lt _ _) Hk).
  by rewrite (bind_eq _ _ _ _ _ Hr).
Qed.

(** A pass after which the loop test fails. *)
Lemma loop_pass_ends buffer w k buf wk ty len k' buf' w' :
  length buffer = TEMPLATE_SIZE →
  LoopState buffer w k buf wk → (k < TEMPLATE_SIZE)%nat →
  readPacket k buf wk = Some (DataRead ty len k' buf', w') →
  ty = FINGERPRINT_ENDDATAPACKET ∨ k' = TEMPLATE_SIZE →
  _readRawTemplate buffer w
  = Some ((FINGERPRINT_OK, take k' buf' ++ replicate (TEMPLATE_SIZE - k') 0), w').
Proof.
  intros Hlen Hs Hk Hr Hend.
  destruct (LoopState_inv _ _ _ _ _ Hs Hlen) as (Hbuf & Hk' & ->).
  destruct (readPacket_DataRead _ _ _ _ _ _ _ _ Hr Hbuf Hk') as (Hbuf' & Hkk & _).
  cbn [readPackets negb andb]. rewrite (proj2 (Nat.ltb_lt _ _) Hk).
  rewrite (bind_eq _ _ _ _ _ Hr).
  apply readPackets_exit; [done | lia |].
  destruct Hend as [-> | ->]; [left; apply Z.eqb_refl | by right].
Qed.

(** X3.  A header that is not EF 01.  At any pass of the packet loop, when both
    header bytes arrive and are not 0xEF 0x01, [_readRawTemplate] returns
    [FINGERPRINT_PACKETRECIEVEERR] at once, also when payload bytes have been
    accumulated; the buffer is left as it is, without zero fill. *)
Theorem download_rejects_bad_header buffer w bytesRead buf wk b1 w1 b2 w2 :
  length buffer = TEMPLATE_SIZE →
  LoopState buffer w bytesRead buf wk →
  (bytesRead < TEMPLATE_SIZE)%nat →
  _readByte 2000 wk = Some (b1, w1) → _readByte 100 w1 = Some (b2, w2) →
  0 ≤ b1 → 0 ≤ b2 → b1 ≠ 0xEF ∨ b2 ≠ 0x01 →
  _readRawTemplate buffer w
  = Some ((FINGERPRINT_PACKETRECIEVEERR, buf), w2).
Proof.
  intros Hlen Hs Hk H1 H2 Hb1 Hb2 Hbad.
  apply (loop_pass_returns _ _ _ _ _ _ _ _ Hlen Hs Hk).
  unfold readPacket. rewrite (bind_eq _ _ _ _ _ H1), (bind_eq _ _ _ _ _ H2).
  rewrite (proj2 (Z.ltb_ge b1 0)), (proj2 (Z.ltb_ge b2 0)) by lia.
  cbn [orb].
  assert (negb (b1 =? 239) || negb (b2 =? 1) = true) as ->; [| done].
  apply orb_true_iff.
  destruct Hbad; [left | right]; by apply negb_true_iff, Z.eqb_neq.
Qed.

(** A read takes one entry of the serial input, when there is one. *)
Lemma _readByte_step t im cv md ak rx tr :
  _readByte t (mkWorld true im cv md ak rx tr)
  = Some (match rx with Some b :: _ => b | _ => -1 end,
          mkWorld true im cv md ak (drop 1 rx) tr).
Proof. by destruct rx as [|[b|] rx]. Qed.

Lemma discardBytes_rx n : ∀ im cv md ak rx tr,
  discardBytes n (mkWorld true im cv md ak rx tr)
  = Some (tt, mkWorld true im cv md ak (drop n rx) tr).
Proof.
  induction n as [|n IH]; intros im cv md ak rx tr; cbn [discardBytes].
  - by rewrite drop_0.
  - rewrite (bind_eq _ _ _ _ _ (_readByte_step _ _ _ _ _ _ _)), IH, drop_drop.
    done.
Qed.

(** Reading the header, the address, the type and the length of a packet. *)
Lemma readPacket_head k buf im cv md ak rest tr addr ty lh ll :
  length addr = 4%nat → Forall (λ b, 0 ≤ b) addr →
  0 ≤ ty → 0 ≤ lh → 0 ≤ ll →
  readPacket k buf
    (mkWorld true im cv md ak
       (map Some ([0xEF; 0x01] ++ addr ++ [ty; lh; ll]) ++ rest) tr)
  = (let packetLen := Z.lor (Z.shiftl lh 8) ll mod 65536 in
     if (ty =? FINGERPRINT_DATAPACKET) || (ty =? FINGERPRINT_ENDDATAPACKET)
     then
       let dataLen := (packetLen - 2) mod 65536 in
       '(timedOut, bytesRead', buffer') ← readData (Z.to_nat dataLen) k buf;
       if (timedOut : bool) then mret (Returned FINGERPRINT_TIMEOUT buffer')
       else _readByte 100;; _readByte 100;;
            mret (DataRead ty packetLen bytesRead' buffer')
     else if ty =? FINGERPRINT_ACKPACKET then
       discardBytes (Z.to_nat packetLen);;
       mret (Returned FINGERPRINT_PACKETRECIEVEERR buf)
     else mret (Returned FINGERPRINT_PACKETRECIEVEERR buf))
    (mkWorld true im cv md ak rest tr).
Proof.
  intros Haddr Hpos Hty Hlh Hll.
  cbn [app map]. rewrite !map_app. cbn [app map].
  unfold readPacket.
  rewrite (bind_eq _ _ _ _ _ (_readByte_cons _ _ _ _ _ _ _ _)).
  rewrite (bind_eq _ _ _ _ _ (_readByte_cons _ _ _ _ _ _ _ _)).
  change ((239 <? 0) || (1 <? 0)) with false.
  change (negb (239 =? 239) || negb (1 =? 1)) with false. cbv iota.
  rewrite <- Haddr, <- !app_assoc.
  rewrite (bind_eq _ _ _ _ _ (readAddress_bytes _ _ _ _ _ _ _ Hpos)).
  cbn [negb app].
  rewrite (bind_eq _ _ _ _ _ (_readByte_cons _ _ _ _ _ _ _ _)).
  rewrite (proj2 (Z.ltb_ge ty 0)) by lia.
  rewrite (bind_eq _ _ _ _ _ (_readByte_cons _ _ _ _ _ _ _ _)).
  rewrite (bind_eq _ _ _ _ _ (_readByte_cons _ _ _ _ _ _ _ _)).
  rewrite (proj2 (Z.ltb_ge lh 0)), (proj2 (Z.ltb_ge ll 0)) by lia.
  reflexivity.
Qed.

(** X4.  A packet that is not a data packet.  At any pass of the packet loop,
    a packet with a good header whose type is neither
    [FINGERPRINT_DATAPACKET] nor [FINGERPRINT_ENDDATAPACKET] makes
    [_readRawTemplate] return [FINGERPRINT_PACKETRECIEVEERR] with the buffer
    as it is; when the type is [FINGERPRINT_ACKPACKET] as many bytes as the
    length field says are taken from the line first, otherwise none. *)
Theorem download_rejects_other_packets
    buffer w bytesRead buf wk addr ty lh ll rest :
  length buffer = TEMPLATE_SIZE →
  LoopState buffer w bytesRead buf wk →
  (bytesRead < TEMPLATE_SIZE)%nat →
  w_serial wk = true →
  w_rx wk = map Some ([0xEF; 0x01] ++ addr ++ [ty; lh; ll]) ++ rest →
  length addr = 4%nat → Forall is_byte addr →
  is_byte ty → is_byte lh → is_byte ll →
  ty ≠ FINGERPRINT_DATAPACKET → ty ≠ FINGERPRINT_ENDDATAPACKET →
  ∃ w',
    _readRawTemplate buffer w
    = Some ((FINGERPRINT_PACKETRECIEVEERR, buf), w')
    ∧ w_trace w' = w_trace wk
    ∧ w_rx w' = if ty =? FINGERPRINT_ACKPACKET
                then drop (Z.to_nat (Z.lor (Z.shiftl lh 8) ll mod 65536)) rest
                else rest.
Proof.
  intros Hlen Hs Hk Hser Hrx Haddr Hab Hty Hlh Hll Hd He.
  assert (Hpos : Forall (λ b, 0 ≤ b) addr)
    by (eapply Forall_impl; [exact Hab |]; unfold is_byte; intros; lia).
  unfold is_byte in *.
  rewrite (world_eta wk) in Hs |- *. rewrite Hser, Hrx in Hs |- *.
  cbn [w_trace w_rx].
  assert (Hr := readPacket_head bytesRead buf (w_images wk) (w_convs wk)
                  (w_models wk) (w_acks wk) rest (w_trace wk) addr ty lh ll
                  Haddr Hpos
                  ltac:(lia) ltac:(lia) ltac:(lia)).
  cbv zeta in Hr.
  rewrite (proj2 (Z.eqb_neq _ _) Hd), (proj2 (Z.eqb_neq _ _) He) in Hr.
  cbn [orb] in Hr.
  destruct (ty =? FINGERPRINT_ACKPACKET).
  - rewrite (bind_eq _ _ _ _ _ (discardBytes_rx _ _ _ _ _ _ _)) in Hr.
    eexists. split; [exact (loop_pass_returns _ _ _ _ _ _ _ _ Hlen Hs Hk Hr) |].
    done.
  - eexists. split; [exact (loop_pass_returns _ _ _ _ _ _ _ _ Hlen Hs Hk Hr) |].
    done.
Qed.

End DownloadPasses.

(** ** Download: a line that goes silent inside a packet *)

Section DownloadCuts.
Context {codes : DriverCodes}.



(** The data loop when the packet announces more than the buffer can take:
    it stops when the buffer is full. *)
Lemma readData_fill bs : ∀ n k buf im cv md ak rest tr,
  Forall is_byte bs → (length bs ≤ n)%nat →
  (k + length bs = TEMPLATE_SIZE)%nat → length buf = TEMPLATE_SIZE →
  readData n k buf (mkWorld true im cv md ak (map Some bs ++ rest) tr)
  = Some ((false, TEMPLATE_SIZE, take k buf ++ bs),
          mkWorld true im cv md ak rest (tr ++ map EvPayload bs)).
Proof.
  induction bs as [|b bs IH]; intros n k buf im cv md ak rest tr Hb Hn Hk Hlen;
    cbn [map app length] in *.
  - rewrite Nat.add_0_r in Hk. subst k.
    rewrite !app_nil_r, take_ge by lia.
    destruct n; cbn [readData]; [done |]. by rewrite Nat.ltb_irrefl.
  - destruct n as [|n]; [lia |]. cbn [readData].
    apply Forall_cons in Hb as [Hb Hbs]. unfold is_byte in Hb.
    rewrite (proj2 (Nat.ltb_lt _ _)) by lia.
    rewrite (bind_eq _ _ _ _ _ (_readByte_cons _ _ _ _ _ _ _ _)).
    rewrite (proj2 (Z.ltb_ge b 0)) by lia.
    rewrite Z.mod_small by lia.
    rewrite bind_unfold.
    cbv [note_payload emit w_serial w_images w_convs w_models w_acks w_rx w_trace].
    rewrite IH; [| done | lia | lia | by rewrite length_insert].
    rewrite (take_S_r _ _ b) by (apply list_lookup_insert_eq; lia).
    rewrite take_insert_ge by lia.
    rewrite <- !app_assoc. reflexivity.
Qed.





End DownloadCuts.

(** ** Download: whole transfers *)

Section DownloadTransfers.
Context {codes : DriverCodes}.

Lemma packetLen_bytes lh ll :
  is_byte lh → is_byte ll →
  Z.lor (Z.shiftl lh 8) ll mod 65536 = lh * 256 + ll.
Proof.
  unfold is_byte. intros Hh Hl.
  rewrite lor_shiftl_8 by done. apply Z.mod_small. lia.
Qed.

(** X6.  A data packet that announces at least as many payload bytes as the
    buffer has room for.  At any pass of the packet loop, the data loop stops
    when the buffer is full: the bytes that fit are stored, the next two
    entries of the line are taken as the checksum, and [_readRawTemplate]
    returns [FINGERPRINT_OK].  The announced count is the length field minus
    2 on 16 bits, so a length field of 0 or 1 announces 65534 or 65535
    bytes. *)
Theorem download_stops_at_full_buffer
    buffer w bytesRead buf wk addr ty lh ll bs rest :
  length buffer = TEMPLATE_SIZE →
  LoopState buffer w bytesRead buf wk →
  (bytesRead < TEMPLATE_SIZE)%nat →
  w_serial wk = true →
  length addr = 4%nat → Forall is_byte addr →
  ty = FINGERPRINT_DATAPACKET ∨ ty = FINGERPRINT_ENDDATAPACKET →
  is_byte lh → is_byte ll →
  Forall is_byte bs → (bytesRead + length bs = TEMPLATE_SIZE)%nat →
  Z.of_nat (length bs) ≤ (lh * 256 + ll - 2) mod 65536 →
  w_rx wk = map Some ([0xEF; 0x01] ++ addr ++ [ty; lh; ll]) ++ map Some bs ++ rest →
  ∃ w',
    _readRawTemplate buffer w
    = Some ((FINGERPRINT_OK, take bytesRead buf ++ bs), w')
    ∧ w_rx w' = drop 2 rest.
Proof.
  intros Hlen Hs Hk Hser Haddr Hab Hty Hlh Hll Hbs Hfit Hann Hrx.
  destruct (LoopState_inv _ _ _ _ _ Hs Hlen) as (Hbuf & _ & _).
  assert (Hpos : Forall (λ b, 0 ≤ b) addr)
    by (eapply Forall_impl; [exact Hab |]; unfold is_byte; intros; lia).
  rewrite (world_eta wk) in Hs. rewrite Hser, Hrx in Hs.
  assert (Hr := readPacket_head bytesRead buf (w_images wk) (w_convs wk)
                  (w_models wk) (w_acks wk) (map Some bs ++ rest) (w_trace wk)
                  addr ty lh ll Haddr Hpos
                  (data_types_nonneg _ Hty)
                  ltac:(unfold is_byte in *; lia) ltac:(unfold is_byte in *; lia)).
  cbv zeta in Hr. rewrite packetLen_bytes in Hr by done.
  assert (Hty' : (ty =? FINGERPRINT_DATAPACKET) || (ty =? FINGERPRINT_ENDDATAPACKET) = true).
  { apply orb_true_iff. destruct Hty; [left | right]; by apply Z.eqb_eq. }
  rewrite Hty' in Hr.
  rewrite (bind_eq _ _ _ _ _
             (readData_fill bs (Z.to_nat ((lh * 256 + ll - 2) mod 65536))
                bytesRead buf _ _ _ _ rest _ Hbs
                ltac:(lia) Hfit Hbuf)) in Hr.
  cbv beta iota in Hr.
  rewrite (bind_eq _ _ _ _ _ (_readByte_step _ _ _ _ _ _ _)) in Hr.
  rewrite (bind_eq _ _ _ _ _ (_readByte_step _ _ _ _ _ _ _)) in Hr.
  rewrite drop_drop in Hr.
  eexists. split.
  - rewrite (loop_pass_ends _ _ _ _ _ _ _ _ _ _ Hlen Hs Hk Hr (or_intror eq_refl)).
    rewrite Nat.sub_diag. cbn [replicate]. rewrite app_nil_r.
    rewrite take_ge; [done |]. rewrite length_app, length_take. lia.
  - done.
Qed.

Lemma wire_transfer_length frames final :
  (length frames < length (wire_transfer frames final))%nat.
Proof.
  unfold wire_transfer, wire_frame, frame_bytes.
  rewrite !length_app. cbn [length].
  assert (length frames
          ≤ length (concat (map (wire_frame FINGERPRINT_DATAPACKET) frames)))%nat.
  { induction frames as [|c frames IH]; cbn [length map concat]; [lia |].
    unfold wire_frame at 1, frame_bytes. rewrite !length_app. cbn [length]. lia. }
  unfold wire_frame, frame_bytes in *. lia.
Qed.

Section Transfer.
Hypothesis data_not_end : FINGERPRINT_DATAPACKET ≠ FINGERPRINT_ENDDATAPACKET.

Lemma readPackets_wire frames : ∀ final k buf im cv md ak rest tr fuel,
  Forall wire_frame_ok frames → wire_frame_ok final →
  (k + length (wire_payload frames final) ≤ TEMPLATE_SIZE)%nat →
  length buf = TEMPLATE_SIZE →
  (length frames < fuel)%nat →
  ∃ w',
    readPackets fuel false k buf
      (mkWorld true im cv md ak
         (map Some (wire_transfer frames final) ++ rest) tr)
    = Some ((FINGERPRINT_OK,
             take k buf ++ wire_payload frames final
             ++ replicate (TEMPLATE_SIZE - (k + length (wire_payload frames final))) 0),
            w').
Proof using data_not_end.
  assert (Hnn : ∀ l, Forall is_byte l → Forall (λ b, 0 ≤ b) l).
  { intros l Hl. eapply Forall_impl; [exact Hl |]. unfold is_byte. intros; lia. }
  induction frames as [|c frames IH];
    intros final k buf im cv md ak rest tr fuel Hcs Hf Hk Hbuf Hfuel.
  - destruct fuel as [|fuel]; [cbn in Hfuel; lia |].
    unfold wire_payload, wire_transfer in *. cbn [map concat app length] in *.
    destruct Hf as (Ha & Hab & Hpb).
    destruct (k <? TEMPLATE_SIZE)%nat eqn:Hlt.
    + cbn [readPackets negb andb]. rewrite Hlt.
      apply Nat.ltb_lt in Hlt. unfold wire_frame.
      rewrite (bind_eq _ _ _ _ _
                 (readPacket_frame k buf im cv md ak rest tr (wf_address final)
                    FINGERPRINT_ENDDATAPACKET (wf_payload final) _ Ha (Hnn _ Hab)
                    (data_types_nonneg _ (or_intror eq_refl))
                    (or_intror eq_refl) Hpb
                    ltac:(unfold frame_length, TEMPLATE_SIZE in *; lia)
                    Hk Hbuf)).
      rewrite Z.eqb_refl.
      rewrite readPackets_exit by (first [by apply length_written | lia | auto]).
      rewrite take_written, <- app_assoc by done. eauto.
    + apply Nat.ltb_ge in Hlt. assert (k = TEMPLATE_SIZE) as -> by lia.
      assert (wf_payload final = []) as -> by (apply nil_length_inv; lia).
      rewrite readPackets_exit by (done || auto).
      cbn [length app]. rewrite Nat.add_0_r. eauto.
  - apply Forall_cons in Hcs as [(Ha & Hab & Hpb) Hcs].
    unfold wire_payload in *. cbn [map concat] in *.
    rewrite <- app_assoc in *. rewrite length_app in Hk.
    destruct fuel as [|fuel]; [cbn in Hfuel; lia |]. cbn [length] in Hfuel.
    destruct (k <? TEMPLATE_SIZE)%nat eqn:Hlt.
    + cbn [readPackets negb andb]. rewrite Hlt.
      apply Nat.ltb_lt in Hlt.
      unfold wire_transfer. cbn [map concat]. rewrite <- !app_assoc.
      rewrite map_app, <- app_assoc. unfold wire_frame at 1.
      rewrite (bind_eq _ _ _ _ _
                 (readPacket_frame k buf im cv md ak _ tr (wf_address c)
                    FINGERPRINT_DATAPACKET (wf_payload c) _ Ha (Hnn _ Hab)
                    (data_types_nonneg _ (or_introl eq_refl))
                    (or_introl eq_refl) Hpb
                    ltac:(unfold frame_length, TEMPLATE_SIZE in *; lia)
                    ltac:(lia) Hbuf)).
      rewrite (proj2 (Z.eqb_neq _ _) data_not_end).
      edestruct (IH final (k + length (wf_payload c))%nat
                   (take k buf ++ wf_payload c
                    ++ drop (k + length (wf_payload c)) buf)
                   im cv md ak rest (tr ++ map EvPayload (wf_payload c)) fuel)
        as (w' & Hrun);
        [exact Hcs | exact Hf | unfold wire_payload; lia
        | apply length_written; [done | lia] | lia |].
      unfold wire_transfer in Hrun. rewrite Hrun.
      exists w'. unfold wire_payload.
      replace (k + length (wf_payload c ++ concat (map wf_payload frames) ++ wf_payload final))%nat
        with (k + length (wf_payload c)
              + length (concat (map wf_payload frames) ++ wf_payload final))%nat
        by (rewrite (length_app (wf_payload c)); lia).
      rewrite take_written by (done || lia). by rewrite <- !app_assoc.
    + apply Nat.ltb_ge in Hlt. assert (k = TEMPLATE_SIZE) as -> by lia.
      assert (wf_payload c = []) as -> by (apply nil_length_inv; lia).
      assert (concat (map wf_payload frames) ++ wf_payload final = []) as Hnil
        by (apply nil_length_inv; lia).
      apply app_eq_nil in Hnil as [-> ->].
      rewrite readPackets_exit by (done || auto).
      cbn [length app]. rewrite Nat.add_0_r. eauto.
Qed.

(** X7.  The download looks neither at the address nor at the checksum of a
    packet.  For a transfer of data packets closed by an end packet, each
    with any four address bytes and any value in its checksum field, whose
    payloads fit the buffer, [_readRawTemplate] returns [FINGERPRINT_OK] with
    the payloads in order, followed by zeros. *)
Theorem download_ignores_address_and_checksum
    frames final buffer w ackData acks rest :
  w_serial w = true →
  w_acks w = (FINGERPRINT_OK, ackData) :: acks →
  at_index ackData 0 = FINGERPRINT_OK →
  w_rx w = map Some (wire_transfer frames final) ++ rest →
  Forall wire_frame_ok frames → wire_frame_ok final →
  (length (wire_payload frames final) ≤ TEMPLATE_SIZE)%nat →
  length buffer = TEMPLATE_SIZE →
  ∃ w',
    _readRawTemplate buffer w
    = Some ((FINGERPRINT_OK,
             wire_payload frames final
             ++ replicate (TEMPLATE_SIZE - length (wire_payload frames final)) 0),
            w').
Proof using data_not_end.
  intros Hs Hak Hd Hrx Hcs Hf Hlen Hbuf.
  destruct w as [s im cv md ak rx tr]. cbn in Hs, Hak, Hrx. subst s ak rx.
  unfold _readRawTemplate.
  cbv [mbind M_bind writeStructuredPacket getStructuredPacket emit set_acks
       w_acks w_serial w_images w_convs w_models w_rx w_trace].
  rewrite Z.eqb_refl, Hd, Z.eqb_refl. cbn [negb].
  unfold readAllPackets. cbn [w_rx].
  edestruct (readPackets_wire frames final 0 buffer) as (w' & ->);
    [exact Hcs | exact Hf | rewrite Nat.add_0_l; exact Hlen | exact Hbuf | |].
  - rewrite length_app, length_map.
    pose proof (wire_transfer_length frames final). lia.
  - exists w'. by rewrite take_0, Nat.add_0_l.
Qed.

(** X9.  Upload, then download.  The data frames that
    [uploadTemplateToBuffer] writes for a 512-byte template, sent back on
    the serial line, make [_readRawTemplate] return [FINGERPRINT_OK] with
    that template. *)
Theorem upload_then_download_round_trip td id w data acks :
  length td = TEMPLATE_SIZE → Forall is_byte td →
  w_serial w = true →
  w_acks w = (FINGERPRINT_OK, data) :: acks →
  at_index data 0 = FINGERPRINT_OK →
  ∃ wu evs,
    uploadTemplateToBuffer td id w = Some (FINGERPRINT_OK, wu)
    ∧ w_trace wu = w_trace w ++ evs
    ∧ ∀ buffer wd ackData acks' rest,
        length buffer = TEMPLATE_SIZE →
        w_serial wd = true →
        w_acks wd = (FINGERPRINT_OK, ackData) :: acks' →
        at_index ackData 0 = FINGERPRINT_OK →
        w_rx wd = map Some (concat (drop 1 (serial_frames evs))) ++ rest →
        ∃ wd', _readRawTemplate buffer wd = Some ((FINGERPRINT_OK, td), wd').
Proof using data_not_end.
  intros Hlen Hb Hs Hak Hd.
  eexists _, _. split; [by eapply uploadTemplateToBuffer_ok |].
  split; [unfold uploaded; cbn [emit_all set_acks w_trace]; reflexivity |].
  intros buffer wd ackData acks' rest Hbuf Hsd Hakd Hdd Hrx.
  assert (Hc : ∀ i, Forall is_byte (chunk td i))
    by (intros i; unfold chunk; by apply Forall_take, Forall_drop).
  assert (Hcat : concat [chunk td 0; chunk td 1; chunk td 2] ++ chunk td 3 = td).
  { cbn [concat]. rewrite app_nil_r, <- !app_assoc. by apply chunks_cover. }
  rewrite upload_frames in Hrx by done. cbn [drop concat] in Hrx.
  rewrite app_nil_r in Hrx.
  destruct (_readRawTemplate_transfer data_not_end
              [chunk td 0; chunk td 1; chunk td 2] (chunk td 3)
              buffer wd ackData acks' rest Hsd Hakd Hdd) as (wd' & Hrun).
  - unfold transfer_stream. cbn [map concat]. rewrite app_nil_r.
    rewrite Hrx. by rewrite <- !app_assoc.
  - repeat (apply Forall_cons_2; [apply Hc |]). apply Forall_nil_2.
  - apply Hc.
  - rewrite Hcat. lia.
  - done.
  - exists wd'. rewrite Hrun, Hcat, Hlen, Nat.sub_diag.
    cbn [replicate]. by rewrite app_nil_r.
Qed.

End Transfer.
End DownloadTransfers.

(** ** The bounds of the waits *)

Section PollingBounds.
Context {codes : DriverCodes}.

Lemma getImage_run r rs w :
  w_images w = r :: rs → getImage w = Some (r, polled [r] rs w).
Proof.
  intros H. unfold getImage. rewrite H. by destruct w.
Qed.

Lemma polled_polled rs1 rs2 rest1 rest2 w :
  polled rs2 rest2 (polled rs1 rest1 w) = polled (rs1 ++ rs2) rest2 w.
Proof.
  unfold polled, emit_all, set_images. cbn. by rewrite map_app, app_assoc.
Qed.

(** The wait for a finger, pass by pass. *)
Lemma awaitFingerLoop_run limit rs : ∀ t fuel w rest,
  0 ≤ limit < 255 → 0 ≤ t →
  w_images w = rs ++ rest → Forall (λ r, r ≠ FINGERPRINT_OK) rs →
  (length rs = Z.to_nat (limit + 2 - t) → (length rs ≤ fuel)%nat →
   (0 < length rs)%nat →
     awaitFingerLoop fuel limit t w = Some (false, polled rs rest w))
  ∧ (∀ rest', rest = FINGERPRINT_OK :: rest' →
     (Z.of_nat (length rs) ≤ limit + 1 - t) → (length rs < fuel)%nat →
     awaitFingerLoop fuel limit t w
     = Some (true, polled (rs ++ [FINGERPRINT_OK]) rest' w)).
Proof.
  induction rs as [|r rs IH]; intros t fuel w rest Hlim Ht Him Hno.
  - split; [cbn; lia |].
    intros rest' -> Hn Hfuel. destruct fuel as [|fuel]; [cbn in Hfuel; lia |].
    cbn [awaitFingerLoop app] in *.
    rewrite (bind_eq _ _ _ _ _ (getImage_run _ _ _ Him)).
    by rewrite Z.eqb_refl.
  - apply Forall_cons in Hno as [Hr Hno]. cbn [app length] in *.
    assert (Hpass : ∀ fuel,
              awaitFingerLoop (S fuel) limit t w
              = if limit <? t then Some (false, polled [r] (rs ++ rest) w)
                else awaitFingerLoop fuel limit ((t + 1) mod 256)
                       (polled [r] (rs ++ rest) w)).
    { intros f. cbn [awaitFingerLoop].
      rewrite (bind_eq _ _ _ _ _ (getImage_run _ _ _ Him)).
      rewrite (proj2 (Z.eqb_neq _ _) Hr). cbn [negb].
      by destruct (limit <? t). }
    destruct (IH ((t + 1) mod 256) (Nat.pred fuel) (polled [r] (rs ++ rest) w) rest
                Hlim ltac:(apply Z.mod_pos_bound; lia) eq_refl Hno)
      as [IHa IHb].
    split.
    + intros Hn Hfuel _. destruct fuel as [|fuel]; [lia |]. cbn [Nat.pred] in *.
      rewrite Hpass. destruct (Z.ltb_spec limit t) as [Hlt | Hge].
      * assert (rs = []) as -> by (apply nil_length_inv; lia). done.
      * rewrite IHa, polled_polled; [done | | lia | lia].
        rewrite Z.mod_small by lia. lia.
    + intros rest' -> Hn Hfuel. destruct fuel as [|fuel]; [lia |].
      cbn [Nat.pred] in *. rewrite Hpass.
      rewrite (proj2 (Z.ltb_ge limit t)) by lia.
      rewrite (IHb rest' eq_refl), polled_polled; [done | | lia].
      rewrite Z.mod_small by lia. lia.
Qed.

(** X11.  The bound of the wait for a finger.  With a limit below 255, the
    wait [while (getImage() != FINGERPRINT_OK) { if (timeout++ > limit)
    return ..; }] gives up at the answer number [limit + 2] when none of the
    first [limit + 2] answers is [FINGERPRINT_OK] (202 polls for the limit
    200, 102 for the limit 100), and ends with success at the first
    [FINGERPRINT_OK] among them; it polls no further. *)
Theorem finger_wait_bound limit w rs rest :
  0 ≤ limit < 255 →
  w_images w = rs ++ rest → Forall (λ r, r ≠ FINGERPRINT_OK) rs →
  (length rs = Z.to_nat (limit + 2) →
     awaitFinger limit w = Some (false, polled rs rest w))
  ∧ (∀ rest', rest = FINGERPRINT_OK :: rest' →
     (length rs < Z.to_nat (limit + 2))%nat →
     awaitFinger limit w
     = Some (true, polled (rs ++ [FINGERPRINT_OK]) rest' w)).
Proof.
  intros Hlim Him Hno. unfold awaitFinger.
  destruct (awaitFingerLoop_run limit rs 0 (length (w_images w)) w rest
              Hlim ltac:(lia) Him Hno) as [Ha Hb].
  split.
  - intros Hn. apply Ha; [lia | rewrite Him, length_app; lia | lia].
  - intros rest' -> Hn. apply (Hb rest' eq_refl); [lia |].
    rewrite Him, length_app. cbn [length]. lia.
Qed.

(** The wait for removal, pass by pass. *)
Lemma awaitRemovalLoop_run rs : ∀ fuel w rest,
  w_images w = rs ++ FINGERPRINT_NOFINGER :: rest →
  Forall (λ r, r ≠ FINGERPRINT_NOFINGER) rs →
  (length rs < fuel)%nat →
  awaitRemovalLoop fuel w
  = Some (tt, polled (rs ++ [FINGERPRINT_NOFINGER]) rest w).
Proof.
  induction rs as [|r rs IH]; intros fuel w rest Him Hno Hfuel;
    (destruct fuel as [|fuel]; [cbn in Hfuel; lia |]);
    cbn [awaitRemovalLoop app length] in *;
    rewrite (bind_eq _ _ _ _ _ (getImage_run _ _ _ Him)).
  - by rewrite Z.eqb_refl.
  - apply Forall_cons in Hno as [Hr Hno].
    rewrite (proj2 (Z.eqb_neq _ _) Hr). cbn [negb].
    rewrite (IH fuel (polled [r] (rs ++ FINGERPRINT_NOFINGER :: rest) w) rest
               eq_refl Hno ltac:(lia)).
    by rewrite polled_polled.
Qed.

Lemma awaitRemovalLoop_inv fuel : ∀ w u w',
  awaitRemovalLoop fuel w = Some (u, w') →
  ∃ rs rest,
    w_images w = rs ++ FINGERPRINT_NOFINGER :: rest ∧
    Forall (λ r, r ≠ FINGERPRINT_NOFINGER) rs ∧
    w' = polled (rs ++ [FINGERPRINT_NOFINGER]) rest w.
Proof.
  induction fuel as [|fuel IH]; intros w u w' H; cbn [awaitRemovalLoop] in H;
    [done |].
  apply bind_Some in H as (r & w1 & Hg & H).
  unfold getImage in Hg. destruct (w_images w) as [|r' rs'] eqn:Him; [done |].
  injection Hg as -> <-.
  destruct (Z.eqb_spec r FINGERPRINT_NOFINGER) as [-> | Hr]; cbn [negb] in H.
  - apply mret_Some in H. destruct u. injection H as Hw. subst w'.
    exists [], rs'. split; [done |]. split; [constructor |].
    by destruct w.
  - apply IH in H as (rs & rest & Him' & Hno & ->).
    cbn [emit set_images w_images] in Him'. subst rs'.
    exists (r :: rs), rest. split; [done |]. split; [by constructor |].
    destruct w; unfold polled, emit_all, set_images, emit; cbn.
    by rewrite <- app_assoc.
Qed.

(** X12.  The wait for finger removal has no bound.  [while (getImage() !=
    FINGERPRINT_NOFINGER)] returns exactly at the first answer
    [FINGERPRINT_NOFINGER], having polled up to it and no further; only
    such an answer makes it return. *)
Theorem removal_wait_ends_only_on_no_finger w :
  (∀ rs rest,
     w_images w = rs ++ FINGERPRINT_NOFINGER :: rest →
     Forall (λ r, r ≠ FINGERPRINT_NOFINGER) rs →
     awaitRemoval w
     = Some (tt, polled (rs ++ [FINGERPRINT_NOFINGER]) rest w))
  ∧ (∀ u w', awaitRemoval w = Some (u, w') →
     ∃ rs rest,
       w_images w = rs ++ FINGERPRINT_NOFINGER :: rest ∧
       Forall (λ r, r ≠ FINGERPRINT_NOFINGER) rs ∧
       w' = polled (rs ++ [FINGERPRINT_NOFINGER]) rest w).
Proof.
  split.
  - intros rs rest Him Hno. unfold awaitRemoval.
    apply awaitRemovalLoop_run; [done | done |].
    rewrite Him, length_app. cbn [length]. lia.
  - intros u w'. apply awaitRemovalLoop_inv.
Qed.

End PollingBounds.

(** ** The capture loop of the verification *)

Section CaptureBounds.
Context {codes : DriverCodes}.

Lemma image2Tz_run slot c cs w :
  w_convs w = c :: cs →
  image2Tz slot w = Some (c, emit (EvImage2Tz slot c) (set_convs cs w)).
Proof. intros H. unfold image2Tz. by rewrite H. Qed.

Lemma captureLoop_no_finger rs : ∀ t fuel w rest,
  0 ≤ t →
  w_images w = rs ++ rest → Forall (λ r, r ≠ FINGERPRINT_OK) rs →
  length rs = Z.to_nat (202 - t) → (0 < length rs)%nat →
  (length rs ≤ fuel)%nat →
  captureLoop fuel t w = Some (false, polled rs rest w).
Proof.
  induction rs as [|r rs IH]; intros t fuel w rest Ht Him Hno Hn Hpos Hfuel;
    [cbn in Hpos; lia |].
  apply Forall_cons in Hno as [Hr Hno]. cbn [app length] in *.
  destruct fuel as [|fuel]; [lia |]. cbn [captureLoop].
  rewrite (bind_eq _ _ _ _ _ (getImage_run _ _ _ Him)).
  rewrite (proj2 (Z.eqb_neq _ _) Hr).
  destruct (Z.ltb_spec 200 t) as [Hlt | Hge].
  - assert (rs = []) as -> by (apply nil_length_inv; lia). done.
  - rewrite (IH ((t + 1) mod 256) fuel (polled [r] (rs ++ rest) w) rest);
      [by rewrite polled_polled | apply Z.mod_pos_bound; lia | done | done
      | rewrite Z.mod_small by lia; lia | lia | lia].
Qed.

Lemma captured_cons c cs rest crest w :
  captured cs rest crest
    (emit (EvImage2Tz 1 c)
       (set_convs (cs ++ crest)
          (polled [FINGERPRINT_OK] (replicate (length cs) FINGERPRINT_OK ++ rest) w)))
  = captured (c :: cs) rest crest w.
Proof.
  unfold captured, polled, emit_all, emit, set_convs, set_images, capture_events.
  cbn. by rewrite <- !app_assoc.
Qed.

Lemma captureLoop_try_again cs : ∀ t fuel w rest crest,
  0 ≤ t ≤ 201 →
  w_images w = replicate (length cs) FINGERPRINT_OK ++ rest →
  w_convs w = cs ++ crest → Forall try_again cs →
  202 - t ≤ 2 * Z.of_nat (length cs) ≤ 203 - t →
  (length cs ≤ fuel)%nat →
  captureLoop fuel t w = Some (false, captured cs rest crest w).
Proof.
  induction cs as [|c cs IH]; intros t fuel w rest crest Ht Him Hcv Hcs Hn Hfuel;
    [cbn in Hn; lia |].
  apply Forall_cons in Hcs as [(Hc & Hmess) Hcs]. cbn [app length replicate] in *.
  destruct fuel as [|fuel]; [lia |]. cbn [captureLoop].
  rewrite (bind_eq _ _ _ _ _ (getImage_run _ _ _ Him)).
  rewrite Z.eqb_refl.
  rewrite (bind_eq _ _ _ _ _
             (image2Tz_run 1 c (cs ++ crest)
                (polled [FINGERPRINT_OK]
                        (replicate (length cs) FINGERPRINT_OK ++ rest) w) Hcv)).
  rewrite (proj2 (Z.eqb_neq _ _) Hc).
  assert (Hnext :
    (if c =? FINGERPRINT_IMAGEMESS
     then if 200 <? (t + 1) mod 256 then mret false
          else captureLoop fuel (((t + 1) mod 256 + 1) mod 256)
     else if c =? FINGERPRINT_FEATUREFAIL
          then if 200 <? (t + 1) mod 256 then mret false
               else captureLoop fuel (((t + 1) mod 256 + 1) mod 256)
          else mret true)
    = (if 200 <? (t + 1) mod 256 then mret false
       else captureLoop fuel (((t + 1) mod 256 + 1) mod 256))).
  { destruct (Z.eqb_spec c FINGERPRINT_IMAGEMESS); [done |].
    destruct (Z.eqb_spec c FINGERPRINT_FEATUREFAIL); [done |].
    by destruct Hmess. }
  rewrite Hnext. clear Hnext.
  rewrite (Z.mod_small (t + 1)) by lia.
  destruct (Z.ltb_spec 200 (t + 1)) as [Hlt | Hge].
  - assert (cs = []) as -> by (apply nil_length_inv; lia).
    cbn [app length replicate]. unfold mret, M_ret. do 2 f_equal.
    unfold captured, polled, emit_all, emit, set_convs, set_images,
      capture_events. cbn. by rewrite <- !app_assoc.
  - rewrite (IH ((t + 1 + 1) mod 256) fuel _ rest crest);
      [apply f_equal, f_equal, captured_cons | rewrite Z.mod_small by lia; lia
      | done | done | done | rewrite Z.mod_small by lia; lia | lia].
Qed.

(** X13.  The bound of the capture loop of [matchWithTemplate].  When the
    sensor sees no finger, [matchWithTemplate] returns 1 after exactly 202
    polls.  When every image is captured and found messy or without
    features, each pass counts twice and it returns 1 after exactly 101
    captures and conversions.  In both cases [*score] is untouched and
    nothing is written to the sensor. *)
Theorem match_capture_bounds tpl sc w :
  (∀ rs rest,
     w_images w = rs ++ rest → Forall (λ r, r ≠ FINGERPRINT_OK) rs →
     length rs = 202%nat →
     matchWithTemplate tpl sc w = Some ((1, sc), polled rs rest w))
  ∧ (∀ cs rest crest,
     w_images w = replicate 101 FINGERPRINT_OK ++ rest →
     w_convs w = cs ++ crest → Forall try_again cs → length cs = 101%nat →
     matchWithTemplate tpl sc w = Some ((1, sc), captured cs rest crest w)).
Proof.
  split.
  - intros rs rest Him Hno Hn.
    assert (Hcap : captureGoodImage w = Some (false, polled rs rest w)).
    { unfold captureGoodImage.
      apply captureLoop_no_finger; try done; try lia.
      rewrite Him, length_app. lia. }
    unfold matchWithTemplate. by rewrite (bind_eq _ _ _ _ _ Hcap).
  - intros cs rest crest Him Hcv Hcs Hn.
    assert (Hcap : captureGoodImage w = Some (false, captured cs rest crest w)).
    { unfold captureGoodImage.
      apply captureLoop_try_again; try done; try lia.
      - by rewrite Hn.
      - rewrite Him, length_app, length_replicate. lia. }
    unfold matchWithTemplate. by rewrite (bind_eq _ _ _ _ _ Hcap).
Qed.

(** X14.  What the capture loop takes for a good image.  After polls without a
    finger (fewer than 202), the first image the sensor captures ends the
    loop with success when its conversion answers [FINGERPRINT_OK], and
    also when it answers any code other than [FINGERPRINT_IMAGEMESS] and
    [FINGERPRINT_FEATUREFAIL]: such a conversion error is not told from a
    success. *)
Theorem capture_accepts_other_conversion_codes w rs rest c crest :
  w_images w = rs ++ FINGERPRINT_OK :: rest →
  Forall (λ r, r ≠ FINGERPRINT_OK) rs → (length rs < 202)%nat →
  w_convs w = c :: crest →
  c = FINGERPRINT_OK
  ∨ (c ≠ FINGERPRINT_IMAGEMESS ∧ c ≠ FINGERPRINT_FEATUREFAIL) →
  captureGoodImage w
  = Some (true,
          emit (EvImage2Tz 1 c)
            (set_convs crest (polled (rs ++ [FINGERPRINT_OK]) rest w))).
Proof.
  intros Him Hno Hn Hcv Hc. unfold captureGoodImage.
  assert (Hgen : ∀ rs t fuel w,
            0 ≤ t → Z.of_nat (length rs) ≤ 201 - t →
            w_images w = rs ++ FINGERPRINT_OK :: rest →
            Forall (λ r, r ≠ FINGERPRINT_OK) rs →
            w_convs w = c :: crest → (length rs < fuel)%nat →
            captureLoop fuel t w
            = Some (true,
                    emit (EvImage2Tz 1 c)
                      (set_convs crest (polled (rs ++ [FINGERPRINT_OK]) rest w)))).
  { clear dependent w. clear rs Hno Hn.
    induction rs as [|r rs IH]; intros t fuel w Ht Hn Him Hno Hcv Hfuel;
      (destruct fuel as [|fuel]; [cbn in Hfuel; lia |]);
      cbn [captureLoop app length] in *;
      rewrite (bind_eq _ _ _ _ _ (getImage_run _ _ _ Him)).
    - rewrite Z.eqb_refl.
      rewrite (bind_eq _ _ _ _ _
                 (image2Tz_run 1 c crest (polled [FINGERPRINT_OK] rest w) Hcv)).
      destruct Hc as [-> | [Hm Hf]]; [by rewrite Z.eqb_refl |].
      rewrite (proj2 (Z.eqb_neq _ _) Hm), (proj2 (Z.eqb_neq _ _) Hf).
      by destruct (c =? FINGERPRINT_OK).
    - apply Forall_cons in Hno as [Hr Hno].
      rewrite (proj2 (Z.eqb_neq _ _) Hr).
      rewrite (proj2 (Z.ltb_ge 200 t)) by lia.
      rewrite (IH ((t + 1) mod 256) fuel (polled [r] (rs ++ FINGERPRINT_OK :: rest) w));
        [by rewrite polled_polled | apply Z.mod_pos_bound; lia
        | rewrite Z.mod_small by lia; lia | done | done | done | lia]. }
  apply Hgen; try done; try lia.
  rewrite Him, length_app. cbn [length]. lia.
Qed.

End CaptureBounds.

(** ** Upload: a command that is not acknowledged *)

Section UploadRefused.
Context {codes : DriverCodes}.


End UploadRefused.

(** ** The serial stream *)

Section SerialNotSet.
Context {codes : DriverCodes}.

(** X1.  An object whose serial stream was never set.  After the constructor
    alone, [_readByte] answers -1 at once and takes nothing from the line,
    [uploadTemplateToBuffer] returns [FINGERPRINT_PACKETRECIEVEERR] without
    writing a byte or reading the acknowledgment, and [_readRawTemplate],
    once its command is acknowledged, returns [FINGERPRINT_TIMEOUT] with
    the buffer untouched.  After [setSerial] with a stream, [_readByte]
    delivers the next byte of the line. *)
Theorem serial_not_set w :
  (∀ t, _readByte t (FingerPrint w) = Some (-1, FingerPrint w))
  ∧ (∀ td id,
       uploadTemplateToBuffer td id (FingerPrint w)
       = Some (FINGERPRINT_PACKETRECIEVEERR, FingerPrint w))
  ∧ (∀ buffer ackData acks,
       w_acks w = (FINGERPRINT_OK, ackData) :: acks →
       at_index ackData 0 = FINGERPRINT_OK →
       ∃ w', _readRawTemplate buffer (FingerPrint w)
             = Some ((FINGERPRINT_TIMEOUT, buffer), w')
             ∧ w_rx w' = w_rx w)
  ∧ (∀ t b rest,
       w_rx w = Some b :: rest →
       ∃ w1, setSerial true (FingerPrint w) = Some (tt, w1)
             ∧ _readByte t w1 = Some (b, set_rx rest w1)).
Proof.
  split; [| split; [| split]].
  - reflexivity.
  - reflexivity.
  - intros buffer ackData acks Hak Hd. destruct w as [s im cv md ak rx tr].
    cbn in Hak. subst ak. unfold _readRawTemplate, FingerPrint, set_serial.
    cbv [mbind M_bind writeStructuredPacket getStructuredPacket emit set_acks
         w_acks w_serial w_images w_convs w_models w_rx w_trace].
    rewrite Z.eqb_refl, Hd, Z.eqb_refl. cbn [negb].
    unfold readAllPackets. cbn [readPackets negb andb w_rx].
    change (0 <? TEMPLATE_SIZE)%nat with true. cbv iota.
    eexists. split; reflexivity.
  - intros t b rest Hrx. eexists. split; [reflexivity |].
    unfold _readByte, FingerPrint, set_serial. cbn. by rewrite Hrx.
Qed.

End SerialNotSet.

(** ** Verification: results *)












Section MatchOutcomes.
Context {codes : DriverCodes}.














(** X16.  How often [matchWithTemplate] asks the sensor to compare.  A run
    issues the match command at most twice.  It issues none when it returns
    1 or 3 (no image captured, template not uploaded) and exactly one when it
    returns 5 (no answer to the first command). *)
Theorem match_command_count tpl sc w r sc' w' :
  matchWithTemplate tpl sc w = Some ((r, sc'), w') →
  let sent := (match_commands (w_trace w') - match_commands (w_trace w))%nat in
  (match_commands (w_trace w) ≤ match_commands (w_trace w'))%nat
  ∧ (sent ≤ 2)%nat
  ∧ (r = 1 ∨ r = 3 → sent = 0%nat)
  ∧ (r = 5 → sent = 1%nat)
  ∧ (r = 0 ∨ r = 4 → (1 ≤ sent)%nat).
Proof.
  intros H. unfold matchWithTemplate in H. run_inv H; simplify_eq.
  all: repeat match goal with
       | Hr : captureGoodImage _ = Some _ |- _ => apply quiet_captureGoodImage in Hr
       | Hr : uploadTemplateToBuffer _ _ _ = Some _ |- _ =>
           apply quiet_uploadTemplateToBuffer in Hr
       | Hr : writeStructuredPacket _ _ _ = Some _ |- _ =>
           apply writeStructuredPacket_match in Hr
       | Hr : getStructuredPacket _ = Some _ |- _ =>
           apply quiet_getStructuredPacket in Hr
       | Hr : awaitRemoval _ = Some _ |- _ => apply quiet_awaitRemoval in Hr
       | Hr : awaitFinger _ _ = Some _ |- _ => apply quiet_awaitFinger in Hr
       | Hr : image2Tz _ _ = Some _ |- _ => apply quiet_image2Tz in Hr
       end.
  all: cbv zeta; repeat split; intros; lia.
Qed.

End MatchOutcomes.

(** ** Runs that only call the sensor *)

Section SensorOnly.
Context {codes : DriverCodes}.

Lemma sensor_only_refl w : sensor_only w w.
Proof.
  repeat split. exists []. by rewrite app_nil_r.
Qed.

Lemma sensor_only_trans w1 w2 w3 :
  sensor_only w1 w2 → sensor_only w2 w3 → sensor_only w1 w3.
Proof.
  intros (Hs1 & Ha1 & Hr1 & evs1 & Ht1 & Hf1) (Hs2 & Ha2 & Hr2 & evs2 & Ht2 & Hf2).
  repeat split; try congruence.
  exists (evs1 ++ evs2). rewrite Ht2, Ht1, app_assoc.
  split; [done | by apply Forall_app].
Qed.

Lemma sensor_only_stored w w' : sensor_only w w' → stored_between w w' [].
Proof.
  intros (_ & _ & _ & evs & Htr & Hf). unfold stored_between.
  rewrite Htr, payload_of_app. f_equal. clear Htr.
  induction Hf as [|e evs He _ IH]; [done |].
  destruct e; cbn in *; first [assumption | contradiction].
Qed.

Lemma stored_between_trans w1 w2 w3 bs1 bs2 :
  stored_between w1 w2 bs1 → stored_between w2 w3 bs2 →
  stored_between w1 w3 (bs1 ++ bs2).
Proof. unfold stored_between. intros H1 H2. by rewrite H2, H1, app_assoc. Qed.

Lemma sensor_only_polled rs rest w : sensor_only w (polled rs rest w).
Proof.
  repeat split. exists (map EvGetImage rs). split; [done |].
  induction rs as [|r rs IH]; by constructor.
Qed.

Lemma getImage_sensor_only w r w' :
  getImage w = Some (r, w') → sensor_only w w'.
Proof.
  unfold getImage. destruct (w_images w); [done |]. intros [= <- <-].
  repeat split. eexists [_]. split; [done |]. by repeat constructor.
Qed.

Lemma image2Tz_sensor_only slot w r w' :
  image2Tz slot w = Some (r, w') → sensor_only w w'.
Proof.
  unfold image2Tz. destruct (w_convs w); [done |]. intros [= <- <-].
  repeat split. eexists [_]. split; [done |]. by repeat constructor.
Qed.

Lemma createModel_sensor_only w r w' :
  createModel w = Some (r, w') → sensor_only w w'.
Proof.
  unfold createModel. destruct (w_models w); [done |]. intros [= <- <-].
  repeat split. eexists [_]. split; [done |]. by repeat constructor.
Qed.

Lemma awaitFingerLoop_sensor_only fuel : ∀ limit t w b w',
  awaitFingerLoop fuel limit t w = Some (b, w') → sensor_only w w'.
Proof.
  induction fuel as [|fuel IH]; intros limit t w b w' H;
    cbn [awaitFingerLoop] in H; [done |].
  run_inv H; simplify_eq.
  - by eapply getImage_sensor_only.
  - eapply sensor_only_trans; [by eapply getImage_sensor_only | by eapply IH].
  - by eapply getImage_sensor_only.
Qed.

Lemma awaitFinger_sensor_only limit w b w' :
  awaitFinger limit w = Some (b, w') → sensor_only w w'.
Proof. apply awaitFingerLoop_sensor_only. Qed.

Lemma awaitRemoval_sensor_only w u w' :
  awaitRemoval w = Some (u, w') → sensor_only w w'.
Proof.
  intros H. apply awaitRemovalLoop_inv in H as (rs & rest & _ & _ & ->).
  apply sensor_only_polled.
Qed.

End SensorOnly.

(** ** Enrollment: outcomes *)

(** Turning the sensor calls of a run into [sensor_only] steps, and chaining
    them. *)
Ltac to_sensor_only :=
  repeat match goal with
  | H : awaitFinger _ _ = Some _ |- _ => apply awaitFinger_sensor_only in H
  | H : image2Tz _ _ = Some _ |- _ => apply image2Tz_sensor_only in H
  | H : createModel _ = Some _ |- _ => apply createModel_sensor_only in H
  | H : awaitRemoval _ = Some _ |- _ => apply awaitRemoval_sensor_only in H
  end.

Ltac chain_sensor_only :=
  repeat first
    [ assumption | apply sensor_only_refl
    | eapply sensor_only_trans; [eassumption |] ].

Section EnrollmentOutcomes.
Context {codes : DriverCodes}.
Hypothesis ok_not_timeout : FINGERPRINT_OK ≠ FINGERPRINT_TIMEOUT.
Hypothesis ok_not_error : FINGERPRINT_OK ≠ FINGERPRINT_PACKETRECIEVEERR.

(** A download that succeeds, in terms of the bytes stored during it. *)
Lemma download_ok_stored buffer w out w' :
  length buffer = TEMPLATE_SIZE →
  _readRawTemplate buffer w = Some ((FINGERPRINT_OK, out), w') →
  ∃ bs, stored_between w w' bs ∧ (length bs ≤ TEMPLATE_SIZE)%nat ∧
        out = bs ++ replicate (TEMPLATE_SIZE - length bs) 0.
Proof using ok_not_timeout ok_not_error.
  intros Hlen H. unfold _readRawTemplate in H. run_inv H.
  - simplify_eq. apply negb_true_iff, Z.eqb_neq in Hc. congruence.
  - simplify_eq. apply negb_true_iff, Z.eqb_neq in Hc0. congruence.
  - unfold writeStructuredPacket in Hrun. simplify_eq.
    apply getStructuredPacket_inv in Hrun0 as (acks & _ & ->).
    unfold readAllPackets in H.
    apply (readPackets_inv ok_not_timeout ok_not_error) in H
      as (bs & Htr & Hb & ->); [| done | lia].
    exists bs. unfold stored_between. rewrite Htr. cbn [emit set_acks w_trace].
    rewrite !payload_of_app, payload_of_map. cbn [payload_of].
    rewrite !app_nil_r, take_0. cbn [app]. by rewrite Nat.add_0_l in *.
Qed.

(** X17.  The outcomes of [enrollAndGetTemplate].  The result is one of 0 to
    4.  With 1, 2 or 3 (no finger, conversion failed, model not created) the
    output buffer is untouched and only [getImage], [image2Tz] and
    [createModel] were called: no packet was exchanged.  With 0 the run ends
    on a poll that found no finger, and the output is the payload bytes
    stored by the download, in order, followed by zeros up to 512 bytes. *)
Theorem enroll_outcomes out w r out' w' :
  length out = TEMPLATE_SIZE →
  enrollAndGetTemplate out w = Some ((r, out'), w') →
  (r = 0 ∨ r = 1 ∨ r = 2 ∨ r = 3 ∨ r = 4)
  ∧ (r = 1 ∨ r = 2 ∨ r = 3 → out' = out ∧ sensor_only w w')
  ∧ (r = 0 →
     ends_with_removal w' ∧
     ∃ bs, stored_between w w' bs ∧ (length bs ≤ TEMPLATE_SIZE)%nat ∧
           out' = bs ++ replicate (TEMPLATE_SIZE - length bs) 0).
Proof using ok_not_timeout ok_not_error.
  intros Hlen H. unfold enrollAndGetTemplate in H. run_inv H; simplify_eq.
  all: split; [auto 6 |].
  all: split; [intros [|[|]]; try done; (split; [done |]);
               to_sensor_only; chain_sensor_only |].
  all: intros Hr; try done.
  split; [by eapply awaitRemoval_ends |].
  repeat match goal with
    | Hc : negb _ = false |- _ => apply negb_false_iff in Hc
    | Hc : (_ =? _) = true |- _ => apply Z.eqb_eq in Hc
    end.
  subst. to_sensor_only.
  match goal with
  | Hd : _readRawTemplate _ ?wa = Some (_, ?wb), Hpost : sensor_only ?wb _
    |- _ =>
      apply (download_ok_stored _ _ _ _ Hlen) in Hd as (bs & Hst & Hb & ->);
      assert (Hpre : sensor_only w wa) by chain_sensor_only;
      apply sensor_only_stored in Hpre, Hpost;
      pose proof (stored_between_trans _ _ _ _ _ Hpre Hst) as H1;
      pose proof (stored_between_trans _ _ _ _ _ H1 Hpost) as H2
  end.
  exists bs. split; [| done]. by rewrite app_nil_r in H2.
Qed.

End EnrollmentOutcomes.

(** Replaying a run whose steps are known. *)
Ltac replay :=
  repeat (first
    [ match goal with
      | H : ?m ?w = Some (?x, ?w1) |- context [(?m ≫= _) ?w] =>
          rewrite (bind_eq _ _ _ _ _ H)
      end
    | match goal with
      | H : ?c = _ |- context [if ?c then _ else _] => rewrite H
      end ];
    cbv beta iota).

(** ** The buffer content before a download *)

Section BufferIndependence.
Context {codes : DriverCodes}.

Lemma readData_indep n : ∀ k b1 b2 w t k' o1 w',
  readData n k b1 w = Some ((t, k', o1), w') →
  ∃ o2, readData n k b2 w = Some ((t, k', o2), w').
Proof.
  induction n as [|n IH]; intros k b1 b2 w t k' o1 w' H; cbn [readData] in *.
  - apply mret_Some in H. simplify_eq. by eexists.
  - run_inv H; simplify_eq.
    + replay. by eexists.
    + eapply IH in H as (o2 & H). replay. rewrite H. by eexists.
    + by eexists.
Qed.

Lemma readPacket_indep k b1 b2 w r1 w' :
  readPacket k b1 w = Some (r1, w') →
  ∃ r2, readPacket k b2 w = Some (r2, w') ∧ same_pass r1 r2.
Proof.
  intros H. unfold readPacket in *. run_inv H; simplify_eq.
  all: try match goal with
       | Hd : readData _ _ _ _ = Some _ |- _ =>
           apply (readData_indep _ _ _ b2) in Hd as (o2 & Hd)
       end.
  all: replay; eexists; split; [reflexivity | done].
Qed.

Lemma readPackets_indep fuel : ∀ e k b1 b2 w st o1 w',
  readPackets fuel e k b1 w = Some ((st, o1), w') →
  ∃ o2, readPackets fuel e k b2 w = Some ((st, o2), w').
Proof.
  induction fuel as [|fuel IH]; intros e k b1 b2 w st o1 w' H;
    cbn [readPackets] in *.
  - destruct (negb e && (k <? TEMPLATE_SIZE)%nat); [done |].
    apply mret_Some in H. simplify_eq. by eexists.
  - destruct (negb e && (k <? TEMPLATE_SIZE)%nat).
    + run_inv H.
      apply (readPacket_indep _ _ b2) in Hrun as (r2 & Hrun & Hsame).
      rewrite (bind_eq _ _ _ _ _ Hrun).
      destruct x as [st1 o | ty1 len1 k1 o], r2 as [st2 o' | ty2 len2 k2 o'];
        cbn in Hsame; try done.
      * apply mret_Some in H. simplify_eq. by eexists.
      * destruct Hsame as (-> & -> & ->). by eapply IH.
    + apply mret_Some in H. simplify_eq. by eexists.
Qed.

Lemma _readRawTemplate_indep b1 b2 w st o1 w' :
  _readRawTemplate b1 w = Some ((st, o1), w') →
  ∃ o2, _readRawTemplate b2 w = Some ((st, o2), w').
Proof.
  intros H. unfold _readRawTemplate in *. run_inv H; simplify_eq.
  - replay. by eexists.
  - replay. by eexists.
  - replay. unfold readAllPackets in *. by eapply readPackets_indep.
Qed.

End BufferIndependence.

(** ** Capture and hash *)

Section CaptureAndHash.
Context {codes : DriverCodes}.
Variable mbedtls_sha256 : list Z → list Z.
Hypothesis ok_not_timeout : FINGERPRINT_OK ≠ FINGERPRINT_TIMEOUT.
Hypothesis ok_not_error : FINGERPRINT_OK ≠ FINGERPRINT_PACKETRECIEVEERR.

Lemma _getTemplateBytes_outcomes buf w r out w' :
  length buf = TEMPLATE_SIZE →
  _getTemplateBytes buf w = Some ((r, out), w') →
  (r = 1 ∧ sensor_only w w')
  ∨ (r = 2 ∧ sensor_only w w' ∧ ends_with_removal w')
  ∨ (r = 3 ∧ ends_with_removal w')
  ∨ (r = 0 ∧ ends_with_removal w' ∧
     ∃ bs, stored_between w w' bs ∧ (length bs ≤ TEMPLATE_SIZE)%nat ∧
           out = bs ++ replicate (TEMPLATE_SIZE - length bs) 0).
Proof using ok_not_timeout ok_not_error.
  intros Hlen H. unfold _getTemplateBytes in H. run_inv H; simplify_eq.
  - left. split; [done |]. to_sensor_only. chain_sensor_only.
  - right; left. split; [done |].
    split; [| by eapply awaitRemoval_ends]. to_sensor_only. chain_sensor_only.
  - right; right; left. split; [done |]. by eapply awaitRemoval_ends.
  - right; right; right. split; [done |].
    split; [by eapply awaitRemoval_ends |].
    repeat match goal with
      | Hc : negb _ = false |- _ => apply negb_false_iff in Hc
      | Hc : (_ =? _) = true |- _ => apply Z.eqb_eq in Hc
      end.
    subst. to_sensor_only.
    match goal with
    | Hd : _readRawTemplate _ ?wa = Some (_, ?wb), Hpost : sensor_only ?wb _
      |- _ =>
        apply (download_ok_stored ok_not_timeout ok_not_error _ _ _ _ Hlen) in Hd
          as (bs & Hst & Hb & ->);
        assert (Hpre : sensor_only w wa) by chain_sensor_only;
        apply sensor_only_stored in Hpre, Hpost;
        pose proof (stored_between_trans _ _ _ _ _ Hpre Hst) as H1;
        pose proof (stored_between_trans _ _ _ _ _ H1 Hpost) as H2
    end.
    exists bs. split; [by rewrite app_nil_r in H2 | done].
Qed.

(** X19.  The outcomes of [readAndHashFingerprint] (through
    [_getTemplateBytes]).  The result is one of 0, 1, 2, 3.  With a result
    other than 0 the hash output is untouched.  With 1 or 2 (no finger,
    conversion failed) only [getImage] and [image2Tz] were called.  Every
    result but 1 is returned after a poll that found no finger.  With 0 the
    hash output is the digest of the 512 bytes made of the payload bytes
    stored by the download, in order, followed by zeros. *)
Theorem capture_and_hash_outcomes buf h w r h' w' :
  length buf = TEMPLATE_SIZE →
  readAndHashFingerprint mbedtls_sha256 buf h w = Some ((r, h'), w') →
  (r = 0 ∨ r = 1 ∨ r = 2 ∨ r = 3)
  ∧ (r ≠ 0 → h' = h)
  ∧ (r = 1 ∨ r = 2 → sensor_only w w')
  ∧ (r ≠ 1 → ends_with_removal w')
  ∧ (r = 0 →
     ∃ bs, stored_between w w' bs ∧ (length bs ≤ TEMPLATE_SIZE)%nat ∧
           h' = mbedtls_sha256 (bs ++ replicate (TEMPLATE_SIZE - length bs) 0)).
Proof using ok_not_timeout ok_not_error.
  intros Hlen H. unfold readAndHashFingerprint in H.
  apply bind_Some in H as ([r0 out] & w1 & Hg & H). cbv beta iota in H.
  apply (_getTemplateBytes_outcomes _ _ _ _ _ Hlen) in Hg
    as [(-> & Hs) | [(-> & Hs & He) | [(-> & He) | (-> & He & bs & Hst & Hb & ->)]]];
    cbn [negb Z.eqb] in H; apply mret_Some in H; simplify_eq.
  all: (split; [auto 6 |]); (split; [done |]);
       (split; [intros; first [assumption | lia] |]);
       (split; [intros; first [assumption | lia] |]); intros; try lia.
  exists bs. split; [done |]. split; [done |].
  unfold computeDigest. f_equal. apply take_ge.
  rewrite length_app, length_replicate. lia.
Qed.

Lemma _getTemplateBytes_indep b1 b2 w r o1 w' :
  length b1 = TEMPLATE_SIZE → length b2 = TEMPLATE_SIZE →
  _getTemplateBytes b1 w = Some ((r, o1), w') →
  ∃ o2, _getTemplateBytes b2 w = Some ((r, o2), w') ∧ (r = 0 → o1 = o2).
Proof using ok_not_timeout ok_not_error.
  intros Hl1 Hl2 H. unfold _getTemplateBytes in *. run_inv H; simplify_eq.
  all: try match goal with
       | Hd : _readRawTemplate _ _ = Some _ |- _ =>
           pose proof Hd as Hd1;
           apply (_readRawTemplate_indep _ b2) in Hd as (o2 & Hd);
           rename Hd into Hd2
       end.
  all: replay; eexists; (split; [reflexivity |]); try done.
  intros _.
  repeat match goal with
    | Hc : negb _ = false |- _ => apply negb_false_iff in Hc
    | Hc : (_ =? _) = true |- _ => apply Z.eqb_eq in Hc
    end.
  subst.
  apply (download_ok_stored ok_not_timeout ok_not_error _ _ _ _ Hl1) in Hd1
    as (bs1 & Hst1 & _ & ->).
  apply (download_ok_stored ok_not_timeout ok_not_error _ _ _ _ Hl2) in Hd2
    as (bs2 & Hst2 & _ & ->).
  unfold stored_between in *. rewrite Hst1 in Hst2.
  apply app_inv_head in Hst2. by subst.
Qed.

Lemma capture_and_hash_replay buf1 buf2 h w res :
  length buf1 = TEMPLATE_SIZE → length buf2 = TEMPLATE_SIZE →
  readAndHashFingerprint mbedtls_sha256 buf1 h w = Some res →
  readAndHashFingerprint mbedtls_sha256 buf2 h w = Some res.
Proof using ok_not_timeout ok_not_error.
  intros Hl1 Hl2 H. unfold readAndHashFingerprint in *.
  apply bind_Some in H as ([r o1] & w1 & Hg & H). cbv beta iota in H.
  apply (_getTemplateBytes_indep _ buf2) in Hg as (o2 & Hg & Ho); [| done | done].
  rewrite (bind_eq _ _ _ _ _ Hg). cbv beta iota.
  destruct (negb (r =? 0)) eqn:Hr; [done |].
  apply negb_false_iff, Z.eqb_eq in Hr. by rewrite <- Ho.
Qed.

(** X20.  The digest does not depend on what the template buffer held.
    [readAndHashFingerprint] declares its 512-byte buffer without
    initialising it; whatever two contents it may have, the run, the result
    and the hash output are the same. *)
Theorem hash_independent_of_buffer_content buf1 buf2 h w :
  length buf1 = TEMPLATE_SIZE → length buf2 = TEMPLATE_SIZE →
  readAndHashFingerprint mbedtls_sha256 buf1 h w
  = readAndHashFingerprint mbedtls_sha256 buf2 h w.
Proof using ok_not_timeout ok_not_error.
  intros Hl1 Hl2.
  destruct (readAndHashFingerprint mbedtls_sha256 buf1 h w) as [res1|] eqn:H1.
  - symmetry. by apply (capture_and_hash_replay buf1 buf2).
  - destruct (readAndHashFingerprint mbedtls_sha256 buf2 h w) as [res2|] eqn:H2;
      [| done].
    apply (capture_and_hash_replay buf2 buf1) in H2; [| done | done].
    congruence.
Qed.

End CaptureAndHash.

(** ** Enrollment: the sequence of calls *)

Section EnrollmentSequence.
Context {codes : DriverCodes}.

Lemma awaitFingerLoop_inv fuel : ∀ limit t w b w',
  awaitFingerLoop fuel limit t w = Some (b, w') →
  ∃ rs rest, w_images w = rs ++ rest ∧ w' = polled rs rest w ∧
             (b = true → ∃ rs', rs = rs' ++ [FINGERPRINT_OK]).
Proof.
  induction fuel as [|fuel IH]; intros limit t w b w' H;
    cbn [awaitFingerLoop] in H; [done |].
  apply bind_Some in H as (r & w1 & Hg & H).
  unfold getImage in Hg. destruct (w_images w) as [|r' rs'] eqn:Him; [done |].
  injection Hg as -> <-.
  assert (Hw : emit (EvGetImage r) (set_images rs' w) = polled [r] rs' w)
    by (by destruct w).
  rewrite Hw in H.
  destruct (Z.eqb_spec r FINGERPRINT_OK) as [-> | Hr]; cbn [negb] in H.
  - apply mret_Some in H. simplify_eq.
    exists [FINGERPRINT_OK], rs'. split; [done |]. split; [done |].
    intros _. by exists [].
  - destruct (limit <? t).
    + apply mret_Some in H. simplify_eq.
      exists [r], rs'. by repeat split.
    + apply IH in H as (rs & rest & Him' & -> & Hb).
      cbn in Him'. subst rs'.
      exists (r :: rs), rest. split; [done |].
      split; [by rewrite polled_polled |].
      intros Hbt. destruct (Hb Hbt) as (rs'' & ->). by exists (r :: rs'').
Qed.

Lemma awaitFinger_inv limit w b w' :
  awaitFinger limit w = Some (b, w') →
  ∃ rs rest, w_images w = rs ++ rest ∧ w' = polled rs rest w ∧
             (b = true → ∃ rs', rs = rs' ++ [FINGERPRINT_OK]).
Proof. apply awaitFingerLoop_inv. Qed.

Lemma image2Tz_inv slot w r w' :
  image2Tz slot w = Some (r, w') →
  w_trace w' = w_trace w ++ [EvImage2Tz slot r].
Proof.
  unfold image2Tz. destruct (w_convs w); [done |]. by intros [= <- <-].
Qed.

Lemma createModel_inv w r w' :
  createModel w = Some (r, w') →
  w_trace w' = w_trace w ++ [EvCreateModel r].
Proof.
  unfold createModel. destruct (w_models w); [done |]. by intros [= <- <-].
Qed.

Section Sequence.
Hypothesis ok_not_timeout : FINGERPRINT_OK ≠ FINGERPRINT_TIMEOUT.
Hypothesis ok_not_error : FINGERPRINT_OK ≠ FINGERPRINT_PACKETRECIEVEERR.

(** The trace of a download that succeeds. *)
Lemma download_ok_trace buffer w out w' :
  length buffer = TEMPLATE_SIZE →
  _readRawTemplate buffer w = Some ((FINGERPRINT_OK, out), w') →
  ∃ ackData bs,
    w_trace w'
    = w_trace w
      ++ [EvWriteStructuredPacket FINGERPRINT_COMMANDPACKET
            [FINGERPRINT_UPLOAD; 0x01];
          EvGetStructuredPacket FINGERPRINT_OK ackData]
      ++ map EvPayload bs
    ∧ (length bs ≤ TEMPLATE_SIZE)%nat
    ∧ out = bs ++ replicate (TEMPLATE_SIZE - length bs) 0.
Proof using ok_not_timeout ok_not_error.
  intros Hlen H. unfold _readRawTemplate in H. run_inv H.
  - simplify_eq. apply negb_true_iff, Z.eqb_neq in Hc. congruence.
  - simplify_eq. apply negb_true_iff, Z.eqb_neq in Hc0. congruence.
  - unfold writeStructuredPacket in Hrun. simplify_eq.
    apply getStructuredPacket_inv in Hrun0 as (acks & _ & ->).
    apply negb_false_iff, Z.eqb_eq in Hc. subst.
    unfold readAllPackets in H.
    apply (readPackets_inv ok_not_timeout ok_not_error) in H
      as (bs & Htr & Hb & ->); [| done | lia].
    exists l, bs. rewrite Htr. cbn [emit set_acks w_trace fst snd].
    rewrite <- !app_assoc, take_0. cbn [app]. by rewrite Nat.add_0_l in *.
Qed.

(** X18.  The sequence of a successful enrollment.  When
    [enrollAndGetTemplate] returns 0, the calls it made are, in order: polls
    up to a captured image, its conversion into slot 1, polls up to "no
    finger", polls up to a second captured image, its conversion into slot
    2, the creation of the model, the upload command for slot 1 and its
    acknowledgment, the payload bytes stored, and polls up to "no finger";
    the output is these payload bytes followed by zeros. *)
Theorem enroll_success_sequence out w out' w' :
  length out = TEMPLATE_SIZE →
  enrollAndGetTemplate out w = Some ((0, out'), w') →
  ∃ rs1 rs2 rs3 rs4 ackData bs,
    w_trace w'
    = w_trace w
      ++ map EvGetImage (rs1 ++ [FINGERPRINT_OK])
      ++ [EvImage2Tz 1 FINGERPRINT_OK]
      ++ map EvGetImage (rs2 ++ [FINGERPRINT_NOFINGER])
      ++ map EvGetImage (rs3 ++ [FINGERPRINT_OK])
      ++ [EvImage2Tz 2 FINGERPRINT_OK; EvCreateModel FINGERPRINT_OK;
          EvWriteStructuredPacket FINGERPRINT_COMMANDPACKET
            [FINGERPRINT_UPLOAD; 0x01];
          EvGetStructuredPacket FINGERPRINT_OK ackData]
      ++ map EvPayload bs
      ++ map EvGetImage (rs4 ++ [FINGERPRINT_NOFINGER])
    ∧ (length bs ≤ TEMPLATE_SIZE)%nat
    ∧ out' = bs ++ replicate (TEMPLATE_SIZE - length bs) 0.
Proof using ok_not_timeout ok_not_error.
  intros Hlen H. unfold enrollAndGetTemplate in H. run_inv H; simplify_eq.
  repeat match goal with
    | Hc : negb _ = false |- _ => apply negb_false_iff in Hc
    | Hc : (_ =? _) = true |- _ => apply Z.eqb_eq in Hc
    end.
  subst.
  repeat match goal with
    | Hf : awaitFinger _ _ = Some (true, _) |- _ =>
        apply awaitFinger_inv in Hf as (? & ? & _ & -> & Hf);
        destruct (Hf eq_refl) as (? & ->); clear Hf
    | Hr : awaitRemoval _ = Some _ |- _ =>
        apply awaitRemovalLoop_inv in Hr as (? & ? & _ & _ & ->)
    | Hi : image2Tz _ _ = Some _ |- _ => apply image2Tz_inv in Hi
    | Hm : createModel _ = Some _ |- _ => apply createModel_inv in Hm
    | Hd : _readRawTemplate _ _ = Some _ |- _ =>
        apply (download_ok_trace _ _ _ _ Hlen) in Hd as (ackData & bs & Hd & Hb & ->)
    end.
  assert (Hp : ∀ rs rest w0,
            w_trace (polled rs rest w0) = w_trace w0 ++ map EvGetImage rs)
    by reflexivity.
  repeat match goal with
    | Ht : w_trace ?a = _ |- _ => rewrite ?Hp in Ht
    end.
  repeat first
    [ rewrite Hp
    | match goal with
      | Ht : w_trace ?a = _ |- context [w_trace ?a] => rewrite Ht
      end ].
  rewrite <- !app_assoc.
  do 4 eexists. exists ackData, bs. split; [reflexivity | done].
Qed.

End Sequence.
End EnrollmentSequence.

(** ** Hexadecimal dump *)

Section HexDump.

Lemma hex_byte b :
  is_byte b →
  (if b <? 0x10 then [48] else []) ++ print_HEX b
  = [hex_digit (b / 16); hex_digit (b mod 16)].
Proof.
  unfold is_byte. intros Hb. unfold print_HEX. cbn [printNumber].
  destruct (Z.ltb_spec b 16) as [Hlt | Hge].
  - rewrite (Z.div_small b 16), (Z.mod_small b 16) by lia. reflexivity.
  - assert (H1 : 1 ≤ b / 16 < 16)
      by (split; [apply Z.div_le_lower_bound | apply Z.div_lt_upper_bound]; lia).
    rewrite (proj2 (Z.eqb_neq _ _)) by lia.
    rewrite (Z.div_small (b / 16) 16), (Z.mod_small (b / 16) 16) by lia.
    reflexivity.
Qed.

(** X21.  The hexadecimal dump is fixed-width.  For a buffer of bytes,
    [_printHex] writes for each of the first [size] bytes exactly two
    upper-case hexadecimal digits, the high one then the low one, and ends
    the line with CR LF: the padding "0" and the digits of
    [Serial.print(b, HEX)] together are always two characters. *)
Theorem printHex_two_digits_per_byte buffer size :
  (size ≤ length buffer)%nat → Forall is_byte buffer →
  _printHex buffer size
  = flat_map (λ b, [hex_digit (b / 16); hex_digit (b mod 16)])
             (take size buffer)
    ++ [13; 10]
  ∧ length (_printHex buffer size) = (2 * size + 2)%nat.
Proof.
  intros Hsize Hb.
  assert (Heq : _printHex buffer size
                = flat_map (λ b, [hex_digit (b / 16); hex_digit (b mod 16)])
                    (take size buffer) ++ [13; 10]).
  { unfold _printHex. f_equal.
    revert buffer Hsize Hb. induction size as [|n IH]; intros buffer Hsize Hb.
    - by rewrite take_0.
    - rewrite seq_S, flat_map_app. cbn [flat_map Nat.add]. rewrite app_nil_r.
      rewrite IH by (done || lia).
      destruct (lookup_lt_is_Some_2 buffer n ltac:(lia)) as [b Hlk].
      rewrite (take_S_r _ _ _ Hlk), flat_map_app. cbn [flat_map].
      rewrite app_nil_r. f_equal.
      unfold at_index. rewrite Hlk. cbn [default].
      apply hex_byte. eapply Forall_lookup_1; eassumption. }
  split; [exact Heq |]. rewrite Heq, length_app. cbn [length].
  assert (∀ l : list Z,
            length (flat_map (λ b, [hex_digit (b / 16); hex_digit (b mod 16)]) l)
            = (2 * length l)%nat) as ->.
  { induction l as [|x l IHl]; cbn [flat_map length app]; [done | lia]. }
  rewrite length_take. lia.
Qed.

End HexDump.

(** * Concrete runs

    Runs on the scripted devices, with the constants of the driver. *)

#[local] Existing Instance adafruit.

Lemma header_timeout_policy_witness :
  (∃ buf w2,
     _readRawTemplate (codes := adafruit) stale truncated_transfer
     = Some ((0, take 300 buf ++ replicate 212 0), w2))
  ∧ (∃ w2, _readRawTemplate (codes := adafruit) stale upload_acked
           = Some ((0xFF, stale), w2)).
Proof.
  split.
  - assert (Hs : ∃ buf wk, LoopState (codes := adafruit) stale
                             truncated_transfer 300 buf wk
                           ∧ w_serial wk = true ∧ w_rx wk = []).
    { eexists _, _. split.
      - eapply loop_next;
          [eapply loop_next;
             [eapply loop_next;
                [apply (@loop_entry adafruit stale
                          truncated_transfer [0] []); reflexivity
                | unfold TEMPLATE_SIZE; lia | cbv; reflexivity
                | cbv; discriminate]
             | unfold TEMPLATE_SIZE; lia | cbv; reflexivity
             | cbv; discriminate]
          | unfold TEMPLATE_SIZE; lia | cbv; reflexivity | cbv; discriminate].
      - split; reflexivity. }
    destruct Hs as (buf & wk & Hs & Hser & Hrx).
    assert (Hread : ∀ t, _readByte t wk = Some (-1, wk)).
    { intros t. unfold _readByte. rewrite Hser, Hrx. reflexivity. }
    destruct (header_timeout_policy (codes := adafruit) stale
                truncated_transfer 300 buf wk (-1) wk (-1) wk) as [H _];
      [reflexivity | exact Hs | unfold TEMPLATE_SIZE; lia | apply Hread
      | apply Hread | left; lia |].
    exists buf, wk. apply H. lia.
  - set (w0 := emit (EvGetStructuredPacket 0 [0])
                 (set_acks []
                    (emit (EvWriteStructuredPacket 1 [8; 1]) upload_acked))).
    destruct (header_timeout_policy (codes := adafruit) stale upload_acked
                0 stale w0 (-1) w0 (-1) w0) as [_ H];
      [reflexivity
      | apply (@loop_entry adafruit stale upload_acked [0] []); reflexivity
      | unfold TEMPLATE_SIZE; lia | reflexivity | reflexivity | left; lia |].
    exists w0. apply H. reflexivity.
Defined.


Lemma upload_emits_four_data_frames_witness :
  ∃ w' evs,
    uploadTemplateToBuffer (codes := adafruit) template_AA 2 upload_acked
    = Some (0, w') ∧
    w_trace w' = evs ∧
    length (serial_frames evs) = 5%nat.
Proof.
  destruct (upload_emits_four_data_frames (codes := adafruit)
              template_AA 2 upload_acked [0] [])
    as (w' & evs & c1 & c2 & c3 & c4 & Hrun & Htr & Hfr & _);
    [reflexivity | reflexivity | reflexivity | reflexivity |].
  exists w', evs. split; [exact Hrun |]. split; [exact Htr |].
  rewrite Hfr. reflexivity.
Defined.

Lemma upload_frames_length_and_checksum_witness :
  ∃ evs, w_trace (uploaded (codes := adafruit) template_AA 2 [0] []
                    upload_acked) = evs ∧
         Forall well_framed (serial_frames evs).
Proof.
  destruct (upload_frames_length_and_checksum (codes := adafruit)
              template_AA 2 upload_acked 0
              (uploaded (codes := adafruit) template_AA 2 [0] [] upload_acked))
    as (evs & Htr & Hfr); [reflexivity | vm_compute; reflexivity |].
  exists evs. split; [exact Htr | exact Hfr].
Defined.

Lemma digest_and_comparison_witness :
  ∃ T w',
    _getTemplateBytes (codes := adafruit) stale capture_ok = Some ((0, T), w')
    ∧ T = [0x11; 0x12; 0x13; 0x21; 0x22] ++ replicate 507 0
    ∧ readAndHashFingerprint Sha256.digest stale [] capture_ok
      = Some ((0, Sha256.digest T), w')
    ∧ length (Sha256.digest T) = 32%nat
    ∧ compareHashes (Sha256.digest T) (Sha256.digest T) = true.
Proof.
  destruct (_getTemplateBytes (codes := adafruit) stale capture_ok)
    as [[[r T] w']|] eqn:Hg; [| vm_compute in Hg; discriminate Hg].
  assert (Hr : r = 0 ∧ T = [0x11; 0x12; 0x13; 0x21; 0x22] ++ replicate 507 0)
    by (vm_compute in Hg; by injection Hg as <- <- _).
  destruct Hr as [-> HT].
  assert (Hlen : length T = TEMPLATE_SIZE) by (by rewrite HT).
  destruct (digest_and_comparison (codes := adafruit) Sha256.digest
              sha256_digest_length)
    as (Hok & _ & _ & Hdig & _ & Hrefl & _).
  destruct (Hdig T) as (_ & Hfull & Hsize).
  exists T, w'. split; [reflexivity |]. split; [exact HT |].
  rewrite <- (Hfull Hlen).
  split; [exact (Hok stale [] capture_ok T w' Hg) |].
  split; [exact Hsize | exact (Hrefl T)].
Defined.

Lemma broadcast_data_frame_round_trip_witness :
  decode_frame (codes := adafruit) (encoded_frame 2 [0x11; 0x22])
  = Some (2, [0x11; 0x22])
  ∧ encode_frame 2 [0x11; 0x22] = encoded_frame 2 [0x11; 0x22].
Proof.
  apply (broadcast_data_frame_round_trip (codes := adafruit) 2 [0x11; 0x22]).
  - left. reflexivity.
  - repeat constructor; unfold is_byte; lia.
  - unfold TEMPLATE_SIZE. cbn [length]. lia.
Defined.

(** Valid frames that do not come back.  The decoder drops the address and
    the encoder writes the broadcast address; the decoder takes only data
    packets; and it stores no more than a template. *)
Lemma round_trip_counterexample :
  (valid_frame frame_from_device_1 ∧ ¬ round_trips frame_from_device_1)
  ∧ (valid_frame ack_frame ∧ ¬ round_trips ack_frame)
  ∧ (valid_frame oversize_frame ∧ ¬ round_trips oversize_frame).
Proof.
  assert (Hbyte : ∀ b, (0 <=? b) && (b <? 256) = true → is_byte b).
  { intros b [H1%Z.leb_le H2%Z.ltb_lt]%andb_true_iff. by split. }
  repeat split.
  - exists [0; 0; 0; 1], 2, [0x11].
    repeat split; repeat constructor; by apply Hbyte.
  - intros (ty & payload & Hdec & Henc).
    vm_compute in Hdec. injection Hdec as <- <-.
    vm_compute in Henc. discriminate Henc.
  - exists broadcast, 7, [0x00].
    repeat split; repeat constructor; by apply Hbyte.
  - intros (ty & payload & Hdec & Henc).
    vm_compute in Hdec. discriminate Hdec.
  - exists broadcast, 2, (replicate 513 0x55).
    repeat split;
      first [ apply Forall_replicate; by apply Hbyte
            | unfold frame_length; rewrite length_replicate; lia
            | repeat constructor; by apply Hbyte ].
  - intros (ty & payload & Hdec & Henc).
    vm_compute in Hdec. injection Hdec as <- <-.
    vm_compute in Henc. discriminate Henc.
Qed.

Lemma enroll_create_model_outcomes_witness :
  (∃ w', enrollAndGetTemplate (codes := adafruit) stale model_error
         = Some ((3, stale), w'))
  ∧ (∃ w', enrollAndGetTemplate (codes := adafruit) stale model_mismatch
           = Some ((3, stale), w')).
Proof.
  split.
  - edestruct (enroll_create_model_outcomes (codes := adafruit) stale
                 model_error) as (_ & _ & Herr);
      [cbv; reflexivity | cbv; reflexivity | cbv; reflexivity
      | cbv; reflexivity | cbv; reflexivity | cbv; reflexivity |].
    eexists. apply Herr; discriminate.
  - edestruct (enroll_create_model_outcomes (codes := adafruit) stale
                 model_mismatch) as (_ & Hmis & _);
      [cbv; reflexivity | cbv; reflexivity | cbv; reflexivity
      | cbv; reflexivity | cbv; reflexivity | cbv; reflexivity |].
    eexists. apply Hmis; [discriminate | reflexivity].
Defined.

(** The device's own code for the failed model (0x01) is not what the
    caller gets. *)
Lemma enroll_device_code_counterexample :
  ¬ (∀ out w r w' p,
       enrollAndGetTemplate (codes := adafruit) out w = Some (r, w') →
       last (w_trace w') = Some (EvCreateModel p) →
       p ≠ FINGERPRINT_OK → p ≠ FINGERPRINT_ENROLLMISMATCH →
       r.1 = p).
Proof.
  intros H.
  destruct (enrollAndGetTemplate (codes := adafruit) stale model_error)
    as [[r w']|] eqn:Hrun; [| vm_compute in Hrun; discriminate Hrun].
  specialize (H stale model_error r w' 1 Hrun).
  vm_compute in Hrun. injection Hrun as <- <-.
  discriminate H; [reflexivity | discriminate | discriminate].
Qed.

Lemma enroll_finger_timeouts_witness :
  (∃ w', enrollAndGetTemplate (codes := adafruit) stale no_first_finger
         = Some ((1, stale), w'))
  ∧ (∃ w', enrollAndGetTemplate (codes := adafruit) stale no_second_finger
           = Some ((1, stale), w')).
Proof.
  split.
  - destruct (enroll_finger_timeouts (codes := adafruit) stale
                no_first_finger) as (Hfirst & _).
    eexists. apply Hfirst. cbv. reflexivity.
  - destruct (enroll_finger_timeouts (codes := adafruit) stale
                no_second_finger) as (_ & Hsecond).
    eexists. eapply Hsecond; cbv; reflexivity.
Defined.

(** The two timeouts give the same value. *)
Lemma enroll_timeout_stage_counterexample :
  ¬ (∀ out w w1 v v1 v2 v3 v4 r1 w' r2 v',
       awaitFinger (codes := adafruit) 200 w = Some (false, w1) →
       awaitFinger (codes := adafruit) 200 v = Some (true, v1) →
       image2Tz 1 v1 = Some (FINGERPRINT_OK, v2) →
       awaitRemoval (codes := adafruit) v2 = Some (tt, v3) →
       awaitFinger (codes := adafruit) 200 v3 = Some (false, v4) →
       enrollAndGetTemplate (codes := adafruit) out w = Some (r1, w') →
       enrollAndGetTemplate (codes := adafruit) out v = Some (r2, v') →
       r1.1 ≠ r2.1).
Proof.
  intros H.
  destruct (enrollAndGetTemplate stale no_first_finger)
    as [[r1 w']|] eqn:Hw; [| vm_compute in Hw; discriminate Hw].
  destruct (enrollAndGetTemplate stale no_second_finger)
    as [[r2 v']|] eqn:Hv; [| vm_compute in Hv; discriminate Hv].
  eapply (H stale no_first_finger _ no_second_finger _ _ _ _ r1 w' r2 v');
    [cbv; reflexivity | cbv; reflexivity | cbv; reflexivity
    | cbv; reflexivity | cbv; reflexivity | exact Hw | exact Hv |].
  vm_compute in Hw, Hv. injection Hw as <- _. injection Hv as <- _.
  reflexivity.
Qed.

Lemma match_awaits_removal_on_verdict_witness :
  (∃ r w', matchWithTemplate template_AA 7 second_try = Some (r, w')
           ∧ ends_with_removal w')
  ∧ (∃ r w', matchWithTemplate template_AA 7 other_code = Some (r, w')
             ∧ ends_with_removal w').
Proof.
  split.
  - destruct (matchWithTemplate template_AA 7 second_try)
      as [[r w']|] eqn:Hrun; [| vm_compute in Hrun; discriminate Hrun].
    exists r, w'. split; [reflexivity |].
    destruct (match_awaits_removal_on_verdict template_AA 7 second_try r w'
                Hrun) as (Hok & _).
    apply Hok. vm_compute in Hrun. injection Hrun as <- _. reflexivity.
  - destruct (matchWithTemplate template_AA 7 other_code)
      as [[r w']|] eqn:Hrun; [| vm_compute in Hrun; discriminate Hrun].
    exists r, w'. split; [reflexivity |].
    destruct (match_awaits_removal_on_verdict template_AA 7 other_code r w'
                Hrun) as (_ & Hverdict & _).
    edestruct Hverdict as (Hother & _);
      [cbv; reflexivity | cbv; reflexivity | cbv; reflexivity |].
    apply Hother. discriminate.
Defined.

(** The finger is on the sensor throughout, the capture loop gives up, and
    the function returns with no poll for removal. *)
Lemma match_removal_counterexample :
  ¬ (∀ tpl sc w r w',
       matchWithTemplate tpl sc w = Some (r, w') → ends_with_removal w').
Proof.
  intros H.
  destruct (matchWithTemplate template_AA 7 messy_finger)
    as [[r w']|] eqn:Hrun; [| vm_compute in Hrun; discriminate Hrun].
  specialize (H _ _ _ _ _ Hrun).
  vm_compute in Hrun. injection Hrun as _ <-.
  vm_compute in H. discriminate H.
Qed.

Lemma download_ok_buffer_witness :
  ∃ out w' evs,
    _readRawTemplate stale short_transfer = Some ((0, out), w') ∧
    w_trace w' = evs ∧
    payload_of evs = [0x11; 0x12; 0x13; 0x21; 0x22] ∧
    out = payload_of evs ++ replicate 507 0.
Proof.
  destruct (_readRawTemplate stale short_transfer) as [[[st out] w']|] eqn:Hrun;
    [| vm_compute in Hrun; discriminate Hrun].
  assert (Hst : st = 0) by (vm_compute in Hrun; by injection Hrun as <- _ _).
  subst st.
  destruct (download_ok_buffer (codes := adafruit) ltac:(discriminate)
              ltac:(discriminate) stale short_transfer out w' eq_refl Hrun)
    as (evs & Htr & Hlen & Hout).
  exists out, w', evs. split; [reflexivity |]. split; [exact Htr |].
  assert (Hp : payload_of evs = [0x11; 0x12; 0x13; 0x21; 0x22]).
  { change (w_trace short_transfer ++ evs) with evs in Htr. rewrite <- Htr.
    vm_compute in Hrun. injection Hrun as _ <-. reflexivity. }
  split; [exact Hp |]. rewrite Hout, Hp. reflexivity.
Defined.

(** *** Scenarios of the specification *)

Example download_300_of_512 :
  ∃ out w',
    _readRawTemplate stale truncated_transfer = Some ((0, out), w') ∧
    length out = 512%nat ∧
    take 300 out
    = replicate 128 0x11 ++ replicate 128 0x22 ++ replicate 44 0x33 ∧
    drop 300 out = replicate 212 0.
Proof.
  destruct (_readRawTemplate stale truncated_transfer)
    as [[[st out] w']|] eqn:Hrun; [| vm_compute in Hrun; discriminate Hrun].
  vm_compute in Hrun. injection Hrun as <- <- <-.
  eexists _, _. repeat split.
Qed.

(** The template of 512 bytes 0xAA has one digest, equal to itself. *)
Example digest_of_AA :
  computeDigest Sha256.digest template_AA
  = [0x79; 0x9e; 0xdf; 0x40; 0xe8; 0x11; 0x5d; 0xc9; 0x80; 0x10; 0x9a; 0x64;
     0xff; 0x0a; 0x7a; 0xe2; 0xc6; 0xb6; 0x2e; 0x20; 0x31; 0x3c; 0x4a; 0x01;
     0xf9; 0x87; 0x1d; 0x0e; 0x18; 0x9a; 0xa7; 0xc2].
Proof. vm_compute. reflexivity. Qed.

Example sha256_abc :
  Sha256.digest [0x61; 0x62; 0x63]
  = [0xba; 0x78; 0x16; 0xbf; 0x8f; 0x01; 0xcf; 0xea; 0x41; 0x41; 0x40; 0xde;
     0x5d; 0xae; 0x22; 0x23; 0xb0; 0x03; 0x61; 0xa3; 0x96; 0x17; 0x7a; 0x9c;
     0xb4; 0x10; 0xff; 0x61; 0xf2; 0x00; 0x15; 0xad].
Proof. vm_compute. reflexivity. Qed.

(** *** Further runs *)

Lemma serial_not_set_witness :
  (∃ w', _readRawTemplate stale (FingerPrint short_transfer)
         = Some ((0xFF, stale), w')
         ∧ w_rx w' = w_rx short_transfer)
  ∧ (∃ w1, setSerial true (FingerPrint short_transfer) = Some (tt, w1)
           ∧ ∃ w2, _readByte 100 w1 = Some (0xEF, w2)).
Proof.
  destruct (serial_not_set (codes := adafruit) short_transfer)
    as (_ & _ & Hdown & Hset).
  split.
  - apply (Hdown stale [0] []); reflexivity.
  - edestruct (Hset 100) as (w1 & H1 & H2); [reflexivity |].
    exists w1. split; [exact H1 |]. eexists. exact H2.
Defined.

Lemma download_status_witness :
  ∃ w', _readRawTemplate stale ack_not_read = Some ((1, stale), w')
        ∧ w_rx w' = [Some 0xEF].
Proof.
  destruct (_readRawTemplate stale ack_not_read) as [[[st out] w']|] eqn:Hrun;
    [| vm_compute in Hrun; discriminate Hrun].
  destruct (download_status (codes := adafruit) stale ack_not_read st out w'
              1 [0] [] Hrun eq_refl) as (H & _ & _).
  destruct (H ltac:(discriminate)) as (-> & -> & Hrx).
  exists w'. split; [reflexivity | exact Hrx].
Defined.

Lemma download_rejects_bad_header_witness :
  ∃ w2, _readRawTemplate stale bad_header = Some ((1, stale), w2).
Proof.
  eexists.
  eapply (download_rejects_bad_header (codes := adafruit)) with
    (bytesRead := 0%nat) (b1 := 0x12) (b2 := 0x34);
    [reflexivity
    | apply (@loop_entry adafruit stale bad_header [0] []); reflexivity
    | unfold TEMPLATE_SIZE; lia | reflexivity | reflexivity | lia | lia
    | left; lia].
Defined.

Lemma download_rejects_other_packets_witness :
  ∃ w', _readRawTemplate stale ack_instead_of_data = Some ((1, stale), w')
        ∧ w_rx w' = [Some 0x55].
Proof.
  edestruct (download_rejects_other_packets (codes := adafruit)) with
    (buffer := stale) (w := ack_instead_of_data) (bytesRead := 0%nat)
    (addr := broadcast) (ty := 7) (lh := 0) (ll := 3)
    (rest := map Some [0; 0; 0x0A; 0x55]) as (w' & Hrun & _ & Hrx);
    [reflexivity
    | apply (@loop_entry adafruit stale ack_instead_of_data [0] []); reflexivity
    | unfold TEMPLATE_SIZE; lia | reflexivity | reflexivity | reflexivity
    | repeat constructor; unfold is_byte; lia
    | unfold is_byte; lia | unfold is_byte; lia | unfold is_byte; lia
    | cbv; discriminate | cbv; discriminate |].
  exists w'. split; [exact Hrun | exact Hrx].
Defined.


Lemma download_stops_at_full_buffer_witness :
  ∃ w', _readRawTemplate stale length_field_zero
        = Some ((0, replicate 512 0x5A), w')
        ∧ w_rx w' = [Some 0xCC].
Proof.
  edestruct (download_stops_at_full_buffer (codes := adafruit)) with
    (buffer := stale) (w := length_field_zero) (bytesRead := 0%nat)
    (addr := broadcast) (ty := 2) (lh := 0) (ll := 0)
    (bs := replicate 512 0x5A) (rest := map Some [0xAA; 0xBB; 0xCC])
    as (w' & Hrun & Hrx);
    [reflexivity
    | apply (@loop_entry adafruit stale length_field_zero [0] []); reflexivity
    | unfold TEMPLATE_SIZE; lia | reflexivity | reflexivity
    | repeat constructor; unfold is_byte; lia
    | left; reflexivity | unfold is_byte; lia | unfold is_byte; lia
    | apply Forall_replicate; unfold is_byte; lia
    | reflexivity | vm_compute; discriminate | reflexivity |].
  exists w'. split; [exact Hrun | exact Hrx].
Defined.

Lemma download_ignores_address_and_checksum_witness :
  ∃ w', _readRawTemplate stale odd_frames
        = Some ((0, [0x11; 0x12; 0x21] ++ replicate 509 0), w').
Proof.
  edestruct (download_ignores_address_and_checksum (codes := adafruit)
               ltac:(discriminate)
               [mkWireFrame [0; 0; 0; 1] [0x11; 0x12] 0xDEAD]
               (mkWireFrame [1; 2; 3; 4] [0x21] 0)
               stale odd_frames [0] [] []) as (w' & Hrun);
    [reflexivity | reflexivity | reflexivity
    | cbn [odd_frames w_rx]; by rewrite app_nil_r
    | repeat constructor; unfold is_byte; cbn; lia
    | repeat constructor; unfold is_byte; cbn; lia
    | unfold TEMPLATE_SIZE; cbn; lia | reflexivity |].
  exists w'. exact Hrun.
Defined.

Lemma download_failure_buffer_witness :
  ∃ out w' evs,
    _readRawTemplate stale cut_in_second_packet = Some ((0xFF, out), w') ∧
    w_trace w' = evs ∧
    payload_of evs = [0x11; 0x12; 0x13; 0x21] ∧
    out = payload_of evs ++ replicate 508 0x77.
Proof.
  destruct (_readRawTemplate stale cut_in_second_packet)
    as [[[st out] w']|] eqn:Hrun;
    [| vm_compute in Hrun; discriminate Hrun].
  assert (Hst : st = 0xFF) by (vm_compute in Hrun; by injection Hrun as <- _ _).
  subst st.
  destruct (download_failure_buffer (codes := adafruit) stale
              cut_in_second_packet 0xFF out w' eq_refl Hrun ltac:(discriminate))
    as (evs & Htr & Hlen & Hout).
  exists out, w', evs. split; [reflexivity |]. split; [exact Htr |].
  assert (Hp : payload_of evs = [0x11; 0x12; 0x13; 0x21]).
  { change (w_trace cut_in_second_packet ++ evs) with evs in Htr. rewrite <- Htr.
    vm_compute in Hrun. injection Hrun as _ <-. reflexivity. }
  split; [exact Hp |]. rewrite Hout, Hp. reflexivity.
Defined.

Lemma upload_then_download_round_trip_witness :
  ∃ wu evs,
    uploadTemplateToBuffer template_AA 2 upload_acked = Some (0, wu)
    ∧ w_trace wu = evs
    ∧ ∃ wd',
        _readRawTemplate stale
          (mkWorld true [] [] [] [(0, [0])]
                   (map Some (concat (drop 1 (serial_frames evs))) ++ []) [])
        = Some ((0, template_AA), wd').
Proof.
  destruct (upload_then_download_round_trip (codes := adafruit)
              ltac:(discriminate) template_AA 2 upload_acked [0] [])
    as (wu & evs & Hup & Htr & Hdown);
    [reflexivity | apply Forall_replicate; unfold is_byte; lia
    | reflexivity | reflexivity | reflexivity |].
  exists wu, evs. split; [exact Hup |]. split; [exact Htr |].
  apply (Hdown stale _ [0] [] []); reflexivity.
Defined.


Lemma finger_wait_bound_witness :
  awaitFinger 200 no_first_finger
  = Some (false, polled (replicate 202 2) [] no_first_finger)
  ∧ awaitFinger 100 unlisted_error
    = Some (true, polled [2; 0] [] unlisted_error).
Proof.
  split.
  - apply (finger_wait_bound (codes := adafruit) 200 no_first_finger
             (replicate 202 2) []);
      [lia | reflexivity | apply Forall_replicate; discriminate | reflexivity].
  - apply (finger_wait_bound (codes := adafruit) 100 unlisted_error [2] [0]);
      [lia | reflexivity | repeat constructor; discriminate | reflexivity
      | cbn; lia].
Defined.

Lemma removal_wait_ends_only_on_no_finger_witness :
  awaitRemoval finger_leaves = Some (tt, polled [0; 0; 2] [0] finger_leaves).
Proof.
  apply (proj1 (removal_wait_ends_only_on_no_finger (codes := adafruit)
                  finger_leaves) [0; 0] [0]).
  - reflexivity.
  - repeat constructor; discriminate.
Defined.

Lemma match_capture_bounds_witness :
  matchWithTemplate template_AA 7 no_first_finger
  = Some ((1, 7), polled (replicate 202 2) [] no_first_finger)
  ∧ matchWithTemplate template_AA 7 messy_finger
    = Some ((1, 7), captured (replicate 101 6) [] [] messy_finger).
Proof.
  split.
  - apply (match_capture_bounds (codes := adafruit) template_AA 7
             no_first_finger);
      [reflexivity | apply Forall_replicate; discriminate | reflexivity].
  - apply (match_capture_bounds (codes := adafruit) template_AA 7 messy_finger);
      [reflexivity | reflexivity
      | apply Forall_replicate; split; [discriminate | left; reflexivity]
      | reflexivity].
Defined.

Lemma capture_accepts_other_conversion_codes_witness :
  ∃ w', captureGoodImage unlisted_error = Some (true, w')
        ∧ w_trace w' = [EvGetImage 2; EvGetImage 0; EvImage2Tz 1 0x15].
Proof.
  eexists. split.
  - apply (capture_accepts_other_conversion_codes (codes := adafruit)
             unlisted_error [2] [] 0x15 []);
      [reflexivity | repeat constructor; discriminate | cbn; lia | reflexivity
      | right; split; discriminate].
  - reflexivity.
Defined.


Lemma match_command_count_witness :
  ∃ w', matchWithTemplate template_AA 7 second_try = Some ((0, 513), w')
        ∧ (match_commands (w_trace w') - match_commands (w_trace second_try)
           ≤ 2)%nat.
Proof.
  destruct (matchWithTemplate template_AA 7 second_try)
    as [[[r sc'] w']|] eqn:Hrun; [| vm_compute in Hrun; discriminate Hrun].
  assert (Hr : r = 0 ∧ sc' = 513)
    by (vm_compute in Hrun; by injection Hrun as <- <- _).
  destruct Hr as [-> ->].
  destruct (match_command_count (codes := adafruit) template_AA 7 second_try
              0 513 w' Hrun) as (_ & H & _).
  exists w'. split; [reflexivity | exact H].
Defined.

Lemma enroll_outcomes_witness :
  ∃ w', enrollAndGetTemplate stale model_error = Some ((3, stale), w')
        ∧ sensor_only model_error w'.
Proof.
  destruct (enrollAndGetTemplate stale model_error)
    as [[[r out'] w']|] eqn:Hrun; [| vm_compute in Hrun; discriminate Hrun].
  assert (Hr : r = 3) by (vm_compute in Hrun; by injection Hrun as <- _ _).
  subst r.
  destruct (enroll_outcomes (codes := adafruit) ltac:(discriminate)
              ltac:(discriminate) stale model_error 3 out' w' eq_refl Hrun)
    as (_ & H & _).
  destruct (H ltac:(auto)) as [-> Hs].
  exists w'. split; [reflexivity | exact Hs].
Defined.

Lemma enroll_success_sequence_witness :
  ∃ out' w' rs1 rs2 rs3 rs4 ackData bs,
    enrollAndGetTemplate stale enroll_ok = Some ((0, out'), w')
    ∧ w_trace w'
      = map EvGetImage (rs1 ++ [0]) ++ [EvImage2Tz 1 0]
        ++ map EvGetImage (rs2 ++ [2]) ++ map EvGetImage (rs3 ++ [0])
        ++ [EvImage2Tz 2 0; EvCreateModel 0;
            EvWriteStructuredPacket 1 [8; 1]; EvGetStructuredPacket 0 ackData]
        ++ map EvPayload bs ++ map EvGetImage (rs4 ++ [2])
    ∧ out' = bs ++ replicate (512 - length bs) 0.
Proof.
  destruct (enrollAndGetTemplate stale enroll_ok)
    as [[[r out'] w']|] eqn:Hrun; [| vm_compute in Hrun; discriminate Hrun].
  assert (Hr : r = 0) by (vm_compute in Hrun; by injection Hrun as <- _ _).
  subst r.
  destruct (enroll_success_sequence (codes := adafruit) ltac:(discriminate)
              ltac:(discriminate) stale enroll_ok out' w' eq_refl Hrun)
    as (rs1 & rs2 & rs3 & rs4 & ackData & bs & Htr & _ & Hout).
  exists out', w', rs1, rs2, rs3, rs4, ackData, bs.
  split; [reflexivity |]. split; [exact Htr | exact Hout].
Defined.

Lemma capture_and_hash_outcomes_witness :
  ∃ h' w' bs,
    readAndHashFingerprint Sha256.digest stale [] capture_ok
    = Some ((0, h'), w')
    ∧ ends_with_removal w'
    ∧ stored_between capture_ok w' bs
    ∧ h' = Sha256.digest (bs ++ replicate (512 - length bs) 0).
Proof.
  destruct (readAndHashFingerprint Sha256.digest stale [] capture_ok)
    as [[[r h'] w']|] eqn:Hrun; [| vm_compute in Hrun; discriminate Hrun].
  assert (Hr : r = 0) by (vm_compute in Hrun; by injection Hrun as <- _ _).
  subst r.
  destruct (capture_and_hash_outcomes (codes := adafruit) Sha256.digest
              ltac:(discriminate) ltac:(discriminate)
              stale [] capture_ok 0 h' w' eq_refl Hrun)
    as (_ & _ & _ & He & H).
  destruct (H eq_refl) as (bs & Hst & _ & Hh).
  exists h', w', bs. split; [reflexivity |].
  split; [apply He; discriminate |]. split; [exact Hst | exact Hh].
Defined.

Lemma hash_independent_of_buffer_content_witness :
  readAndHashFingerprint Sha256.digest stale [] capture_ok
  = readAndHashFingerprint Sha256.digest template_AA [] capture_ok.
Proof.
  apply (hash_independent_of_buffer_content (codes := adafruit) Sha256.digest
           ltac:(discriminate) ltac:(discriminate));
    reflexivity.
Defined.

Lemma printHex_two_digits_per_byte_witness :
  _printHex [0x00; 0x0A; 0xAB; 0xFF] 4
  = [48; 48; 48; 65; 65; 66; 70; 70; 13; 10]
  ∧ length (_printHex [0x00; 0x0A; 0xAB; 0xFF] 4) = 10%nat.
Proof.
  apply (printHex_two_digits_per_byte [0x00; 0x0A; 0xAB; 0xFF] 4).
  - cbn; lia.
  - repeat constructor; unfold is_byte; lia.
Defined.
